(** * Order pipeline over SNS/SQS: producer, order-processing consumer,
      notification consumer

    A shallow embedding of [producer/app.py], [order-processing/app.py] and
    [notification/app.py].  Python values that come out of [json.loads] are
    an inductive type; every function of the services is a computation in a
    small monad that threads the process state, collects what the process
    does to the outside (lines written to stdout, SQS delete calls, handler
    invocations) and propagates Python exceptions.  The json library, the
    SQS client and the wall clock are the environment, gathered in the class
    [External]. *)

From Stdlib Require Import String Ascii List ZArith QArith Bool Lia.
From Stdlib Require Import DecimalString DecimalNat FinFun.
From Stdlib Require DecimalPos DecimalZ DecimalFacts.
Import ListNotations.
Local Open Scope string_scope.
Local Open Scope Z_scope.
Local Open Scope list_scope.

Set Implicit Arguments.

(** ** Python values *)

(** A Python [float]: a finite binary64 value is the rational
    [mantissa * 10 ^ exponent] (every finite double has such a form), or an
    infinity, or not-a-number. *)
Inductive pyfloat : Type :=
| FFinite (mantissa exponent : Z)
| FInf (negative : bool)
| FNan.

(** What [json.loads] returns.  A [dict] keeps its insertion order. *)
#[warnings="-register-all"]
Inductive json : Type :=
| JNull
| JBool (b : bool)
| JInt (z : Z)
| JFloat (f : pyfloat)
| JString (s : string)
| JArray (l : list json)
| JObject (d : list (string * json)).

(** The exception classes the three services meet. *)
Inductive exn : Type :=
| JSONDecodeError
| KeyError (key : string)
| TypeError
| ValueError
| UnicodeEncodeError
| OverflowError
| ClientError (code : string)
| OtherException (name : string)
| KeyboardInterrupt.

(** [except Exception] catches everything that derives from [Exception];
    [KeyboardInterrupt] derives from [BaseException] only. *)
Definition is_Exception (e : exn) : bool :=
  match e with KeyboardInterrupt => false | _ => true end.

Definition is_JSONDecodeError (e : exn) : bool :=
  match e with JSONDecodeError => true | _ => false end.

Definition is_ClientError (e : exn) : bool :=
  match e with ClientError _ => true | _ => false end.

Definition is_KeyboardInterrupt (e : exn) : bool :=
  match e with KeyboardInterrupt => true | _ => false end.

(** A call either returns a value or raises. *)
Inductive result (A : Type) : Type :=
| Return (a : A)
| Raise (e : exn).
Arguments Return {A} a.
Arguments Raise {A} e.

(** *** dict *)

Fixpoint dict_get (d : list (string * json)) (k : string) : option json :=
  match d with
  | [] => None
  | (k', v) :: rest => if String.eqb k k' then Some v else dict_get rest k
  end.

(** [d[k] = x]: an existing key keeps its place, a new key goes last. *)
Fixpoint dict_set (d : list (string * json)) (k : string) (x : json)
  : list (string * json) :=
  match d with
  | [] => [(k, x)]
  | (k', v) :: rest =>
      if String.eqb k k' then (k', x) :: rest else (k', v) :: dict_set rest k x
  end.

Definition dict_keys (d : list (string * json)) : list string := map fst d.

(** A Python dict has every key once.  The values that Python can hold are
    those whose dicts, at every depth, have keys that are all different. *)
Fixpoint distinct (keys : list string) : bool :=
  match keys with
  | [] => true
  | k :: rest => negb (existsb (String.eqb k) rest) && distinct rest
  end.

Fixpoint well_formed (v : json) : bool :=
  match v with
  | JArray l => forallb well_formed l
  | JObject d =>
      distinct (map fst d) && forallb (fun entry => well_formed (snd entry)) d
  | _ => true
  end.

(** Induction on a value, with the property at hand for the elements of a
    list and of a dict. *)
Fixpoint json_induction (P : json -> Prop)
  (Hnull : P JNull) (Hbool : forall b, P (JBool b))
  (Hint : forall z, P (JInt z)) (Hfloat : forall f, P (JFloat f))
  (Hstring : forall s, P (JString s))
  (Harray : forall l, Forall P l -> P (JArray l))
  (Hobject : forall d, Forall (fun entry => P (snd entry)) d -> P (JObject d))
  (v : json) : P v :=
  let go := json_induction Hnull Hbool Hint Hfloat Hstring Harray Hobject in
  match v with
  | JNull => Hnull
  | JBool b => Hbool b
  | JInt z => Hint z
  | JFloat f => Hfloat f
  | JString s => Hstring s
  | JArray l =>
      Harray l
        ((fix all (l : list json) : Forall P l :=
            match l with
            | [] => Forall_nil P
            | x :: rest => Forall_cons x (go x) (all rest)
            end) l)
  | JObject d =>
      Hobject d
        ((fix all (d : list (string * json))
            : Forall (fun entry => P (snd entry)) d :=
            match d with
            | [] => Forall_nil _
            | entry :: rest => Forall_cons entry (go (snd entry)) (all rest)
            end) d)
  end.

(** *** str *)

Fixpoint str_contains (needle s : string) : bool :=
  String.prefix needle s
  || match s with
     | EmptyString => false
     | String _ rest => str_contains needle rest
     end.

(** A [str] is held as the bytes of its UTF-8 form; a surrogate, which a
    [str] can hold and UTF-8 cannot, as the three bytes the same scheme
    gives it ([ED A0 80] to [ED BF BF]). *)

(** A byte that continues a code point. *)
Definition is_continuation (c : ascii) : bool :=
  let n := nat_of_ascii c in (128 <=? n)%nat && (n <? 192)%nat.

Definition continues (s : string) : bool :=
  match s with
  | String c _ => is_continuation c
  | EmptyString => false
  end.

(** The code points of a [str], as iterating over it yields them. *)
Fixpoint str_chars (s : string) : list string :=
  match s with
  | EmptyString => []
  | String c rest =>
      match str_chars rest with
      | next :: more =>
          if continues rest then String c next :: more
          else String c EmptyString :: next :: more
      | [] => [String c EmptyString]
      end
  end.

(** The first two bytes of a surrogate: [ED], then [A0] to [BF]. *)
Definition is_surrogate (c c' : ascii) : bool :=
  (nat_of_ascii c =? 237)%nat
  && (160 <=? nat_of_ascii c')%nat && (nat_of_ascii c' <? 192)%nat.

(** [s.encode('utf-8')] succeeds: [s] has no surrogate. *)
Fixpoint encodable (s : string) : bool :=
  match s with
  | EmptyString => true
  | String c rest =>
      match rest with
      | String c' _ => if is_surrogate c c' then false else encodable rest
      | EmptyString => true
      end
  end.

(** The text that an f-string makes of [v] can be encoded: a [str] stands
    for itself; the text of any other value is made with [repr], which
    escapes surrogates. *)
Definition printable (v : json) : bool :=
  match v with
  | JString s => encodable s
  | _ => true
  end.

(** *** Operators used by the consumers *)

(** [needle in v] for a [str] needle: key test on a dict, element test on a
    list, substring test on a str, [TypeError] on anything else. *)
Definition py_contains (needle : string) (v : json) : result bool :=
  match v with
  | JObject d =>
      Return (match dict_get d needle with Some _ => true | None => false end)
  | JArray l =>
      Return (existsb (fun x => match x with
                                | JString s => String.eqb needle s
                                | _ => false
                                end) l)
  | JString s => Return (str_contains needle s)
  | _ => Raise TypeError
  end.

(** [v[k]] for a [str] key: only a dict can be indexed by a string. *)
Definition py_getitem (v : json) (k : string) : result json :=
  match v with
  | JObject d =>
      match dict_get d k with
      | Some x => Return x
      | None => Raise (KeyError k)
      end
  | _ => Raise TypeError
  end.

(** [v[k] = x] for a [str] key. *)
Definition py_setitem (v : json) (k : string) (x : json) : result json :=
  match v with
  | JObject d => Return (JObject (dict_set d k x))
  | _ => Raise TypeError
  end.

Fixpoint all_str (l : list json) : option (list string) :=
  match l with
  | [] => Some []
  | JString s :: rest =>
      match all_str rest with
      | Some ss => Some (s :: ss)
      | None => None
      end
  | _ :: _ => None
  end.

(** [sep.join(v)]: [v] is iterated; a list must hold only strings, a dict
    yields its keys, a string its characters. *)
Definition py_join (sep : string) (v : json) : result string :=
  match v with
  | JArray l =>
      match all_str l with
      | Some ss => Return (String.concat sep ss)
      | None => Raise TypeError
      end
  | JObject d => Return (String.concat sep (dict_keys d))
  | JString s => Return (String.concat sep (str_chars s))
  | _ => Raise TypeError
  end.

(** An [int] converts to [float] when it rounds to a finite double. *)
Definition int_fits_float (z : Z) : bool :=
  Z.abs z <? 2 ^ 1024 - 2 ^ 970.

(** [f"{v:.2f}"].  The digits of the text are those of the number, which
    is what the result carries; the format code fails on anything that is
    not a number. *)
Definition py_format_2f (v : json) : result json :=
  match v with
  | JInt z => if int_fits_float z then Return v else Raise OverflowError
  | JFloat _ => Return v
  | JBool _ => Return v
  | JString _ => Raise ValueError
  | _ => Raise TypeError
  end.

(** The rational value of a finite float. *)
Definition float_value (m e : Z) : Q :=
  if 0 <=? e then inject_Z (m * 10 ^ e)
  else Qmake m (Z.to_pos (10 ^ (- e))).

(** [x < n] for a number [x] and an [int] literal [n]; Python compares an
    [int] with a [float] exactly, and every comparison with nan is false. *)
Definition py_lt_int (x : json) (n : Z) : result bool :=
  match x with
  | JInt z => Return (z <? n)
  | JBool b => Return ((if b then 1 else 0) <? n)
  | JFloat (FFinite m e) =>
      Return (negb (Qle_bool (inject_Z n) (float_value m e)))
  | JFloat (FInf negative) => Return negative
  | JFloat FNan => Return false
  | _ => Raise TypeError
  end.

(** ** The process and its environment *)

(** Lines written to stdout, one constructor per [print] of the two
    consumers.  A line carries the values interpolated into it; wall-clock
    stamps and the layout of the text are left out. *)
Inductive line : Type :=
| LReceived (message_count : nat)
| LProcessingOrder (order_id : json)
| LCustomer (customer_id : json)
| LItems (joined : string)
| LTotal (total_amount : json)
| LStatus (status : json)
| LNowProcessed (order_id : json)
| LErrorParsing
| LErrorProcessing (e : exn)
| LSendingTo (customer_id : json)
| LSubject (order_id : json)
| LBody (total : json)
| LNotificationSent
| LErrorSending (e : exn)
| LDeleted
| LErrorReceiving (e : exn)
| LErrorDeleting (e : exn)
| LDot
| LTotalProcessed (message_count : nat)
| LTotalSent (message_count : nat).

(** What a consumer hands to its domain handler: [process_order] takes the
    message body as text, [send_notification] takes the parsed order. *)
Inductive handler_arg : Type :=
| ArgBody (message_body : string)
| ArgOrder (order : json).

(** What the process does that can be seen from outside, in order.
    [Handled] is written when the domain handler returns to [main]: the
    handle of the message at hand, what the handler was given and what it
    answered.  [SqsDelete] is a call of [sqs_client.delete_message]. *)
Inductive event : Type :=
| Stdout (l : line)
| Handled (receipt_handle : string) (arg : handler_arg) (ok : bool)
| SqsDelete (receipt_handle : string).

(** The Prometheus registry of the order-processing service (label
    [queue='order-processing']); the histogram keeps how many durations it
    has observed, the observed value being a wall-clock difference. *)
Record metrics : Type := {
  messages_received : nat;
  messages_processed : nat;
  messages_failed : nat;
  process_duration : nat
}.

(** Process state: the registry, the local [message_count] of [main] and
    the instant the next [datetime.now] returns. *)
Record state : Type := {
  registry : metrics;
  message_count : nat;
  clock : nat
}.

Definition initial_state : state :=
  {| registry := {| messages_received := 0; messages_processed := 0;
                    messages_failed := 0; process_duration := 0 |};
     message_count := 0;
     clock := 0 |}.

(** A message as [receive_message] delivers it. *)
Record message : Type := {
  Body : string;
  ReceiptHandle : string
}.

(** The response of [receive_message]: the key ['Messages'] is absent when
    the wait ended with nothing to deliver. *)
Record response : Type := {
  Messages : option (list message)
}.

(** The environment of a service: the json library, the SQS delete call
    and the rendering of an instant.  [json_loads] answers [None] where
    [json.loads] raises, and [json_loads_error] is what it raises then:
    [JSONDecodeError], or another exception such as the [ValueError] of an
    integer literal beyond the digit limit, always one that derives from
    [Exception].  The library returns values that Python can hold, and
    reads back what it writes; the limits of the interpreter on the size
    of what it writes are left out. *)
Class External : Type := {
  json_loads : string -> option json;
  json_loads_error : string -> exn;
  json_dumps : json -> string;
  sqs_delete_message : string -> result unit;
  isoformat : nat -> string;
  json_loads_error_Exception :
    forall text, is_Exception (json_loads_error text) = true;
  json_loads_well_formed :
    forall text v, json_loads text = Some v -> well_formed v = true;
  json_dumps_loads :
    forall v, well_formed v = true -> json_loads (json_dumps v) = Some v
}.

(** ** Computations *)

Definition M (A : Type) : Type := state -> result A * state * list event.

Definition ret {A} (a : A) : M A := fun s => (Return a, s, []).

Definition raise {A} (e : exn) : M A := fun s => (Raise e, s, []).

Definition bind {A B} (m : M A) (k : A -> M B) : M B :=
  fun s =>
    match m s with
    | (Return a, s1, t1) =>
        match k a s1 with
        | (r, s2, t2) => (r, s2, t1 ++ t2)
        end
    | (Raise e, s1, t1) => (Raise e, s1, t1)
    end.

Notation "x <- m ;; k" := (bind m (fun x => k))
  (at level 61, m at next level, right associativity).
Notation "m ;; k" := (bind m (fun _ => k))
  (at level 61, right associativity).

Definition lift {A} (r : result A) : M A := fun s => (r, s, []).

Definition emit (e : event) : M unit := fun s => (Return tt, s, [e]).

(** [print(text)] for a text that stdout takes. *)
Definition print (l : line) : M unit := emit (Stdout l).

(** [print(f"... {v} ...")] on a stdout that encodes to UTF-8: the text is
    encoded before anything is written, and a surrogate in it raises
    [UnicodeEncodeError]. *)
Definition print_field (v : json) (l : line) : M unit :=
  fun s =>
    if printable v then (Return tt, s, [Stdout l])
    else (Raise UnicodeEncodeError, s, []).

Definition get : M state := fun s => (Return s, s, []).

Definition modify (f : state -> state) : M unit :=
  fun s => (Return tt, f s, []).

(** The first [except] clause whose class matches the exception. *)
Fixpoint select_clause {A} (clauses : list ((exn -> bool) * (exn -> M A)))
  (e : exn) : option (M A) :=
  match clauses with
  | [] => None
  | (class, handler) :: rest =>
      if class e then Some (handler e) else select_clause rest e
  end.

(** [try: body / except C1: h1 / except C2: h2 ...]: the first matching
    clause handles the exception, an exception no clause matches goes on
    to the caller. *)
Definition try_except {A} (body : M A)
  (clauses : list ((exn -> bool) * (exn -> M A))) : M A :=
  fun s =>
    match body s with
    | (Return a, s1, t1) => (Return a, s1, t1)
    | (Raise e, s1, t1) =>
        match select_clause clauses e with
        | Some handler =>
            match handler s1 with
            | (r, s2, t2) => (r, s2, t1 ++ t2)
            end
        | None => (Raise e, s1, t1)
        end
    end.

(** [with cm: body] for a context manager whose exit does [on_exit] and
    does not swallow exceptions. *)
Definition with_exit {A} (body : M A) (on_exit : M unit) : M A :=
  fun s =>
    match body s with
    | (r, s1, t1) =>
        match on_exit s1 with
        | (_, s2, t2) => (r, s2, t1 ++ t2)
        end
    end.

Fixpoint for_each {A} (f : A -> M unit) (l : list A) : M unit :=
  match l with
  | [] => ret tt
  | x :: rest => f x ;; for_each f rest
  end.

(** [json.loads(text)] *)
Definition loads `{External} (text : string) : M json :=
  match json_loads text with
  | Some v => ret v
  | None => raise (json_loads_error text)
  end.

(** [datetime.now(timezone.utc).isoformat()] *)
Definition now_isoformat `{External} : M string :=
  s <- get ;;
  modify (fun s => {| registry := registry s;
                      message_count := message_count s;
                      clock := S (clock s) |}) ;;
  ret (isoformat (clock s)).

Definition update_registry (f : metrics -> metrics) : M unit :=
  modify (fun s => {| registry := f (registry s);
                      message_count := message_count s;
                      clock := clock s |}).

Definition inc_received (m : metrics) : metrics :=
  {| messages_received := S (messages_received m);
     messages_processed := messages_processed m;
     messages_failed := messages_failed m;
     process_duration := process_duration m |}.

Definition inc_processed (m : metrics) : metrics :=
  {| messages_received := messages_received m;
     messages_processed := S (messages_processed m);
     messages_failed := messages_failed m;
     process_duration := process_duration m |}.

Definition inc_failed (m : metrics) : metrics :=
  {| messages_received := messages_received m;
     messages_processed := messages_processed m;
     messages_failed := S (messages_failed m);
     process_duration := process_duration m |}.

Definition observe_duration (m : metrics) : metrics :=
  {| messages_received := messages_received m;
     messages_processed := messages_processed m;
     messages_failed := messages_failed m;
     process_duration := S (process_duration m) |}.

(** The state with the count of [main] back at zero. *)
Definition reset (s : state) : state :=
  {| registry := registry s; message_count := 0; clock := clock s |}.

(** [message_count = 0] *)
Definition reset_message_count : M unit := modify reset.

(** [message_count += 1], answering the new value. *)
Definition next_message_count : M nat :=
  modify (fun s => {| registry := registry s;
                      message_count := S (message_count s);
                      clock := clock s |}) ;;
  s <- get ;;
  ret (message_count s).

(** How far [main] has come when the observed polls are used up. *)
Inductive exit : Type :=
| StillPolling
| Stopped.

(** A domain handler as [main] calls it: its return is recorded. *)
Definition handler_call (receipt_handle : string) (arg : handler_arg)
  (handler : M bool) : M bool :=
  ok <- handler ;;
  emit (Handled receipt_handle arg ok) ;;
  ret ok.

(** ** order-processing/app.py *)

Module OrderProcessing.
Section Service.
Context `{External}.

(** The statements of the [try] block of [process_order] that follow the
    parse; the result is the local [order] as the block leaves it. *)
Definition process_parsed (order : json) : M json :=
  order_id <- lift (py_getitem order "order_id") ;;
  print_field order_id (LProcessingOrder order_id) ;;
  customer_id <- lift (py_getitem order "customer_id") ;;
  print_field customer_id (LCustomer customer_id) ;;
  items <- lift (py_getitem order "items") ;;
  joined <- lift (py_join ", " items) ;;
  print_field (JString joined) (LItems joined) ;;
  total_amount <- lift (py_getitem order "total_amount") ;;
  total <- lift (py_format_2f total_amount) ;;
  print (LTotal total) ;;
  status <- lift (py_getitem order "status") ;;
  print_field status (LStatus status) ;;
  order <- lift (py_setitem order "status" (JString "processing")) ;;
  processed_at <- now_isoformat ;;
  order <- lift (py_setitem order "processed_at" (JString processed_at)) ;;
  order_id <- lift (py_getitem order "order_id") ;;
  print_field order_id (LNowProcessed order_id) ;;
  update_registry inc_processed ;;
  ret order.

Definition process_order (message_body : string) : M bool :=
  with_exit
    (try_except
       (order <- loads message_body ;;
        process_parsed order ;;
        ret true)
       [(is_JSONDecodeError,
         fun e => print LErrorParsing ;;
                  update_registry inc_failed ;;
                  ret false);
        (is_Exception,
         fun e => print (LErrorProcessing e) ;;
                  update_registry inc_failed ;;
                  ret false)])
    (update_registry observe_duration).

(** [answer] is what [sqs_client.receive_message] does on this call. *)
Definition receive_messages (answer : result response) : M (list message) :=
  try_except
    (response <- lift answer ;;
     ret (match Messages response with
          | Some messages => messages
          | None => []
          end))
    [(is_ClientError,
      fun e => print (LErrorReceiving e) ;; ret [])].

Definition delete_message (receipt_handle : string) : M bool :=
  try_except
    (emit (SqsDelete receipt_handle) ;;
     lift (sqs_delete_message receipt_handle) ;;
     ret true)
    [(is_ClientError,
      fun e => print (LErrorDeleting e) ;; ret false)].

(** The body of [for message in messages] in [main]. *)
Definition handle_message (message : message) : M unit :=
  n <- next_message_count ;;
  update_registry inc_received ;;
  print (LReceived n) ;;
  body <- loads (Body message) ;;
  wrapped <- lift (py_contains "Message" body) ;;
  if wrapped then
    sns_message <- lift (py_getitem body "Message") ;;
    sns_message <- match sns_message with
                   | JString text => loads text
                   | _ => ret sns_message
                   end ;;
    ok <- handler_call (ReceiptHandle message)
            (ArgBody (json_dumps sns_message))
            (process_order (json_dumps sns_message)) ;;
    if ok then
      delete_message (ReceiptHandle message) ;;
      print LDeleted
    else ret tt
  else
    ok <- handler_call (ReceiptHandle message)
            (ArgBody (Body message))
            (process_order (Body message)) ;;
    if ok then
      delete_message (ReceiptHandle message) ;;
      print LDeleted
    else ret tt.

(** [while True] of [main], for as many polls as are observed; each poll
    comes with what the SQS client does on it. *)
Fixpoint poll_loop (polls : list (result response)) : M unit :=
  match polls with
  | [] => ret tt
  | answer :: rest =>
      messages <- receive_messages answer ;;
      match messages with
      | [] => print LDot
      | _ :: _ => for_each handle_message messages
      end ;;
      poll_loop rest
  end.

(** [main] after its start-up banner. *)
Definition main (polls : list (result response)) : M exit :=
  reset_message_count ;;
  try_except
    (poll_loop polls ;; ret StillPolling)
    [(is_KeyboardInterrupt,
      fun e => s <- get ;;
               print (LTotalProcessed (message_count s)) ;;
               ret Stopped)].

End Service.
End OrderProcessing.

(** ** notification/app.py *)

Module Notification.
Section Service.
Context `{External}.

Definition send_notification (order : json) : M bool :=
  try_except
    (customer_id <- lift (py_getitem order "customer_id") ;;
     order_id <- lift (py_getitem order "order_id") ;;
     total <- lift (py_getitem order "total_amount") ;;
     print_field customer_id (LSendingTo customer_id) ;;
     print_field order_id (LSubject order_id) ;;
     body <- lift (py_format_2f total) ;;
     print (LBody body) ;;
     items <- lift (py_getitem order "items") ;;
     joined <- lift (py_join ", " items) ;;
     print_field (JString joined) (LItems joined) ;;
     lift (py_format_2f total) ;;
     sent_at <- now_isoformat ;;
     print LNotificationSent ;;
     ret true)
    [(is_Exception,
      fun e => print (LErrorSending e) ;; ret false)].

(** [answer] is what [sqs_client.receive_message] does on this call. *)
Definition receive_messages (answer : result response) : M (list message) :=
  try_except
    (response <- lift answer ;;
     ret (match Messages response with
          | Some messages => messages
          | None => []
          end))
    [(is_ClientError,
      fun e => print (LErrorReceiving e) ;; ret [])].

Definition delete_message (receipt_handle : string) : M bool :=
  try_except
    (emit (SqsDelete receipt_handle) ;;
     lift (sqs_delete_message receipt_handle) ;;
     ret true)
    [(is_ClientError,
      fun e => print (LErrorDeleting e) ;; ret false)].

(** The body of [for message in messages] in [main]. *)
Definition handle_message (message : message) : M unit :=
  n <- next_message_count ;;
  print (LReceived n) ;;
  body <- loads (Body message) ;;
  wrapped <- lift (py_contains "Message" body) ;;
  if wrapped then
    sns_message <- lift (py_getitem body "Message") ;;
    sns_message <- match sns_message with
                   | JString text => loads text
                   | _ => ret sns_message
                   end ;;
    ok <- handler_call (ReceiptHandle message)
            (ArgOrder sns_message)
            (send_notification sns_message) ;;
    if ok then
      delete_message (ReceiptHandle message) ;;
      print LDeleted
    else ret tt
  else
    order <- loads (Body message) ;;
    ok <- handler_call (ReceiptHandle message)
            (ArgOrder order)
            (send_notification order) ;;
    if ok then
      delete_message (ReceiptHandle message) ;;
      print LDeleted
    else ret tt.

Fixpoint poll_loop (polls : list (result response)) : M unit :=
  match polls with
  | [] => ret tt
  | answer :: rest =>
      messages <- receive_messages answer ;;
      match messages with
      | [] => print LDot
      | _ :: _ => for_each handle_message messages
      end ;;
      poll_loop rest
  end.

(** [main] after its start-up banner. *)
Definition main (polls : list (result response)) : M exit :=
  reset_message_count ;;
  try_except
    (poll_loop polls ;; ret StillPolling)
    [(is_KeyboardInterrupt,
      fun e => s <- get ;;
               print (LTotalSent (message_count s)) ;;
               ret Stopped)].

End Service.
End Notification.

(** ** producer/app.py *)

Module Producer.

(** An entry of [order_templates]. *)
Record order_template : Type := {
  customer_id : string;
  items : list string;
  total : json
}.

Definition order_templates : list order_template :=
  [ {| customer_id := "CUST-001"; items := ["Laptop"; "Mouse"];
       total := JFloat (FFinite 1200 0) |};
    {| customer_id := "CUST-002"; items := ["Keyboard"; "Monitor"];
       total := JFloat (FFinite 450 0) |};
    {| customer_id := "CUST-001"; items := ["Headphones"];
       total := JFloat (FFinite 150 0) |};
    {| customer_id := "CUST-003"; items := ["Webcam"; "Microphone"];
       total := JFloat (FFinite 200 0) |};
    {| customer_id := "CUST-002"; items := ["USB-C Hub"];
       total := JFloat (FFinite 75 0) |} ].

(** [order_templates[(order_counter - 1) % len(order_templates)]] *)
Definition select_template (order_counter : nat) : option order_template :=
  nth_error order_templates
    (Nat.modulo (order_counter - 1) (length order_templates)).

(** A value of [MessageAttributes]. *)
Record attribute : Type := {
  DataType : string;
  StringValue : string
}.

(** The dict [message_attributes] that [main] builds for a template. *)
Definition message_attributes (order_template : order_template)
  : result (list (string * attribute)) :=
  match py_lt_int (total order_template) 500 with
  | Return below =>
      Return
        [ ("order_type",
           {| DataType := "String"; StringValue := "standard" |});
          ("priority",
           {| DataType := "String";
              StringValue := if below then "normal" else "high" |}) ]
  | Raise e => Raise e
  end.

(** [message_attributes['priority']['StringValue']] *)
Definition priority (order_template : order_template) : result string :=
  match message_attributes order_template with
  | Return attributes =>
      match
        find (fun entry => String.eqb (fst entry) "priority") attributes
      with
      | Some (_, a) => Return (StringValue a)
      | None => Raise (KeyError "priority")
      end
  | Raise e => Raise e
  end.

(** The double that the literal [499.99] denotes. *)
Definition float_499_99 : json :=
  JFloat (FFinite 499990000000000009094947017729282379150390625 (-42)).

End Producer.

(** The rational a number stands for, when it has one. *)
Definition number_value (x : json) : option Q :=
  match x with
  | JInt z => Some (inject_Z z)
  | JFloat (FFinite m e) => Some (float_value m e)
  | _ => None
  end.

(** ** producer/app.py: publishing *)

(** [bool(v)], as [if message_id:] takes it. *)
Definition py_truth (v : json) : bool :=
  match v with
  | JNull => false
  | JBool b => b
  | JInt z => negb (z =? 0)
  | JFloat (FFinite m _) => negb (m =? 0)
  | JFloat _ => true
  | JString s => negb (String.eqb s "")
  | JArray l => match l with [] => false | _ :: _ => true end
  | JObject d => match d with [] => false | _ :: _ => true end
  end.

Module ProducerService.

(** The Prometheus registry of the producer. *)
Record registry : Type := {
  messages_published : nat;
  messages_failed : nat;
  publish_duration : nat
}.

(** Process state: the registry, the local [order_counter] of [main] and
    the instant the next [datetime.now] returns. *)
Record state : Type := {
  metrics : registry;
  order_counter : nat;
  clock : nat
}.

Definition initial_state : state :=
  {| metrics := {| messages_published := 0; messages_failed := 0;
                   publish_duration := 0 |};
     order_counter := 0;
     clock := 0 |}.

(** The lines of the producer, without their wall-clock stamps. *)
Inductive line : Type :=
| LPublished (order_id : string) (message_id : json)
| LFailedToPublish (order_id : string)
| LErrorPublishing (e : exn).

(** What the producer does that can be seen from outside: lines, calls of
    [sns_client.publish] with their keyword arguments, and sleeps. *)
Inductive event : Type :=
| Stdout (l : line)
| SnsPublish (TopicArn : string) (Message : string)
    (MessageAttributes : list (string * Producer.attribute))
| Sleep (seconds : nat).

Definition P (A : Type) : Type := state -> result A * state * list event.

Definition ret {A} (a : A) : P A := fun s => (Return a, s, []).

Definition bind {A B} (m : P A) (k : A -> P B) : P B :=
  fun s =>
    match m s with
    | (Return a, s1, t1) =>
        match k a s1 with
        | (r, s2, t2) => (r, s2, t1 ++ t2)
        end
    | (Raise e, s1, t1) => (Raise e, s1, t1)
    end.

Declare Scope producer_scope.
Delimit Scope producer_scope with producer.
Notation "x <- m ;; k" := (bind m (fun x => k))
  (at level 61, m at next level, right associativity) : producer_scope.
Notation "m ;; k" := (bind m (fun _ => k))
  (at level 61, right associativity) : producer_scope.
Local Open Scope producer_scope.

Definition lift {A} (r : result A) : P A := fun s => (r, s, []).

Definition emit (e : event) : P unit := fun s => (Return tt, s, [e]).

Definition print (l : line) : P unit := emit (Stdout l).

Definition get : P state := fun s => (Return s, s, []).

Definition modify (f : state -> state) : P unit :=
  fun s => (Return tt, f s, []).

(** [try: body / except ClientError as e: handler] *)
Definition try_except_ClientError {A} (body : P A) (handler : exn -> P A)
  : P A :=
  fun s =>
    match body s with
    | (Return a, s1, t1) => (Return a, s1, t1)
    | (Raise e, s1, t1) =>
        if is_ClientError e then
          match handler e s1 with
          | (r, s2, t2) => (r, s2, t1 ++ t2)
          end
        else (Raise e, s1, t1)
    end.

(** [with cm: body] for a context manager whose exit does [on_exit] and
    does not swallow exceptions. *)
Definition with_exit {A} (body : P A) (on_exit : P unit) : P A :=
  fun s =>
    match body s with
    | (r, s1, t1) =>
        match on_exit s1 with
        | (_, s2, t2) => (r, s2, t1 ++ t2)
        end
    end.

Definition update_metrics (f : registry -> registry) : P unit :=
  modify (fun s => {| metrics := f (metrics s);
                      order_counter := order_counter s;
                      clock := clock s |}).

Definition inc_published (m : registry) : registry :=
  {| messages_published := S (messages_published m);
     messages_failed := messages_failed m;
     publish_duration := publish_duration m |}.

Definition inc_failed (m : registry) : registry :=
  {| messages_published := messages_published m;
     messages_failed := S (messages_failed m);
     publish_duration := publish_duration m |}.

Definition observe_duration (m : registry) : registry :=
  {| messages_published := messages_published m;
     messages_failed := messages_failed m;
     publish_duration := S (publish_duration m) |}.

Definition set_order_counter (n : nat) : P unit :=
  modify (fun s => {| metrics := metrics s;
                      order_counter := n;
                      clock := clock s |}).

(** The default of [SNS_TOPIC_ARN]. *)
Definition SNS_TOPIC_ARN : string :=
  "arn:aws:sns:us-east-1:000000000000:orders-topic".

(** The decimal digits of a number. *)
Definition decimal (n : nat) : string :=
  NilEmpty.string_of_uint (Nat.to_uint n).

Fixpoint zeros (k : nat) (s : string) : string :=
  match k with
  | O => s
  | S k' => String "0" (zeros k' s)
  end.

(** [f'{n:03d}']: the digits, with zeros in front up to three places. *)
Definition format_03d (n : nat) : string :=
  zeros (3 - String.length (decimal n)) (decimal n).

(** [f'ORD-{order_counter:03d}'] *)
Definition order_id_of (order_counter : nat) : string :=
  ("ORD-" ++ format_03d order_counter)%string.

(** The dict that [create_order_message] returns, for the time it read. *)
Definition order_message (order_id customer_id : string)
  (items : list string) (total_amount : json) (timestamp : string) : json :=
  JObject
    [ ("order_id", JString order_id);
      ("customer_id", JString customer_id);
      ("items", JArray (map JString items));
      ("total_amount", total_amount);
      ("timestamp", JString timestamp);
      ("status", JString "pending") ].

Section Service.
Context `{External}.

(** [datetime.now(timezone.utc).isoformat()] *)
Definition now_isoformat : P string :=
  s <- get ;;
  modify (fun s => {| metrics := metrics s;
                      order_counter := order_counter s;
                      clock := S (clock s) |}) ;;
  ret (isoformat (clock s)).

Definition create_order_message (order_id customer_id : string)
  (items : list string) (total_amount : json) : P json :=
  timestamp <- now_isoformat ;;
  ret (order_message order_id customer_id items total_amount timestamp).

(** [answer] is what [sns_client.publish] does on this call; a response
    is a dict.  [message_attributes] is [None] when the caller leaves it
    out. *)
Definition publish_message (answer : result (list (string * json)))
  (topic_arn : string) (message_body : json)
  (message_attributes : option (list (string * Producer.attribute)))
  : P json :=
  with_exit
    (try_except_ClientError
       (emit (SnsPublish topic_arn (json_dumps message_body)
                (match message_attributes with
                 | Some attributes => attributes
                 | None => []
                 end)) ;;
        response <- lift answer ;;
        update_metrics inc_published ;;
        lift (py_getitem (JObject response) "MessageId"))
       (fun e => print (LErrorPublishing e) ;;
                 update_metrics inc_failed ;;
                 ret JNull))
    (update_metrics observe_duration).

(** One turn of [while True] in [main]. *)
Definition iteration (answer : result (list (string * json))) : P unit :=
  s <- get ;;
  order_template <-
    lift (match Producer.select_template (order_counter s) with
          | Some order_template => Return order_template
          | None => Raise (OtherException "IndexError")
          end) ;;
  message <- create_order_message (order_id_of (order_counter s))
               (Producer.customer_id order_template)
               (Producer.items order_template)
               (Producer.total order_template) ;;
  message_attributes <- lift (Producer.message_attributes order_template) ;;
  message_id <- publish_message answer SNS_TOPIC_ARN message
                  (Some message_attributes) ;;
  (if py_truth message_id
   then print (LPublished (order_id_of (order_counter s)) message_id)
   else print (LFailedToPublish (order_id_of (order_counter s)))) ;;
  set_order_counter (S (order_counter s)) ;;
  emit (Sleep 2).

(** [while True] of [main], for as many turns as are observed; each turn
    comes with what the SNS client does on it. *)
Fixpoint loop (answers : list (result (list (string * json)))) : P unit :=
  match answers with
  | [] => ret tt
  | answer :: rest => iteration answer ;; loop rest
  end.

(** [main] after its start-up banner. *)
Definition main (answers : list (result (list (string * json)))) : P unit :=
  set_order_counter 1 ;;
  loop answers.

End Service.
End ProducerService.

(** ** A json library

    An instance of the json part of [External]: a recursive-descent reader
    after [json.loads] (any value at top level, [NaN] and the infinities
    accepted, the last of duplicate keys kept, [\u] escapes read to the
    bytes of their code point, two halves of a pair to one code point) and
    a writer with the separators of [json.dumps].  It differs from the
    library of Python in what it writes, not in what the services do with
    it: a number with a fraction or an exponent is read as a float with
    the mantissa and the exponent the digits give, exactly, and written
    back as [<mantissa>e<exponent>]; a byte above ASCII is written as it
    is.  It is proved below to meet the laws of [External]. *)

Module Codec.

Definition is_whitespace (c : ascii) : bool :=
  match nat_of_ascii c with
  | 32%nat | 9%nat | 10%nat | 13%nat => true
  | _ => false
  end.

Fixpoint skip_whitespace (s : string) : string :=
  match s with
  | String c rest => if is_whitespace c then skip_whitespace rest else s
  | EmptyString => s
  end.

(** The double quote and the backslash. *)
Definition quote_char : ascii := "034"%char.

Definition backslash : ascii := "092"%char.

Definition digit_of (c : ascii) : option Z :=
  let n := Z.of_nat (nat_of_ascii c) in
  if (48 <=? n) && (n <=? 57) then Some (n - 48) else None.

Definition hex_of (c : ascii) : option Z :=
  let n := Z.of_nat (nat_of_ascii c) in
  if (48 <=? n) && (n <=? 57) then Some (n - 48)
  else if (97 <=? n) && (n <=? 102) then Some (n - 87)
  else if (65 <=? n) && (n <=? 70) then Some (n - 55)
  else None.

(** The digits at the head of [s]: their value after [acc], how many there
    are, and what follows. *)
Fixpoint read_digits (s : string) (acc : Z) (count : Z) : Z * Z * string :=
  match s with
  | String c rest =>
      match digit_of c with
      | Some d => read_digits rest (10 * acc + d) (count + 1)
      | None => (acc, count, s)
      end
  | EmptyString => (acc, count, s)
  end.

Definition byte (n : Z) : ascii := ascii_of_nat (Z.to_nat n).

(** The bytes of a code point in UTF-8; a surrogate gets the three bytes
    the same scheme gives it. *)
Definition utf8 (n : Z) (rest : string) : string :=
  if n <? 128 then String (byte n) rest
  else if n <? 2048 then
    String (byte (192 + n / 64)) (String (byte (128 + n mod 64)) rest)
  else if n <? 65536 then
    String (byte (224 + n / 4096))
      (String (byte (128 + (n / 64) mod 64))
         (String (byte (128 + n mod 64)) rest))
  else
    String (byte (240 + n / 262144))
      (String (byte (128 + (n / 4096) mod 64))
         (String (byte (128 + (n / 64) mod 64))
            (String (byte (128 + n mod 64)) rest))).

(** The code unit that four hexadecimal digits write. *)
Definition hex4 (h1 h2 h3 h4 : ascii) : option Z :=
  match hex_of h1, hex_of h2, hex_of h3, hex_of h4 with
  | Some a, Some b, Some c, Some d => Some (4096 * a + 256 * b + 16 * c + d)
  | _, _, _, _ => None
  end.

(** The code units that stand for the halves of a code point outside the
    basic plane, and the code point of two such halves. *)
Definition is_high_surrogate (unit : Z) : bool :=
  (55296 <=? unit) && (unit <? 56320).

Definition is_low_surrogate (unit : Z) : bool :=
  (56320 <=? unit) && (unit <? 57344).

Definition surrogate_pair (high low : Z) : Z :=
  65536 + (high - 55296) * 1024 + (low - 56320).

(** The characters of a string literal after its opening quote. *)
Fixpoint read_string (s : string) : option (string * string) :=
  match s with
  | EmptyString => None
  | String c rest =>
      if Ascii.eqb c quote_char then Some (EmptyString, rest)
      else if Ascii.eqb c backslash then
        match rest with
        | String e rest1 =>
            let simple (x : ascii) :=
              match read_string rest1 with
              | Some (body, after) => Some (String x body, after)
              | None => None
              end in
            if Ascii.eqb e quote_char then simple quote_char
            else if Ascii.eqb e backslash then simple backslash
            else if Ascii.eqb e "/" then simple "/"%char
            else if Ascii.eqb e "b" then simple (byte 8)
            else if Ascii.eqb e "f" then simple (byte 12)
            else if Ascii.eqb e "n" then simple (byte 10)
            else if Ascii.eqb e "r" then simple (byte 13)
            else if Ascii.eqb e "t" then simple (byte 9)
            else if Ascii.eqb e "u" then
              match rest1 with
              | String h1 (String h2 (String h3 (String h4 rest2))) =>
                  match hex4 h1 h2 h3 h4 with
                  | Some unit =>
                      let lone :=
                        match read_string rest2 with
                        | Some (body, after) => Some (utf8 unit body, after)
                        | None => None
                        end in
                      if is_high_surrogate unit then
                        match rest2 with
                        | String b (String u (String l1 (String l2
                            (String l3 (String l4 rest3))))) =>
                            if Ascii.eqb b backslash && Ascii.eqb u "u" then
                              match hex4 l1 l2 l3 l4 with
                              | Some low =>
                                  if is_low_surrogate low then
                                    match read_string rest3 with
                                    | Some (body, after) =>
                                        Some (utf8 (surrogate_pair unit low)
                                                body, after)
                                    | None => None
                                    end
                                  else lone
                              | None => lone
                              end
                            else lone
                        | _ => lone
                        end
                      else lone
                  | None => None
                  end
              | _ => None
              end
            else None
        | EmptyString => None
        end
      else if (nat_of_ascii c <? 32)%nat then None
      else
        match read_string rest with
        | Some (body, after) => Some (String c body, after)
        | None => None
        end
  end.

(** The integer part of a number: a lone [0], or digits that start with a
    non-zero digit. *)
Definition read_integer_part (s : string) : option (Z * string) :=
  match s with
  | String c rest =>
      match digit_of c with
      | Some 0 => Some (0, rest)
      | Some d =>
          match read_digits rest d 1 with
          | (n, _, after) => Some (n, after)
          end
      | None => None
      end
  | EmptyString => None
  end.

(** An exponent [e<digits>], [e+<digits>] or [e-<digits>] at the head of
    [s], when there is a full one. *)
Definition read_exponent (s : string) : option (Z * string) :=
  match s with
  | String c rest =>
      if Ascii.eqb c "e" || Ascii.eqb c "E" then
        let '(negative, digits) :=
          match rest with
          | String sign rest1 =>
              if Ascii.eqb sign "-" then (true, rest1)
              else if Ascii.eqb sign "+" then (false, rest1)
              else (false, rest)
          | EmptyString => (false, rest)
          end in
        match read_digits digits 0 0 with
        | (n, count, after) =>
            if count =? 0 then None
            else Some (if negative then - n else n, after)
        end
      else None
  | EmptyString => None
  end.

(** A fraction [.<digits>] at the head of [s], when there is a full one:
    the digits' value, their number, and what follows. *)
Definition read_fraction (s : string) : option (Z * Z * string) :=
  match s with
  | String c rest =>
      if Ascii.eqb c "." then
        match read_digits rest 0 0 with
        | (n, count, after) =>
            if count =? 0 then None else Some (n, count, after)
        end
      else None
  | EmptyString => None
  end.

(** A number after its sign: an [int] when it has neither fraction nor
    exponent, a [float] otherwise. *)
Definition read_magnitude (negative : bool) (digits : string)
  : option (json * string) :=
  let signed (n : Z) := if negative then - n else n in
  match read_integer_part digits with
  | None => None
  | Some (i, after_int) =>
      match read_fraction after_int with
      | Some (f, count, after_frac) =>
          let m := signed (i * 10 ^ count + f) in
          match read_exponent after_frac with
          | Some (e, after) => Some (JFloat (FFinite m (e - count)), after)
          | None => Some (JFloat (FFinite m (- count)), after_frac)
          end
      | None =>
          match read_exponent after_int with
          | Some (e, after) => Some (JFloat (FFinite (signed i) e), after)
          | None => Some (JInt (signed i), after_int)
          end
      end
  end.

Definition read_number (s : string) : option (json * string) :=
  match s with
  | String c rest =>
      if Ascii.eqb c "-" then read_magnitude true rest
      else read_magnitude false s
  | EmptyString => None
  end.

(** [s] without the prefix [word], when it starts with it. *)
Fixpoint strip_prefix (word s : string) : option string :=
  match word with
  | EmptyString => Some s
  | String c word' =>
      match s with
      | String c' s' => if Ascii.eqb c c' then strip_prefix word' s' else None
      | EmptyString => None
      end
  end.

Definition read_constant (s : string) : option (json * string) :=
  match strip_prefix "null" s with
  | Some rest => Some (JNull, rest)
  | None =>
  match strip_prefix "true" s with
  | Some rest => Some (JBool true, rest)
  | None =>
  match strip_prefix "false" s with
  | Some rest => Some (JBool false, rest)
  | None =>
  match strip_prefix "NaN" s with
  | Some rest => Some (JFloat FNan, rest)
  | None =>
  match strip_prefix "Infinity" s with
  | Some rest => Some (JFloat (FInf false), rest)
  | None =>
  match strip_prefix "-Infinity" s with
  | Some rest => Some (JFloat (FInf true), rest)
  | None => None
  end end end end end end.

(** The recursive descent; [fuel] bounds the number of nested calls. *)
Fixpoint read_value (fuel : nat) (s : string) : option (json * string) :=
  match fuel with
  | O => None
  | S fuel' =>
      match s with
      | String c rest =>
          if Ascii.eqb c quote_char then
            match read_string rest with
            | Some (text, after) => Some (JString text, after)
            | None => None
            end
          else if Ascii.eqb c "[" then
            match skip_whitespace rest with
            | String c1 rest1 =>
                if Ascii.eqb c1 "]" then Some (JArray [], rest1)
                else read_elements fuel' (String c1 rest1) []
            | EmptyString => None
            end
          else if Ascii.eqb c "{" then
            match skip_whitespace rest with
            | String c1 rest1 =>
                if Ascii.eqb c1 "}" then Some (JObject [], rest1)
                else read_members fuel' (String c1 rest1) []
            | EmptyString => None
            end
          else
            match read_constant s with
            | Some found => Some found
            | None => read_number s
            end
      | EmptyString => None
      end
  end

with read_elements (fuel : nat) (s : string) (before : list json)
  : option (json * string) :=
  match fuel with
  | O => None
  | S fuel' =>
      match read_value fuel' s with
      | Some (v, after) =>
          match skip_whitespace after with
          | String c rest =>
              if Ascii.eqb c "," then
                read_elements fuel' (skip_whitespace rest) (before ++ [v])
              else if Ascii.eqb c "]" then Some (JArray (before ++ [v]), rest)
              else None
          | EmptyString => None
          end
      | None => None
      end
  end

with read_members (fuel : nat) (s : string) (before : list (string * json))
  : option (json * string) :=
  match fuel with
  | O => None
  | S fuel' =>
      match s with
      | String q rest =>
          if Ascii.eqb q quote_char then
            match read_string rest with
            | Some (key, after_key) =>
                match skip_whitespace after_key with
                | String colon rest1 =>
                    if Ascii.eqb colon ":" then
                      match read_value fuel' (skip_whitespace rest1) with
                      | Some (v, after) =>
                          match skip_whitespace after with
                          | String c rest2 =>
                              if Ascii.eqb c "," then
                                read_members fuel' (skip_whitespace rest2)
                                  (dict_set before key v)
                              else if Ascii.eqb c "}" then
                                Some (JObject (dict_set before key v), rest2)
                              else None
                          | EmptyString => None
                          end
                      | None => None
                      end
                    else None
                | EmptyString => None
                end
            | None => None
            end
          else None
      | EmptyString => None
      end
  end.

(** [json.loads] *)
Definition loads (text : string) : option json :=
  match read_value (2 * String.length text + 2) (skip_whitespace text) with
  | Some (v, after) =>
      match skip_whitespace after with
      | EmptyString => Some v
      | String _ _ => None
      end
  | None => None
  end.

Definition string_of_Z (z : Z) : string :=
  NilZero.string_of_int (Z.to_int z).

Definition hex_digit (n : Z) : ascii :=
  if n <? 10 then byte (48 + n) else byte (87 + n).

(** The characters of a string literal up to its closing quote. *)
Fixpoint write_string (s : string) : string :=
  match s with
  | EmptyString => String quote_char EmptyString
  | String c rest =>
      let n := Z.of_nat (nat_of_ascii c) in
      let tail := write_string rest in
      if Ascii.eqb c quote_char then String backslash (String quote_char tail)
      else if Ascii.eqb c backslash then
        String backslash (String backslash tail)
      else if n =? 10 then String backslash (String "n" tail)
      else if n =? 13 then String backslash (String "r" tail)
      else if n =? 9 then String backslash (String "t" tail)
      else if n =? 8 then String backslash (String "b" tail)
      else if n =? 12 then String backslash (String "f" tail)
      else if n <? 32 then
        String backslash (String "u" (String "0" (String "0"
          (String (hex_digit (n / 16)) (String (hex_digit (n mod 16)) tail)))))
      else String c tail
  end.

Definition quote (s : string) : string :=
  String quote_char (write_string s).

(** [json.dumps] *)
Fixpoint dumps (v : json) : string :=
  match v with
  | JNull => "null"
  | JBool true => "true"
  | JBool false => "false"
  | JInt z => string_of_Z z
  | JFloat (FFinite m e) =>
      (string_of_Z m ++ String "e" (string_of_Z e))%string
  | JFloat (FInf false) => "Infinity"
  | JFloat (FInf true) => "-Infinity"
  | JFloat FNan => "NaN"
  | JString s => quote s
  | JArray l =>
      let elements :=
        (fix elements (l : list json) : string :=
           match l with
           | [] => "]"
           | x :: rest =>
               (dumps x ++
                match rest with
                | [] => elements rest
                | _ :: _ => ", " ++ elements rest
                end)%string
           end) in
      String "[" (elements l)
  | JObject d =>
      let members :=
        (fix members (d : list (string * json)) : string :=
           match d with
           | [] => "}"
           | (k, x) :: rest =>
               (quote k ++ ": " ++ dumps x ++
                match rest with
                | [] => members rest
                | _ :: _ => ", " ++ members rest
                end)%string
           end) in
      String "{" (members d)
  end.

(** *** What the reader is given by the writer *)

(** The value of a run of digits that follows [acc]. *)
Fixpoint horner (d : Decimal.uint) (acc : Z) : Z :=
  match d with
  | Decimal.Nil => acc
  | Decimal.D0 l => horner l (10 * acc)
  | Decimal.D1 l => horner l (10 * acc + 1)
  | Decimal.D2 l => horner l (10 * acc + 2)
  | Decimal.D3 l => horner l (10 * acc + 3)
  | Decimal.D4 l => horner l (10 * acc + 4)
  | Decimal.D5 l => horner l (10 * acc + 5)
  | Decimal.D6 l => horner l (10 * acc + 6)
  | Decimal.D7 l => horner l (10 * acc + 7)
  | Decimal.D8 l => horner l (10 * acc + 8)
  | Decimal.D9 l => horner l (10 * acc + 9)
  end.

(** What may follow a number: no digit. *)
Definition no_digit_head (r : string) : bool :=
  match r with
  | EmptyString => true
  | String c _ => match digit_of c with Some _ => false | None => true end
  end.

(** What follows a value in what [dumps] writes. *)
Definition closes (r : string) : bool :=
  match r with
  | EmptyString => true
  | String c _ => Ascii.eqb c "," || Ascii.eqb c "]" || Ascii.eqb c "}"
  end.

(** The lists that [dumps] writes after an opening bracket. *)
Definition write_elements : list json -> string :=
  fix elements (l : list json) : string :=
    match l with
    | [] => "]"
    | x :: rest =>
        (dumps x ++
         match rest with
         | [] => elements rest
         | _ :: _ => ", " ++ elements rest
         end)%string
    end.

Definition write_members : list (string * json) -> string :=
  fix members (d : list (string * json)) : string :=
    match d with
    | [] => "}"
    | (k, x) :: rest =>
        (quote k ++ ": " ++ dumps x ++
         match rest with
         | [] => members rest
         | _ :: _ => ", " ++ members rest
         end)%string
    end.

(** How much fuel the reader needs for a value. *)
Fixpoint size (v : json) : nat :=
  match v with
  | JArray l => S (list_sum (map (fun x => S (size x)) l))
  | JObject d => S (list_sum (map (fun entry => S (size (snd entry))) d))
  | _ => 1
  end.

Definition size_elements (l : list json) : nat :=
  list_sum (map (fun x => S (size x)) l).

Definition size_members (d : list (string * json)) : nat :=
  list_sum (map (fun entry => S (size (snd entry))) d).

(** The first character of a value: it is no blank and closes nothing. *)
Definition opens (c : ascii) : bool :=
  negb (is_whitespace c) && negb (Ascii.eqb c "]") && negb (Ascii.eqb c "}").

(** [read_value fuel] reads [v] back from what [dumps] writes for it. *)
Definition reads (v : json) : Prop :=
  forall fuel r,
    (size v <= fuel)%nat ->
    closes r = true ->
    read_value fuel (dumps v ++ r) = Some (v, r).

End Codec.

(** * The vocabulary of the properties *)

(** ** Runs *)

Definition outcome {A} (x : result A * state * list event) : result A :=
  fst (fst x).

Definition final {A} (x : result A * state * list event) : state :=
  snd (fst x).

Definition events {A} (x : result A * state * list event) : list event :=
  snd x.

(** [after m s Q]: running [m] from [s] ends in a result, a state and a
    list of events that satisfy [Q]. *)
Definition after {A} (m : M A) (s : state)
  (Q : result A -> state -> list event -> Prop) : Prop :=
  Q (outcome (m s)) (final (m s)) (events (m s)).

(** ** Traces *)

Definition is_line (e : event) : bool :=
  match e with Stdout _ => true | _ => false end.

(** A trace that only writes to stdout. *)
Definition lines_only (t : list event) : Prop :=
  forallb is_line t = true.

(** The trace of one message that reached the handler: lines, then the
    handler's return, then, after a success only, the delete call and more
    lines. *)
Definition handled_trace (h : string) (arg : handler_arg) (ok : bool)
  (t : list event) : Prop :=
  exists before rest,
    t = before ++ Handled h arg ok :: rest /\
    lines_only before /\
    if ok then exists rest', rest = SqsDelete h :: rest' /\ lines_only rest'
    else rest = [].

(** The exceptions that reading, formatting and printing the fields of an
    order can raise. *)
Definition field_error (e : exn) : bool :=
  match e with
  | KeyError _ | TypeError | ValueError | OverflowError
  | UnicodeEncodeError => true
  | _ => false
  end.

(** A trace in which no handler reports an error. *)
Definition no_error_line (t : list event) : Prop :=
  ~ In (Stdout LErrorParsing) t /\
  forall e, ~ In (Stdout (LErrorProcessing e)) t.

(** What [main] does with the handler once the payload is decoded: call
    it, and delete the message when it answers true. *)
Definition commit (h : string) (arg : handler_arg) (handler : M bool)
  (delete : string -> M bool) : M unit :=
  ok <- handler_call h arg handler ;;
  if ok then delete h ;; print LDeleted else ret tt.

(** What a delete function has to do for [commit]: call SQS on the handle
    it is given, write lines at most, and leave the state alone. *)
Definition deletes (delete : string -> M bool) : Prop :=
  forall h s,
    after (delete h) s (fun r s' t =>
      s' = s /\ exists rest, t = SqsDelete h :: rest /\ lines_only rest).

(** The registry once a received message has been through
    [process_order]. *)
Definition counted (ok : bool) (m : metrics) : metrics :=
  observe_duration
    ((if ok then inc_processed else inc_failed) (inc_received m)).

Definition is_delete_of (h : string) (e : event) : bool :=
  match e with
  | SqsDelete h' => String.eqb h h'
  | _ => false
  end.

Definition is_success_of (h : string) (e : event) : bool :=
  match e with
  | Handled h' _ true => String.eqb h h'
  | _ => false
  end.

(** How often [delete_message] was called on [h]. *)
Definition deletions (h : string) (t : list event) : nat :=
  length (filter (is_delete_of h) t).

(** How often the handler answered true for a message with handle [h]. *)
Definition successes (h : string) (t : list event) : nat :=
  length (filter (is_success_of h) t).

Definition balanced (t : list event) : Prop :=
  forall h, deletions h t = successes h t.

(** How often the handler answered true, whatever the handle. *)
Definition handled_with_success (t : list event) : nat :=
  length (filter (fun e => match e with
                           | Handled _ _ true => true
                           | _ => false
                           end) t).

Definition is_receipt (e : event) : bool :=
  match e with
  | Stdout (LReceived _) => true
  | _ => false
  end.

(** How many messages the trace reports as received: [main] writes one
    such line for every message it takes from a batch. *)
Definition received (t : list event) : nat :=
  length (filter is_receipt t).

(** [keeps R m]: wherever [m] starts, the state it starts in, the events
    it emits and the state it ends in are related by [R]. *)
Definition keeps {A} (R : state -> list event -> state -> Prop)
  (m : M A) : Prop :=
  forall s, R s (events (m s)) (final (m s)).

(** The count of [main] grows by the receipts written. *)
Definition counts_receipts (s : state) (t : list event) (s' : state) : Prop :=
  message_count s' = (message_count s + received t)%nat.

(** The same, with the counter of received messages of the registry. *)
Definition counts_receipts_in_registry (s : state) (t : list event)
  (s' : state) : Prop :=
  message_count s' = (message_count s + received t)%nat /\
  messages_received (registry s') =
    (messages_received (registry s) + received t)%nat.

(** In the trace [t] of the message with handle [h], delete is called on
    a handle exactly when it is [h] and the handler returned true for it;
    after a handler failure no delete is called at all. *)
Definition deleted_iff_success (h : string) (t : list event) : Prop :=
  (forall h', In (SqsDelete h') t <->
              h' = h /\ exists arg, In (Handled h arg true) t) /\
  (forall arg, In (Handled h arg false) t ->
               forall h', ~ In (SqsDelete h') t).

(** What counting one pulled handle comes to: one more message received,
    one more processed or one more failed, one more duration observed. *)
Definition counts_one_message (old new : metrics) : Prop :=
  messages_received new = S (messages_received old) /\
  (messages_processed new = S (messages_processed old) /\
   messages_failed new = messages_failed old
   \/
   messages_processed new = messages_processed old /\
   messages_failed new = S (messages_failed old)) /\
  process_duration new = S (process_duration old).

(** The order that [process_order] holds when its [try] block ends. *)
Definition processed_order `{External} (d : list (string * json))
  (s : state) : json :=
  JObject
    (dict_set (dict_set d "status" (JString "processing"))
       "processed_at" (JString (isoformat (clock s)))).

(** ** Scenarios *)

(** The order of the end-to-end scenario, as the producer publishes it. *)
Definition ord_001_fields : list (string * json) :=
  [ ("order_id", JString "ORD-001");
    ("customer_id", JString "CUST-001");
    ("items", JArray [JString "Laptop"; JString "Mouse"]);
    ("total_amount", JFloat (FFinite 1200 0));
    ("timestamp", JString "2024-05-01T10:00:00+00:00");
    ("status", JString "pending") ].

Definition ord_001 : json := JObject ord_001_fields.

(** The notification that SNS delivers to a subscribed queue. *)
Definition envelope_fields (text : string) : list (string * json) :=
  [ ("Type", JString "Notification");
    ("TopicArn", JString "arn:aws:sns:us-east-1:000000000000:orders-topic");
    ("Message", JString text) ].

Definition wrapped_order : message :=
  {| Body := Codec.dumps (JObject (envelope_fields (Codec.dumps ord_001)));
     ReceiptHandle := "rh-1" |}.

(** The same order written to the queue directly. *)
Definition raw_order : message :=
  {| Body := Codec.dumps ord_001; ReceiptHandle := "rh-2" |}.

(** A body that is not JSON. *)
Definition malformed : message :=
  {| Body := "not json"; ReceiptHandle := "rh-3" |}.

(** An order without its customer, items, total and status. *)
Definition incomplete_order : message :=
  {| Body := Codec.dumps (JObject [("order_id", JString "ORD-001")]);
     ReceiptHandle := "rh-4" |}.

(** The order again, under a handle that the reference queue refuses to
    delete. *)
Definition gone_order : message :=
  {| Body := Codec.dumps ord_001; ReceiptHandle := "gone-5" |}.

(** The order with a lone surrogate (U+D800) for its id, which a [str]
    can hold and stdout cannot encode. *)
Definition surrogate_order : json :=
  JObject
    (dict_set ord_001_fields "order_id"
       (JString (String "237" (String "160" (String "128" EmptyString))))).

(** Three polls: a batch of three messages, a failure of the client that
    [receive_messages] handles, and an empty response. *)
Definition three_polls : list (result response) :=
  [ Return {| Messages := Some [raw_order; incomplete_order; gone_order] |};
    Raise (ClientError "RequestTimeout");
    Return {| Messages := None |} ].

(** What the SNS client does on three calls: a response, a throttling
    error, a response. *)
Definition three_answers : list (result (list (string * json))) :=
  [ Return [("MessageId", JString "m-1")];
    Raise (ClientError "Throttling");
    Return [("MessageId", JString "m-3")] ].

(** What [main] hands to the SNS client for its first order, at instant
    [0]. *)
Definition first_order : json :=
  ProducerService.order_message "ORD-001" "CUST-001" ["Laptop"; "Mouse"]
    (JFloat (FFinite 1200 0)) (Codec.string_of_Z 0).

Definition first_attributes : list (string * Producer.attribute) :=
  [ ("order_type",
     {| Producer.DataType := "String"; Producer.StringValue := "standard" |});
    ("priority",
     {| Producer.DataType := "String"; Producer.StringValue := "high" |}) ].

(** Two templates on either side of the threshold. *)
Definition template_499_99 : Producer.order_template :=
  {| Producer.customer_id := "CUST-004";
     Producer.items := ["Desk"];
     Producer.total := Producer.float_499_99 |}.

Definition template_500_00 : Producer.order_template :=
  {| Producer.customer_id := "CUST-004";
     Producer.items := ["Desk"; "Lamp"];
     Producer.total := JFloat (FFinite 50000 (-2)) |}.

(** ** Decoding *)

Section Vocabulary.
Context `{External}.

(** The decoding that [main] writes in line, as a function of the body:
    whether the body was an SNS notification, and the payload. *)
Definition decode (text : string) : result (bool * json) :=
  match json_loads text with
  | None => Raise (json_loads_error text)
  | Some body =>
      match py_contains "Message" body with
      | Raise e => Raise e
      | Return false => Return (false, body)
      | Return true =>
          match py_getitem body "Message" with
          | Raise e => Raise e
          | Return (JString inner) =>
              match json_loads inner with
              | Some v => Return (true, v)
              | None => Raise (json_loads_error inner)
              end
          | Return sns_message => Return (true, sns_message)
          end
      end
  end.

(** What [process_order] is given for a decoded payload. *)
Definition order_processing_arg (message : message) (d : bool * json)
  : string :=
  if fst d then json_dumps (snd d) else Body message.

End Vocabulary.

(** ** Orders that the handlers take *)

(** What [process_order] needs of a parsed order to get through its [try]
    block: the five fields it reads, items that [join] takes and a total
    that the format code takes. *)
Definition processable (order : json) : bool :=
  match py_getitem order "order_id", py_getitem order "customer_id",
        py_getitem order "items", py_getitem order "total_amount",
        py_getitem order "status" with
  | Return order_id, Return customer_id, Return items, Return total_amount,
    Return status =>
      match py_join ", " items, py_format_2f total_amount with
      | Return joined, Return _ =>
          printable order_id && printable customer_id
          && encodable joined && printable status
      | _, _ => false
      end
  | _, _, _, _, _ => false
  end.

(** What [send_notification] needs of an order. *)
Definition notifiable (order : json) : bool :=
  match py_getitem order "customer_id", py_getitem order "order_id",
        py_getitem order "total_amount", py_getitem order "items" with
  | Return customer_id, Return order_id, Return total, Return items =>
      match py_format_2f total, py_join ", " items with
      | Return _, Return joined =>
          printable customer_id && printable order_id && encodable joined
      | _, _ => false
      end
  | _, _, _, _ => false
  end.

(** What [', '.join] takes: a list of strings, the keys of a dict, the
    characters of a string. *)
Definition joinable (items : json) : bool :=
  match items with
  | JArray l => forallb (fun x => match x with
                                  | JString _ => true
                                  | _ => false
                                  end) l
  | JObject _ | JString _ => true
  | _ => false
  end.

(** Items whose joined text stdout can encode: no string of the list, no
    key of the dict, no part of the string holds a surrogate. *)
Definition printable_items (items : json) : bool :=
  match items with
  | JArray l => forallb printable l
  | JObject d => forallb encodable (dict_keys d)
  | JString s => encodable s
  | _ => true
  end.

(** A text of ASCII characters only. *)
Definition ascii_only (s : string) : bool :=
  forallb (fun c => (nat_of_ascii c <? 128)%nat) (list_ascii_of_string s).

(** What the format code [.2f] takes: a float, a bool, an int that a
    float can hold. *)
Definition formattable (total : json) : bool :=
  match total with
  | JInt z => int_fits_float z
  | JFloat _ | JBool _ => true
  | _ => false
  end.

(** ** Batches *)

(** The messages that a list of polls delivers, in order. *)
Definition delivered (polls : list (result response)) : list message :=
  flat_map (fun answer =>
              match answer with
              | Return {| Messages := Some messages |} => messages
              | _ => []
              end) polls.

(** A poll that returns, or fails the way [receive_messages] handles. *)
Definition benign (answer : result response) : Prop :=
  match answer with
  | Return _ => True
  | Raise e => is_ClientError e = true
  end.

(** The numbers of the receipts of a trace, in order. *)
Definition receipt_numbers (t : list event) : list nat :=
  flat_map (fun e => match e with
                     | Stdout (LReceived n) => [n]
                     | _ => []
                     end) t.

(** How often a handler returned to [main]. *)
Definition handled (t : list event) : nat :=
  length (filter (fun e => match e with
                           | Handled _ _ _ => true
                           | _ => false
                           end) t).

(** The receipts of [t] carry the numbers that follow the count of [s],
    and the count of [s'] is the last of them. *)
Definition numbers_receipts (s : state) (t : list event) (s' : state) : Prop :=
  receipt_numbers t = seq (S (message_count s)) (received t) /\
  message_count s' = (message_count s + received t)%nat.

(** How often a handler returned [ok] to [main]. *)
Definition returned (ok : bool) (t : list event) : nat :=
  length (filter (fun e => match e with
                           | Handled _ _ ok' => Bool.eqb ok ok'
                           | _ => false
                           end) t).

(** The registry of the order-processing service has grown by what the
    trace shows: receipts, handler returns of either kind, and one
    duration for each return. *)
Definition ledger (s : state) (t : list event) (s' : state) : Prop :=
  messages_received (registry s') =
    (messages_received (registry s) + received t)%nat /\
  messages_processed (registry s') =
    (messages_processed (registry s) + returned true t)%nat /\
  messages_failed (registry s') =
    (messages_failed (registry s) + returned false t)%nat /\
  process_duration (registry s') =
    (process_duration (registry s) + handled t)%nat.

(** ** One message, in full *)

Section Committing.
Context `{External}.

(** What [delete_message] comes to, by what SQS answers. *)
Definition delete_result (h : string) (s : state)
  : result bool * state * list event :=
  match sqs_delete_message h with
  | Return _ => (Return true, s, [SqsDelete h])
  | Raise e =>
      if is_ClientError e
      then (Return false, s, [SqsDelete h; Stdout (LErrorDeleting e)])
      else (Raise e, s, [SqsDelete h])
  end.

(** What [main] makes of the run of a handler on the message with handle
    [h]. *)
Definition committed (h : string) (arg : handler_arg)
  (handler_run : result bool * state * list event)
  : result unit * state * list event :=
  match handler_run with
  | (Return true, s1, t1) =>
      match delete_result h s1 with
      | (Return _, s2, t2) =>
          (Return tt, s2, t1 ++ Handled h arg true :: t2 ++ [Stdout LDeleted])
      | (Raise e, s2, t2) => (Raise e, s2, t1 ++ Handled h arg true :: t2)
      end
  | (Return false, s1, t1) => (Return tt, s1, t1 ++ [Handled h arg false])
  | (Raise e, s1, t1) => (Raise e, s1, t1)
  end.

(** The state in which the handler of a message starts: [main] has taken
    the message into its count, and [count] is what it did to the
    registry. *)
Definition arrived (count : metrics -> metrics) (s : state) : state :=
  {| registry := count (registry s);
     message_count := S (message_count s);
     clock := clock s |}.

(** The run of [main] on a message: the receipt it writes, then the
    rest. *)
Definition received_then (s : state)
  (rest : result unit * state * list event)
  : result unit * state * list event :=
  match rest with
  | (r, s2, t) => (r, s2, Stdout (LReceived (S (message_count s))) :: t)
  end.

(** A body that [main] can decode and a handle whose deletion SQS accepts
    or refuses with [ClientError]. *)
Definition survivable (message : message) : Prop :=
  (exists d, decode (Body message) = Return d) /\
  forall e, sqs_delete_message (ReceiptHandle message) = Raise e ->
            is_ClientError e = true.

End Committing.

(** ** Runs of the producer *)

Definition producer_outcome {A}
  (x : result A * ProducerService.state * list ProducerService.event)
  : result A :=
  fst (fst x).

Definition producer_final {A}
  (x : result A * ProducerService.state * list ProducerService.event)
  : ProducerService.state :=
  snd (fst x).

Definition producer_events {A}
  (x : result A * ProducerService.state * list ProducerService.event)
  : list ProducerService.event :=
  snd x.

(** What the SNS client does on a call that [publish_message] gets
    through: it returns a response that has a ['MessageId'], or raises
    [ClientError]. *)
Definition answered (answer : result (list (string * json))) : bool :=
  match answer with
  | Return response =>
      match dict_get response "MessageId" with
      | Some _ => true
      | None => false
      end
  | Raise e => is_ClientError e
  end.

(** The exception that a call of the SNS client which is not [answered]
    ends in. *)
Definition unanswered (answer : result (list (string * json))) : exn :=
  match answer with
  | Return _ => KeyError "MessageId"
  | Raise e => e
  end.

(** The order ids that [main] reports on, as published or as failed, in
    order. *)
Definition reported (t : list ProducerService.event) : list string :=
  flat_map (fun e =>
              match e with
              | ProducerService.Stdout
                  (ProducerService.LPublished order_id _) => [order_id]
              | ProducerService.Stdout
                  (ProducerService.LFailedToPublish order_id) => [order_id]
              | _ => []
              end) t.

(** How often the SNS client is called. *)
Definition publishes (t : list ProducerService.event) : nat :=
  length (filter (fun e => match e with
                           | ProducerService.SnsPublish _ _ _ => true
                           | _ => false
                           end) t).

(** The number that a string of decimal digits stands for. *)
Definition digits_value (digits : string) : option nat :=
  option_map Nat.of_uint (NilEmpty.uint_of_string digits).

(** The state after a turn of [main] that went through, and after one
    that an exception stopped; [count] is what the turn did to the
    registry inside [publish_message]. *)
Definition turned (count : ProducerService.registry -> ProducerService.registry)
  (s : ProducerService.state) : ProducerService.state :=
  {| ProducerService.metrics :=
       ProducerService.observe_duration (count (ProducerService.metrics s));
     ProducerService.order_counter := S (ProducerService.order_counter s);
     ProducerService.clock := S (ProducerService.clock s) |}.

Definition stopped (count : ProducerService.registry -> ProducerService.registry)
  (s : ProducerService.state) : ProducerService.state :=
  {| ProducerService.metrics :=
       ProducerService.observe_duration (count (ProducerService.metrics s));
     ProducerService.order_counter := ProducerService.order_counter s;
     ProducerService.clock := S (ProducerService.clock s) |}.

(** * Properties *)

(** ** Reasoning about computations *)

Lemma after_weaken {A} (m : M A) s
  (P Q : result A -> state -> list event -> Prop) :
  after m s P -> (forall r s' t, P r s' t -> Q r s' t) -> after m s Q.
Proof. unfold after. auto. Qed.

Lemma after_bind {A B} (m : M A) (k : A -> M B) s Q :
  after m s (fun r s1 t1 =>
    match r with
    | Return a => after (k a) s1 (fun r2 s2 t2 => Q r2 s2 (t1 ++ t2))
    | Raise e => Q (Raise e) s1 t1
    end) ->
  after (bind m k) s Q.
Proof.
  unfold after, bind, outcome, final, events.
  destruct (m s) as [[[a | e] s1] t1]; simpl; auto.
  destruct (k a s1) as [[r2 s2] t2]; simpl; auto.
Qed.

Lemma after_try_except {A} (body : M A) clauses s Q :
  after body s (fun r s1 t1 =>
    match r with
    | Return a => Q (Return a) s1 t1
    | Raise e =>
        match select_clause clauses e with
        | Some handler =>
            after handler s1 (fun r2 s2 t2 => Q r2 s2 (t1 ++ t2))
        | None => Q (Raise e) s1 t1
        end
    end) ->
  after (try_except body clauses) s Q.
Proof.
  unfold after, try_except, outcome, final, events.
  destruct (body s) as [[[a | e] s1] t1]; simpl; auto.
  destruct (select_clause clauses e) as [handler | ]; simpl; auto.
  destruct (handler s1) as [[r2 s2] t2]; simpl; auto.
Qed.

Lemma after_with_exit {A} (body : M A) cleanup s Q :
  after body s (fun r s1 t1 =>
    after cleanup s1 (fun _ s2 t2 => Q r s2 (t1 ++ t2))) ->
  after (with_exit body cleanup) s Q.
Proof.
  unfold after, with_exit, outcome, final, events.
  destruct (body s) as [[r s1] t1]; simpl.
  destruct (cleanup s1) as [[r2 s2] t2]; simpl; auto.
Qed.

(** Symbolic execution of a computation whose steps are all at hand: every
    scrutinee that blocks the evaluation is split. *)
Ltac split_scrutinee :=
  match goal with
  | |- context [match ?x with _ => _ end] =>
      lazymatch x with
      | context [match _ with _ => _ end] => fail
      | _ => destruct x eqn:?
      end
  end.

Ltac run :=
  cbv beta iota zeta delta
    [after outcome final events fst snd
     bind ret raise lift emit print print_field get modify try_except
     with_exit
     select_clause is_Exception is_JSONDecodeError is_ClientError
     is_KeyboardInterrupt
     update_registry reset_message_count next_message_count now_isoformat
     loads handler_call];
  cbn [registry message_count clock app].

Ltac execute := repeat (run; try split_scrutinee).

(** ** Traces *)

Lemma lines_only_app t1 t2 :
  lines_only (t1 ++ t2) <-> lines_only t1 /\ lines_only t2.
Proof.
  unfold lines_only. rewrite forallb_app. apply andb_true_iff.
Qed.

Lemma lines_only_In t e : lines_only t -> In e t -> is_line e = true.
Proof.
  unfold lines_only. rewrite forallb_forall. auto.
Qed.

(** ** The domain handlers *)

Lemma py_getitem_raises v k e :
  py_getitem v k = Raise e -> field_error e = true.
Proof.
  destruct v; simpl; try (intros [= <-]; reflexivity).
  destruct (dict_get d k); intros [= <-]; reflexivity.
Qed.

Lemma py_setitem_raises v k x e :
  py_setitem v k x = Raise e -> field_error e = true.
Proof. destruct v; simpl; intros [= <-]; reflexivity. Qed.

Lemma py_join_raises sep v e :
  py_join sep v = Raise e -> field_error e = true.
Proof.
  destruct v; simpl; try (intros [= <-]; reflexivity).
  destruct (all_str l); intros [= <-]; reflexivity.
Qed.

Lemma py_format_2f_raises v e :
  py_format_2f v = Raise e -> field_error e = true.
Proof.
  destruct v; simpl; try (intros [= <-]; reflexivity).
  destruct (int_fits_float z); intros [= <-]; reflexivity.
Qed.

Create HintDb fields.

#[local] Hint Resolve py_getitem_raises py_setitem_raises py_join_raises
  py_format_2f_raises : fields.

Arguments py_getitem : simpl never.
Arguments py_setitem : simpl never.
Arguments py_join : simpl never.
Arguments py_format_2f : simpl never.
Arguments py_contains : simpl never.

Ltac lines :=
  repeat rewrite app_nil_r;
  repeat (apply lines_only_app; split);
  solve [assumption | reflexivity].

(** An exception raised by a field operation is a field error, which
    leaves four classes to look at. *)
Ltac split_exception :=
  match goal with
  | H : _ = Raise ?e |- context [match ?e with _ => _ end] =>
      is_var e;
      let F := fresh "F" in
      assert (F : field_error e = true) by eauto with fields;
      destruct e; try discriminate F; clear F
  end.

Ltac trace_facts :=
  repeat match goal with
  | |- _ /\ _ => split
  | |- lines_only _ => reflexivity
  | |- no_error_line _ => split
  | |- forall _, _ => intro
  | |- ~ In _ _ => simpl; intuition discriminate
  | |- _ => solve [eauto with fields]
  end.

Section Handlers.
Context `{External}.

Lemma process_parsed_spec order s :
  after (OrderProcessing.process_parsed order) s (fun r s' t =>
    lines_only t /\ no_error_line t /\
    message_count s' = message_count s /\
    match r with
    | Return _ => registry s' = inc_processed (registry s)
    | Raise e => registry s' = registry s /\ field_error e = true
    end).
Proof.
  unfold after, OrderProcessing.process_parsed.
  execute; trace_facts.
Qed.

(** [process_order] always returns; it counts the message as processed or
    as failed, observes one duration, and touches nothing else. *)
Lemma process_order_spec message_body s :
  after (OrderProcessing.process_order message_body) s (fun r s' t =>
    exists ok,
      r = Return ok /\
      lines_only t /\
      message_count s' = message_count s /\
      registry s' =
        observe_duration
          ((if ok then inc_processed else inc_failed) (registry s))).
Proof.
  unfold OrderProcessing.process_order.
  apply after_with_exit, after_try_except, after_bind.
  unfold loads. destruct (json_loads message_body) as [order | ].
  - unfold after at 1. cbn.
    apply after_bind.
    eapply after_weaken; [apply process_parsed_spec | ].
    intros [o | e] s1 t1 (Ht & _ & Hc & Hr).
    + exists true. run. rewrite Hr. repeat split; [lines | assumption].
    + destruct Hr as [Hr He].
      destruct e; try discriminate He; run; exists false;
        rewrite Hr; (repeat split; [lines | assumption]).
  - pose proof (json_loads_error_Exception message_body) as He. run.
    destruct (json_loads_error message_body); try discriminate He; run;
      exists false; repeat split.
Qed.


(** [send_notification] always returns and leaves the state but for the
    clock. *)
Lemma send_notification_spec order s :
  after (Notification.send_notification order) s (fun r s' t =>
    exists ok,
      r = Return ok /\
      lines_only t /\
      message_count s' = message_count s /\
      registry s' = registry s).
Proof.
  unfold Notification.send_notification.
  apply after_try_except.
  unfold after.
  repeat (run; try first [split_exception | split_scrutinee]);
    eexists; repeat split.
Qed.

End Handlers.

(** ** One message *)

Lemma handled_trace_prepend p h arg ok t :
  lines_only p -> handled_trace h arg ok t -> handled_trace h arg ok (p ++ t).
Proof.
  intros Hp (before & rest & -> & Hb & Hrest).
  exists (p ++ before), rest. rewrite app_assoc.
  repeat split; [lines | assumption].
Qed.

Lemma commit_spec h arg handler delete s (P : bool -> state -> Prop) :
  deletes delete ->
  after handler s (fun r s1 t1 =>
    exists ok, r = Return ok /\ lines_only t1 /\ P ok s1) ->
  after (commit h arg handler delete) s (fun r s' t =>
    exists ok,
      P ok s' /\ handled_trace h arg ok t /\ (ok = false -> r = Return tt)).
Proof.
  intros Hdelete Hhandler. unfold commit, handler_call.
  unfold after, outcome, final, events in Hhandler. run.
  destruct (handler s) as [[r s1] t1]; simpl in Hhandler.
  destruct Hhandler as (ok & -> & Ht1 & HP).
  destruct ok; run.
  - specialize (Hdelete h s1).
    unfold after, outcome, final, events in Hdelete.
    destruct (delete h s1) as [[r s2] t2]; simpl in Hdelete.
    destruct Hdelete as (-> & rest & -> & Hrest).
    exists true.
    destruct r as [deleted | e]; run;
      (split; [assumption | split; [ | discriminate]]).
    + exists t1, (SqsDelete h :: rest ++ [Stdout LDeleted]).
      repeat split; [ | assumption | ].
      * rewrite <- app_assoc. reflexivity.
      * exists (rest ++ [Stdout LDeleted]). split; [reflexivity | lines].
    + exists t1, (SqsDelete h :: rest).
      repeat split; [ | assumption | ].
      * rewrite <- app_assoc. reflexivity.
      * exists rest. split; [reflexivity | assumption].
  - exists false. split; [assumption | split; [ | reflexivity]].
    exists t1, []. repeat split; [ | assumption].
    rewrite app_nil_r. reflexivity.
Qed.

Section Messages.
Context `{External}.

Lemma order_processing_deletes : deletes OrderProcessing.delete_message.
Proof.
  intros h s. unfold OrderProcessing.delete_message.
  execute; (split; [reflexivity | ]); eexists; split; reflexivity.
Qed.

Lemma notification_deletes : deletes Notification.delete_message.
Proof.
  intros h s. unfold Notification.delete_message.
  execute; (split; [reflexivity | ]); eexists; split; reflexivity.
Qed.

Lemma order_processing_handle_message message s :
  OrderProcessing.handle_message message s =
  (n <- next_message_count ;;
   update_registry inc_received ;;
   print (LReceived n) ;;
   d <- lift (decode (Body message)) ;;
   commit (ReceiptHandle message)
     (ArgBody (order_processing_arg message d))
     (OrderProcessing.process_order (order_processing_arg message d))
     OrderProcessing.delete_message) s.
Proof.
  unfold OrderProcessing.handle_message, decode, commit,
    order_processing_arg.
  execute; reflexivity.
Qed.

Lemma notification_handle_message message s :
  Notification.handle_message message s =
  (n <- next_message_count ;;
   print (LReceived n) ;;
   d <- lift (decode (Body message)) ;;
   commit (ReceiptHandle message)
     (ArgOrder (snd d))
     (Notification.send_notification (snd d))
     Notification.delete_message) s.
Proof.
  unfold Notification.handle_message, decode, commit.
  execute; try reflexivity.
Qed.

Lemma order_processing_commit h message_body s :
  after (commit h (ArgBody message_body)
           (OrderProcessing.process_order message_body)
           OrderProcessing.delete_message) s (fun r s' t =>
    exists ok : bool,
      (message_count s' = message_count s /\
       registry s' =
         observe_duration
           ((if ok then inc_processed else inc_failed) (registry s))) /\
      handled_trace h (ArgBody message_body) ok t /\
      (ok = false -> r = Return tt)).
Proof.
  apply commit_spec; [apply order_processing_deletes | ].
  eapply after_weaken; [apply process_order_spec | ].
  intros r s1 t1 (ok & -> & Ht & Hc & Hr).
  exists ok. repeat split; assumption.
Qed.

Lemma notification_commit h order s :
  after (commit h (ArgOrder order)
           (Notification.send_notification order)
           Notification.delete_message) s (fun r s' t =>
    exists ok,
      (message_count s' = message_count s /\ registry s' = registry s) /\
      handled_trace h (ArgOrder order) ok t /\
      (ok = false -> r = Return tt)).
Proof.
  apply commit_spec; [apply notification_deletes | ].
  eapply after_weaken; [apply send_notification_spec | ].
  intros r s1 t1 (ok & -> & Ht & Hc & Hr).
  exists ok. repeat split; assumption.
Qed.

(** One message in the order-processing service: the decoding either
    raises, and the exception leaves [handle_message] before any handler
    ran, or gives the payload that [process_order] is called with. *)
Lemma order_processing_message_spec message s :
  after (OrderProcessing.handle_message message) s (fun r s' t =>
    message_count s' = S (message_count s) /\
    match decode (Body message) with
    | Raise e =>
        r = Raise e /\ lines_only t /\
        registry s' = inc_received (registry s)
    | Return d =>
        exists ok,
          handled_trace (ReceiptHandle message)
            (ArgBody (order_processing_arg message d)) ok t /\
          registry s' = counted ok (registry s) /\
          (ok = false -> r = Return tt)
    end).
Proof.
  unfold after. rewrite order_processing_handle_message. run.
  destruct (decode (Body message)) as [d | e]; run;
    [ | repeat split].
  match goal with
  | |- context [commit ?h (ArgBody ?body) _ _ ?s1] =>
      generalize (order_processing_commit h body s1);
      unfold after, outcome, final, events;
      destruct (commit h (ArgBody body)
                  (OrderProcessing.process_order body)
                  OrderProcessing.delete_message s1) as [[r s'] t]
  end.
  simpl. intros (ok & [Hc Hr] & Ht & Hok).
  split; [assumption | ].
  exists ok. split; [ | split; assumption].
  apply (@handled_trace_prepend [Stdout (LReceived (S (message_count s)))]);
    [reflexivity | exact Ht].
Qed.

(** One message in the notification service; the registry is not
    touched. *)
Lemma notification_message_spec message s :
  after (Notification.handle_message message) s (fun r s' t =>
    message_count s' = S (message_count s) /\
    registry s' = registry s /\
    match decode (Body message) with
    | Raise e => r = Raise e /\ lines_only t
    | Return d =>
        exists ok,
          handled_trace (ReceiptHandle message) (ArgOrder (snd d)) ok t /\
          (ok = false -> r = Return tt)
    end).
Proof.
  unfold after. rewrite notification_handle_message. run.
  destruct (decode (Body message)) as [d | e]; run;
    [ | repeat split].
  match goal with
  | |- context [commit ?h (ArgOrder ?order) _ _ ?s1] =>
      generalize (notification_commit h order s1);
      unfold after, outcome, final, events;
      destruct (commit h (ArgOrder order)
                  (Notification.send_notification order)
                  Notification.delete_message s1) as [[r s'] t]
  end.
  simpl. intros (ok & [Hc Hr] & Ht & Hok).
  split; [assumption | split; [assumption | ]].
  exists ok. split; [ | assumption].
  apply (@handled_trace_prepend [Stdout (LReceived (S (message_count s)))]);
    [reflexivity | exact Ht].
Qed.

End Messages.

(** ** Reading a trace *)

Lemma lines_only_no_delete t h : lines_only t -> ~ In (SqsDelete h) t.
Proof.
  intros Ht Hin. apply (lines_only_In _ Ht) in Hin. discriminate Hin.
Qed.

Lemma lines_only_no_handled t h arg ok :
  lines_only t -> ~ In (Handled h arg ok) t.
Proof.
  intros Ht Hin. apply (lines_only_In _ Ht) in Hin. discriminate Hin.
Qed.

(** The only handler return in the trace of a message is the one of
    [handled_trace]. *)
Lemma handled_trace_handled h arg ok t h' arg' ok' :
  handled_trace h arg ok t ->
  In (Handled h' arg' ok') t <-> h' = h /\ arg' = arg /\ ok' = ok.
Proof.
  intros (before & rest & -> & Hb & Hrest). split.
  - intro Hin. apply in_app_or in Hin. destruct Hin as [Hin | [Heq | Hin]].
    + elim (lines_only_no_handled _ _ _ Hb Hin).
    + injection Heq as <- <- <-. auto.
    + destruct ok.
      * destruct Hrest as (rest' & -> & Hr).
        destruct Hin as [Heq | Hin]; [discriminate Heq | ].
        elim (lines_only_no_handled _ _ _ Hr Hin).
      * subst rest. destruct Hin.
  - intros (-> & -> & ->). apply in_or_app. right. left. reflexivity.
Qed.

(** The trace of a message holds a delete call exactly when the handler
    answered true, and then for the handle of the message. *)
Lemma handled_trace_delete h arg ok t h' :
  handled_trace h arg ok t ->
  In (SqsDelete h') t <-> h' = h /\ ok = true.
Proof.
  intros (before & rest & -> & Hb & Hrest). split.
  - intro Hin. apply in_app_or in Hin. destruct Hin as [Hin | [Heq | Hin]].
    + elim (lines_only_no_delete _ Hb Hin).
    + discriminate Heq.
    + destruct ok.
      * destruct Hrest as (rest' & -> & Hr).
        destruct Hin as [Heq | Hin]; [injection Heq as <-; auto | ].
        elim (lines_only_no_delete _ Hr Hin).
      * subst rest. destruct Hin.
  - intros (-> & ->). destruct Hrest as (rest' & -> & Hr).
    apply in_or_app. right. right. left. reflexivity.
Qed.

(** *** Counting over a whole run *)

Lemma balanced_app t1 t2 : balanced t1 -> balanced t2 -> balanced (t1 ++ t2).
Proof.
  intros H1 H2 h. unfold deletions, successes.
  rewrite !filter_app, !length_app.
  specialize (H1 h). specialize (H2 h). unfold deletions, successes in *.
  congruence.
Qed.

Lemma balanced_lines t : lines_only t -> balanced t.
Proof.
  intros Ht h. unfold deletions, successes.
  induction t as [ | e t IH]; [reflexivity | ].
  apply andb_true_iff in Ht. destruct Ht as [He Ht].
  destruct e; try discriminate He. simpl. auto.
Qed.

Lemma balanced_handled h arg ok t : handled_trace h arg ok t -> balanced t.
Proof.
  intros (before & rest & -> & Hb & Hrest).
  apply balanced_app; [apply balanced_lines; assumption | ].
  destruct ok.
  - destruct Hrest as (rest' & -> & Hr).
    apply (@balanced_app [Handled h arg true; SqsDelete h] rest');
      [ | apply balanced_lines; assumption].
    intro h'. unfold deletions, successes. simpl.
    destruct (String.eqb h' h); reflexivity.
  - subst rest. intro h'. reflexivity.
Qed.

(** A relation between the start state, the events and the end state
    that holds of doing nothing and composes goes through sequencing,
    exception handling and loops. *)
Section Invariants.
Variable R : state -> list event -> state -> Prop.
Hypothesis R_refl : forall s, R s [] s.
Hypothesis R_trans :
  forall s t1 s1 t2 s2, R s t1 s1 -> R s1 t2 s2 -> R s (t1 ++ t2) s2.

Lemma keeps_ret {A} (a : A) : keeps R (ret a).
Proof. intro s. apply R_refl. Qed.

Lemma keeps_lift {A} (r : result A) : keeps R (lift r).
Proof. intro s. apply R_refl. Qed.

Lemma keeps_bind {A B} (m : M A) (k : A -> M B) :
  keeps R m -> (forall a, keeps R (k a)) -> keeps R (bind m k).
Proof.
  intros Hm Hk s. specialize (Hm s). unfold bind, events, final in *.
  destruct (m s) as [[[a | e] s1] t1]; simpl in *; [ | exact Hm].
  specialize (Hk a s1). unfold events, final in Hk.
  destruct (k a s1) as [[r2 s2] t2]; simpl in *. eauto.
Qed.

Lemma keeps_try_except {A} (body : M A) clauses :
  keeps R body ->
  (forall e handler, select_clause clauses e = Some handler ->
                     keeps R handler) ->
  keeps R (try_except body clauses).
Proof.
  intros Hbody Hhandler s. specialize (Hbody s).
  unfold try_except, events, final in *.
  destruct (body s) as [[[a | e] s1] t1]; simpl in *; [exact Hbody | ].
  destruct (select_clause clauses e) as [handler | ] eqn:Hclause;
    [ | exact Hbody].
  specialize (Hhandler e handler Hclause s1). unfold events, final in Hhandler.
  destruct (handler s1) as [[r2 s2] t2]; simpl in *. eauto.
Qed.

Lemma keeps_with_exit {A} (body : M A) cleanup :
  keeps R body -> keeps R cleanup -> keeps R (with_exit body cleanup).
Proof.
  intros Hbody Hcleanup s. specialize (Hbody s).
  unfold with_exit, events, final in *.
  destruct (body s) as [[r s1] t1]; simpl in *.
  specialize (Hcleanup s1). unfold events, final in Hcleanup.
  destruct (cleanup s1) as [[r2 s2] t2]; simpl in *. eauto.
Qed.

Lemma keeps_for_each {A} (f : A -> M unit) l :
  (forall x, keeps R (f x)) -> keeps R (for_each f l).
Proof.
  intro Hf. induction l as [ | x rest IH]; simpl.
  - apply keeps_ret.
  - apply keeps_bind; auto.
Qed.

(** Writing a line that is not the receipt of a message. *)
Hypothesis R_line :
  forall s l, is_receipt (Stdout l) = false -> R s [Stdout l] s.

Lemma keeps_print l : is_receipt (Stdout l) = false -> keeps R (print l).
Proof. intros Hl s. apply R_line. exact Hl. Qed.

Lemma order_processing_poll_loop_keeps `{External} polls :
  (forall message, keeps R (OrderProcessing.handle_message message)) ->
  keeps R (OrderProcessing.poll_loop polls).
Proof.
  intro Hmessage. induction polls as [ | answer rest IH]; simpl.
  - apply keeps_ret.
  - apply keeps_bind.
    + unfold OrderProcessing.receive_messages. apply keeps_try_except.
      * apply keeps_bind; [apply keeps_lift | intro; apply keeps_ret].
      * intros e handler Hclause. simpl in Hclause.
        destruct (is_ClientError e); [ | discriminate Hclause].
        injection Hclause as <-.
        apply keeps_bind; [apply keeps_print; reflexivity | ].
        intro; apply keeps_ret.
    + intro messages. apply keeps_bind; [ | intro; exact IH].
      destruct messages as [ | message more].
      * apply keeps_print. reflexivity.
      * apply keeps_for_each. exact Hmessage.
Qed.

Lemma notification_poll_loop_keeps `{External} polls :
  (forall message, keeps R (Notification.handle_message message)) ->
  keeps R (Notification.poll_loop polls).
Proof.
  intro Hmessage. induction polls as [ | answer rest IH]; simpl.
  - apply keeps_ret.
  - apply keeps_bind.
    + unfold Notification.receive_messages. apply keeps_try_except.
      * apply keeps_bind; [apply keeps_lift | intro; apply keeps_ret].
      * intros e handler Hclause. simpl in Hclause.
        destruct (is_ClientError e); [ | discriminate Hclause].
        injection Hclause as <-.
        apply keeps_bind; [apply keeps_print; reflexivity | ].
        intro; apply keeps_ret.
    + intro messages. apply keeps_bind; [ | intro; exact IH].
      destruct messages as [ | message more].
      * apply keeps_print. reflexivity.
      * apply keeps_for_each. exact Hmessage.
Qed.

End Invariants.

(** [main] is its loop run from a count of zero; an interrupt that comes
    out of the loop is answered with the summary, any other exception
    goes on. *)
Lemma order_processing_main_cases `{External} polls s :
  OrderProcessing.main polls s =
  match OrderProcessing.poll_loop polls (reset s) with
  | (Return _, s', t) => (Return StillPolling, s', t)
  | (Raise KeyboardInterrupt, s', t) =>
      (Return Stopped, s', t ++ [Stdout (LTotalProcessed (message_count s'))])
  | (Raise e, s', t) => (Raise e, s', t)
  end.
Proof.
  unfold OrderProcessing.main, reset. run.
  destruct (OrderProcessing.poll_loop polls _) as [[[[] | e] s'] t];
    [rewrite app_nil_r; reflexivity | ].
  destruct e; reflexivity.
Qed.

Lemma notification_main_cases `{External} polls s :
  Notification.main polls s =
  match Notification.poll_loop polls (reset s) with
  | (Return _, s', t) => (Return StillPolling, s', t)
  | (Raise KeyboardInterrupt, s', t) =>
      (Return Stopped, s', t ++ [Stdout (LTotalSent (message_count s'))])
  | (Raise e, s', t) => (Raise e, s', t)
  end.
Proof.
  unfold Notification.main, reset. run.
  destruct (Notification.poll_loop polls _) as [[[[] | e] s'] t];
    [rewrite app_nil_r; reflexivity | ].
  destruct e; reflexivity.
Qed.

(** * The delivery contract *)

Lemma lines_only_deleted_iff_success h t :
  lines_only t -> deleted_iff_success h t.
Proof.
  intro Ht. split.
  - intro h'. split.
    + intro Hin. elim (lines_only_no_delete _ Ht Hin).
    + intros (_ & arg & Hin). elim (lines_only_no_handled _ _ _ Ht Hin).
  - intros arg Hin. elim (lines_only_no_handled _ _ _ Ht Hin).
Qed.

Lemma handled_trace_deleted_iff_success h arg ok t :
  handled_trace h arg ok t -> deleted_iff_success h t.
Proof.
  intro Ht. split.
  - intro h'. rewrite (handled_trace_delete h' Ht). split.
    + intros (-> & ->). split; [reflexivity | ].
      exists arg. apply (handled_trace_handled h arg true Ht). auto.
    + intros (-> & arg' & Hin). split; [reflexivity | ].
      apply (handled_trace_handled h arg' true Ht) in Hin.
      destruct Hin as (_ & _ & Hok). auto.
  - intros arg' Hin h' Hdel.
    apply (handled_trace_handled h arg' false Ht) in Hin.
    apply (handled_trace_delete h' Ht) in Hdel.
    destruct Hin as (_ & _ & Hok). destruct Hdel as (_ & Hok').
    congruence.
Qed.

Section Delivery.
Context `{External}.

(** C1.  For every message, each consumer calls delete on the handle of
    the message if and only if its handler returned success for it, and
    calls no delete after a handler failure; over any run of [main], the
    delete calls on a handle are as many as the handler successes for
    it. *)
Theorem delete_iff_handler_success :
  (forall message s,
     deleted_iff_success (ReceiptHandle message)
       (events (OrderProcessing.handle_message message s))) /\
  (forall message s,
     deleted_iff_success (ReceiptHandle message)
       (events (Notification.handle_message message s))) /\
  (forall polls s h,
     deletions h (events (OrderProcessing.main polls s)) =
     successes h (events (OrderProcessing.main polls s))) /\
  (forall polls s h,
     deletions h (events (Notification.main polls s)) =
     successes h (events (Notification.main polls s))).
Proof.
  assert (Hop : forall message s,
    lines_only (events (OrderProcessing.handle_message message s)) \/
    exists arg ok,
      handled_trace (ReceiptHandle message) arg ok
        (events (OrderProcessing.handle_message message s))).
  { intros message s.
    generalize (order_processing_message_spec message s). unfold after.
    destruct (decode (Body message)) as [d | e].
    - intros (_ & ok & Ht & _). right. eauto.
    - intros (_ & _ & Ht & _). left. exact Ht. }
  assert (Hn : forall message s,
    lines_only (events (Notification.handle_message message s)) \/
    exists arg ok,
      handled_trace (ReceiptHandle message) arg ok
        (events (Notification.handle_message message s))).
  { intros message s.
    generalize (notification_message_spec message s). unfold after.
    destruct (decode (Body message)) as [d | e].
    - intros (_ & _ & ok & Ht & _). right. eauto.
    - intros (_ & _ & _ & Ht). left. exact Ht. }
  split; [ | split; [ | split]].
  - intros message s.
    destruct (Hop message s) as [Ht | (arg & ok & Ht)];
      [apply lines_only_deleted_iff_success
      | eapply handled_trace_deleted_iff_success]; eassumption.
  - intros message s.
    destruct (Hn message s) as [Ht | (arg & ok & Ht)];
      [apply lines_only_deleted_iff_success
      | eapply handled_trace_deleted_iff_success]; eassumption.
  - intros polls s. change (balanced (events (OrderProcessing.main polls s))).
    rewrite order_processing_main_cases.
    assert (K : keeps (fun _ t _ => balanced t)
                  (OrderProcessing.poll_loop polls)).
    { apply order_processing_poll_loop_keeps.
      - intros _ h. reflexivity.
      - intros _ t1 _ t2 _. apply balanced_app.
      - intros _ l _. apply balanced_lines. reflexivity.
      - intros message s0.
        destruct (Hop message s0) as [Ht | (arg & ok & Ht)];
          eauto using balanced_lines, balanced_handled. }
    specialize (K (reset s)). unfold events in *.
    destruct (OrderProcessing.poll_loop polls (reset s))
      as [[[[] | e] s'] t]; simpl in *; [exact K | ].
    destruct e; try exact K.
    apply balanced_app; [exact K | apply balanced_lines; reflexivity].
  - intros polls s. change (balanced (events (Notification.main polls s))).
    rewrite notification_main_cases.
    assert (K : keeps (fun _ t _ => balanced t)
                  (Notification.poll_loop polls)).
    { apply notification_poll_loop_keeps.
      - intros _ h. reflexivity.
      - intros _ t1 _ t2 _. apply balanced_app.
      - intros _ l _. apply balanced_lines. reflexivity.
      - intros message s0.
        destruct (Hn message s0) as [Ht | (arg & ok & Ht)];
          eauto using balanced_lines, balanced_handled. }
    specialize (K (reset s)). unfold events in *.
    destruct (Notification.poll_loop polls (reset s))
      as [[[[] | e] s'] t]; simpl in *; [exact K | ].
    destruct e; try exact K.
    apply balanced_app; [exact K | apply balanced_lines; reflexivity].
Qed.

End Delivery.

(** * The envelope *)

Section Envelope.
Context `{External}.

(** [process_order] on a body that parses runs the rest of its [try]
    block on the parsed value. *)
Lemma process_order_payload message_body order s :
  json_loads message_body = Some order ->
  OrderProcessing.process_order message_body s =
  with_exit
    (try_except
       (OrderProcessing.process_parsed order ;; ret true)
       [(is_JSONDecodeError,
         fun e => print LErrorParsing ;;
                  update_registry inc_failed ;;
                  ret false);
        (is_Exception,
         fun e => print (LErrorProcessing e) ;;
                  update_registry inc_failed ;;
                  ret false)])
    (update_registry observe_duration) s.
Proof.
  intro Hloads.
  unfold OrderProcessing.process_order, with_exit, try_except, bind, loads.
  rewrite Hloads. unfold ret at 1.
  destruct (OrderProcessing.process_parsed order s) as [[[o | e] s1] t1];
    reflexivity.
Qed.

Lemma decode_wrapped text d inner v :
  json_loads text = Some (JObject d) ->
  dict_get d "Message" = Some (JString inner) ->
  json_loads inner = Some v ->
  decode text = Return (true, v).
Proof.
  intros Hbody Hfield Hinner. unfold decode, py_contains, py_getitem.
  rewrite Hbody, Hfield, Hinner. reflexivity.
Qed.

Lemma decode_raw text d :
  json_loads text = Some (JObject d) ->
  dict_get d "Message" = None ->
  decode text = Return (false, JObject d).
Proof.
  intros Hbody Hfield. unfold decode, py_contains.
  rewrite Hbody, Hfield. reflexivity.
Qed.

End Envelope.

(** * Metrics *)

Lemma counted_counts_one_message ok m : counts_one_message m (counted ok m).
Proof.
  unfold counts_one_message. destruct ok; simpl; auto.
Qed.

Section Metrics.
Context `{External}.

(** C4, as the code has it.  The order-processing consumer counts every
    handle it pulls as received; for a handle whose payload reaches
    [process_order] it also counts one processed or one failed, as the
    handler answered, and observes one duration.  The notification
    consumer has no registry to count in. *)
Theorem order_processing_counts_handled_messages message s :
  messages_received
    (registry (final (OrderProcessing.handle_message message s))) =
  S (messages_received (registry s)) /\
  (forall h arg ok,
     In (Handled h arg ok)
        (events (OrderProcessing.handle_message message s)) ->
     registry (final (OrderProcessing.handle_message message s)) =
       counted ok (registry s) /\
     counts_one_message (registry s)
       (registry (final (OrderProcessing.handle_message message s)))) /\
  registry (final (Notification.handle_message message s)) = registry s.
Proof.
  generalize (order_processing_message_spec message s). unfold after.
  destruct (decode (Body message)) as [d | e].
  - intros (_ & ok & Ht & Hr & _). split; [ | split].
    + rewrite Hr. destruct ok; reflexivity.
    + intros h arg ok' Hin.
      apply (handled_trace_handled h arg ok' Ht) in Hin.
      destruct Hin as (_ & _ & ->).
      rewrite Hr. split; [reflexivity | apply counted_counts_one_message].
    + generalize (notification_message_spec message s). unfold after.
      intros (_ & Hn & _). exact Hn.
  - intros (_ & _ & Ht & Hr). split; [ | split].
    + rewrite Hr. reflexivity.
    + intros h arg ok Hin. elim (lines_only_no_handled _ _ _ Ht Hin).
    + generalize (notification_message_spec message s). unfold after.
      intros (_ & Hn & _). exact Hn.
Qed.

End Metrics.

(** * Redelivery *)

Lemma dict_get_set_other d k x k' :
  k' <> k -> dict_get (dict_set d k x) k' = dict_get d k'.
Proof.
  intro Hne. induction d as [ | [k0 v] rest IH]; simpl.
  - destruct (String.eqb_spec k' k); [contradiction | reflexivity].
  - destruct (String.eqb_spec k k0) as [-> | Hk]; simpl.
    + destruct (String.eqb_spec k' k0); [contradiction | reflexivity].
    + rewrite IH. reflexivity.
Qed.

Lemma dict_get_set_same d k x : dict_get (dict_set d k x) k = Some x.
Proof.
  induction d as [ | [k0 v] rest IH]; simpl.
  - rewrite String.eqb_refl. reflexivity.
  - destruct (String.eqb_spec k k0) as [-> | Hk]; simpl.
    + rewrite String.eqb_refl. reflexivity.
    + destruct (String.eqb_spec k k0); [contradiction | exact IH].
Qed.

Section Redelivery.
Context `{External}.

(** [process_parsed] looks at the state for the time only: from any two
    states it writes the same lines and ends the same way, and when it
    returns the order is the parsed one with its status and time set. *)
Lemma process_parsed_twice order s1 s2 :
  events (OrderProcessing.process_parsed order s1) =
  events (OrderProcessing.process_parsed order s2) /\
  match outcome (OrderProcessing.process_parsed order s1),
        outcome (OrderProcessing.process_parsed order s2) with
  | Return o1, Return o2 =>
      exists d,
        order = JObject d /\
        o1 = processed_order d s1 /\ o2 = processed_order d s2
  | Raise e1, Raise e2 => e1 = e2
  | _, _ => False
  end.
Proof.
  unfold OrderProcessing.process_parsed, processed_order.
  destruct order as [ | | | | | | d];
    try (split; reflexivity).
  unfold py_getitem, py_setitem.
  repeat (run; rewrite ?dict_get_set_other by discriminate;
          try split_scrutinee);
    (split; [reflexivity | ]); try reflexivity.
  exists d. auto.
Qed.

(** C7.  When [process_order] succeeds on a body it succeeds again on the
    same body, from whatever state the redelivery finds: both calls write
    the same lines, and both leave the order with status [processing] and
    with the same value under every key but the time of processing. *)
Theorem process_order_redelivery message_body s1 s2 :
  outcome (OrderProcessing.process_order message_body s1) = Return true ->
  outcome (OrderProcessing.process_order message_body s2) = Return true /\
  events (OrderProcessing.process_order message_body s1) =
  events (OrderProcessing.process_order message_body s2) /\
  exists d,
    json_loads message_body = Some (JObject d) /\
    outcome (OrderProcessing.process_parsed (JObject d) s1) =
      Return (processed_order d s1) /\
    outcome (OrderProcessing.process_parsed (JObject d) s2) =
      Return (processed_order d s2) /\
    py_getitem (processed_order d s1) "status" =
      Return (JString "processing") /\
    py_getitem (processed_order d s2) "status" =
      Return (JString "processing") /\
    forall k, k <> "processed_at" ->
      py_getitem (processed_order d s1) k =
      py_getitem (processed_order d s2) k.
Proof.
  destruct (json_loads message_body) as [order | ] eqn:Hloads.
  2: { unfold OrderProcessing.process_order, loads. rewrite Hloads.
       pose proof (json_loads_error_Exception message_body) as He. run.
       destruct (json_loads_error message_body); try discriminate He;
         run; discriminate. }
  rewrite !(process_order_payload _ _ Hloads).
  generalize (process_parsed_twice order s1 s2).
  unfold with_exit, try_except, bind, outcome, events.
  destruct (OrderProcessing.process_parsed order s1)
    as [[[o1 | e1] s1'] t1] eqn:E1;
    destruct (OrderProcessing.process_parsed order s2)
      as [[[o2 | e2] s2'] t2] eqn:E2;
    simpl; intros [Ht Hr]; try contradiction.
  - destruct Hr as (d & -> & -> & ->). intros _.
    split; [reflexivity | ]. split; [rewrite Ht; reflexivity | ].
    exists d. rewrite E1, E2.
    repeat split; try reflexivity.
    + unfold processed_order, py_getitem.
      rewrite dict_get_set_other by discriminate.
      rewrite dict_get_set_same. reflexivity.
    + unfold processed_order, py_getitem.
      rewrite dict_get_set_other by discriminate.
      rewrite dict_get_set_same. reflexivity.
    + intros k Hk. unfold processed_order, py_getitem.
      rewrite !(@dict_get_set_other _ "processed_at") by exact Hk.
      reflexivity.
  - subst e2. destruct e1; simpl; discriminate.
Qed.

End Redelivery.

(** * Receiving *)

(** C9, as the code has it.  [receive_messages] leaves the state alone.
    After a response it returns the delivered messages, which are none
    when the response has no ['Messages'], and writes nothing; after a
    [ClientError] of the SQS call it returns the empty list and writes
    one line of error; any other exception of the call it raises to its
    caller, having written nothing. *)
Theorem receive_messages_returns answer s :
  OrderProcessing.receive_messages answer s =
    Notification.receive_messages answer s /\
  OrderProcessing.receive_messages answer s =
    match answer with
    | Return {| Messages := Some messages |} => (Return messages, s, [])
    | Return {| Messages := None |} => (Return [], s, [])
    | Raise e =>
        if is_ClientError e
        then (Return [], s, [Stdout (LErrorReceiving e)])
        else (Raise e, s, [])
    end.
Proof.
  unfold OrderProcessing.receive_messages, Notification.receive_messages.
  split; [reflexivity | ].
  destruct answer as [[[messages | ]] | e]; try reflexivity.
  destruct e; reflexivity.
Qed.

(** * Priority *)

Lemma Qle_bool_false x y : (x < y)%Q -> Qle_bool y x = false.
Proof.
  intro Hlt. destruct (Qle_bool y x) eqn:Hle; [ | reflexivity].
  apply Qle_bool_iff in Hle. elim (Qlt_not_le _ _ Hlt Hle).
Qed.

(** Of the five templates of the producer only the first, the order of
    1200.00, is of high priority. *)
Lemma order_templates_priorities :
  map Producer.priority Producer.order_templates =
  [Return "high"; Return "normal"; Return "normal"; Return "normal";
   Return "normal"].
Proof. reflexivity. Qed.

(** C8.  The priority attribute is [normal] for a total below 500 and
    [high] for a total of 500 or more. *)
Theorem priority_threshold (order_template : Producer.order_template) q :
  number_value (Producer.total order_template) = Some q ->
  ((q < inject_Z 500)%Q ->
   Producer.priority order_template = Return "normal") /\
  ((inject_Z 500 <= q)%Q ->
   Producer.priority order_template = Return "high").
Proof.
  unfold Producer.priority, Producer.message_attributes, py_lt_int.
  destruct (Producer.total order_template) as [ | | z | [m e | | ] | | | ];
    simpl; try discriminate; intros [= <-]; split; intro Hq.
  - assert (Hz : (z <? 500) = true).
    { apply Z.ltb_lt. unfold Qlt in Hq. simpl in Hq. lia. }
    rewrite Hz. reflexivity.
  - assert (Hz : (z <? 500) = false).
    { apply Z.ltb_ge. unfold Qle in Hq. simpl in Hq. lia. }
    rewrite Hz. reflexivity.
  - rewrite (Qle_bool_false Hq). reflexivity.
  - apply Qle_bool_iff in Hq. rewrite Hq. reflexivity.
Qed.

(** * The summary *)

Lemma received_app t1 t2 :
  received (t1 ++ t2) = (received t1 + received t2)%nat.
Proof. unfold received. rewrite filter_app, length_app. reflexivity. Qed.

Section Summary.
Context `{External}.

Lemma process_order_no_receipt message_body s :
  received (events (OrderProcessing.process_order message_body s)) = 0%nat.
Proof.
  unfold OrderProcessing.process_order, OrderProcessing.process_parsed.
  execute; reflexivity.
Qed.

Lemma send_notification_no_receipt order s :
  received (events (Notification.send_notification order s)) = 0%nat.
Proof.
  unfold Notification.send_notification.
  execute; reflexivity.
Qed.

Lemma commit_no_receipt h arg handler delete s :
  (forall s0, received (events (handler s0)) = 0%nat) ->
  (forall s0, received (events (delete h s0)) = 0%nat) ->
  received (events (commit h arg handler delete s)) = 0%nat.
Proof.
  intros Hhandler Hdelete. unfold commit. run.
  specialize (Hhandler s). unfold events in Hhandler.
  destruct (handler s) as [[[ok | e] s1] t1]; simpl in *;
    [ | exact Hhandler].
  destruct ok.
  - specialize (Hdelete s1). unfold events in Hdelete.
    destruct (delete h s1) as [[[deleted | e] s2] t2]; simpl in *;
      rewrite !received_app, Hhandler, Hdelete; reflexivity.
  - simpl. rewrite !received_app, Hhandler. reflexivity.
Qed.

Lemma order_processing_delete_no_receipt h s :
  received (events (OrderProcessing.delete_message h s)) = 0%nat.
Proof.
  unfold OrderProcessing.delete_message. execute; reflexivity.
Qed.

Lemma notification_delete_no_receipt h s :
  received (events (Notification.delete_message h s)) = 0%nat.
Proof.
  unfold Notification.delete_message. execute; reflexivity.
Qed.

(** Either consumer writes one receipt per message. *)
Lemma order_processing_one_receipt message s :
  received (events (OrderProcessing.handle_message message s)) = 1%nat.
Proof.
  rewrite order_processing_handle_message. run.
  destruct (decode (Body message)) as [d | e]; run; [ | reflexivity].
  match goal with
  | |- context [commit ?h ?arg ?handler ?delete ?s1] =>
      generalize (@commit_no_receipt h arg handler delete s1
                    (process_order_no_receipt _)
                    (order_processing_delete_no_receipt _));
      unfold events;
      destruct (commit h arg handler delete s1) as [[r s'] t]
  end.
  simpl. intro Ht. unfold received in *. simpl. rewrite Ht. reflexivity.
Qed.

Lemma notification_one_receipt message s :
  received (events (Notification.handle_message message s)) = 1%nat.
Proof.
  rewrite notification_handle_message. run.
  destruct (decode (Body message)) as [d | e]; run; [ | reflexivity].
  match goal with
  | |- context [commit ?h ?arg ?handler ?delete ?s1] =>
      generalize (@commit_no_receipt h arg handler delete s1
                    (send_notification_no_receipt _)
                    (notification_delete_no_receipt _));
      unfold events;
      destruct (commit h arg handler delete s1) as [[r s'] t]
  end.
  simpl. intro Ht. unfold received in *. simpl. rewrite Ht. reflexivity.
Qed.

Lemma counts_receipts_line l :
  is_receipt (Stdout l) = false -> received [Stdout l] = 0%nat.
Proof. intro Hl. unfold received. cbn [filter]. rewrite Hl. reflexivity. Qed.

Lemma order_processing_loop_counts polls :
  keeps counts_receipts_in_registry (OrderProcessing.poll_loop polls).
Proof.
  apply order_processing_poll_loop_keeps.
  - intro s. unfold counts_receipts_in_registry, received. simpl. lia.
  - intros s t1 s1 t2 s2 [Hc1 Hr1] [Hc2 Hr2].
    split; rewrite received_app; lia.
  - intros s l Hl. split; rewrite (@counts_receipts_line l Hl); lia.
  - intros message s.
    generalize (order_processing_message_spec message s). unfold after.
    intros (Hc & Hr). unfold counts_receipts_in_registry.
    rewrite order_processing_one_receipt.
    split; [lia | ].
    destruct (decode (Body message)) as [d | e].
    + destruct Hr as (ok & _ & -> & _). destruct ok; simpl; lia.
    + destruct Hr as (_ & _ & ->). simpl. lia.
Qed.

Lemma notification_loop_counts polls :
  keeps counts_receipts (Notification.poll_loop polls).
Proof.
  apply notification_poll_loop_keeps.
  - intro s. unfold counts_receipts, received. simpl. lia.
  - intros s t1 s1 t2 s2 Hc1 Hc2. unfold counts_receipts in *.
    rewrite received_app. lia.
  - intros s l Hl. unfold counts_receipts.
    rewrite (@counts_receipts_line l Hl). lia.
  - intros message s.
    generalize (notification_message_spec message s). unfold after.
    intros (Hc & _). unfold counts_receipts.
    rewrite notification_one_receipt. lia.
Qed.

(** What the summary counts.  When an interrupt stops [main], the last
    thing it does is to write the summary, and the count of the summary is
    the number of receipts written since [main] began, whether the
    handling of those messages succeeded or not; in the order-processing
    service it is the growth of the counter of received messages. *)
Lemma summary_counts_receipts polls s :
  (outcome (OrderProcessing.main polls s) = Return Stopped ->
   exists t,
     events (OrderProcessing.main polls s) =
       t ++ [Stdout (LTotalProcessed (received t))] /\
     messages_received (registry (final (OrderProcessing.main polls s))) =
       (messages_received (registry s) + received t)%nat) /\
  (outcome (Notification.main polls s) = Return Stopped ->
   exists t,
     events (Notification.main polls s) =
       t ++ [Stdout (LTotalSent (received t))]).
Proof.
  split.
  - rewrite order_processing_main_cases.
    generalize (order_processing_loop_counts polls (reset s)).
    unfold outcome, final, events.
    destruct (OrderProcessing.poll_loop polls (reset s))
      as [[[[] | e] s'] t]; simpl; intros [Hc Hr] Hstopped;
      [discriminate Hstopped | ].
    destruct e; try discriminate Hstopped. simpl.
    exists t. rewrite Hc. split; [reflexivity | exact Hr].
  - rewrite notification_main_cases.
    generalize (notification_loop_counts polls (reset s)).
    unfold outcome, final, events, counts_receipts.
    destruct (Notification.poll_loop polls (reset s))
      as [[[[] | e] s'] t]; simpl; intros Hc Hstopped;
      [discriminate Hstopped | ].
    destruct e; try discriminate Hstopped. simpl.
    exists t. rewrite Hc. reflexivity.
Qed.

End Summary.

(** * Failures that leave the loop *)

Section Undecodable.
Context `{External}.

(** A body that is not JSON raises in [main] itself, outside every
    handler: the exception leaves the loop of either consumer, whatever
    messages and polls were to follow. *)
Lemma undecodable_body_leaves_main message more polls s :
  json_loads (Body message) = None ->
  outcome (OrderProcessing.main
             (Return {| Messages := Some (message :: more) |} :: polls) s) =
    Raise (json_loads_error (Body message)) /\
  outcome (Notification.main
             (Return {| Messages := Some (message :: more) |} :: polls) s) =
    Raise (json_loads_error (Body message)).
Proof.
  intro Hbody.
  pose proof (json_loads_error_Exception (Body message)) as He.
  unfold OrderProcessing.main, Notification.main.
  cbn [OrderProcessing.poll_loop Notification.poll_loop].
  unfold OrderProcessing.receive_messages, Notification.receive_messages.
  run. cbn [Messages for_each].
  unfold OrderProcessing.handle_message, Notification.handle_message.
  run. rewrite Hbody.
  destruct (json_loads_error (Body message)); try discriminate He;
    split; reflexivity.
Qed.

End Undecodable.

(** * What the handlers take *)

Section Acceptance.
Context `{External}.

(** Closes a goal on the outcome of a handler once every field it prints
    is known to be printable or not. *)
Ltac settle_printable :=
  cbn [printable] in *;
  repeat match goal with
         | Heq : Some _ = Some _ |- _ => injection Heq as Heq; subst
         | Heq : Return _ = Return _ |- _ => injection Heq as Heq; subst
         end;
  repeat match goal with
         | Hp : printable _ = _ |- _ => rewrite Hp
         | Hp : encodable _ = _ |- _ => rewrite Hp
         end;
  rewrite ?andb_false_r; try reflexivity; try congruence.

(** [process_order] answers whether its body parses to an order it can
    process. *)
Lemma process_order_outcome message_body s :
  outcome (OrderProcessing.process_order message_body s) =
  Return (match json_loads message_body with
          | Some order => processable order
          | None => false
          end).
Proof.
  unfold OrderProcessing.process_order, loads.
  destruct (json_loads message_body) as [order | ].
  - unfold OrderProcessing.process_parsed, processable.
    destruct order as [ | | | | | | d]; try reflexivity.
    unfold py_getitem, py_setitem.
    repeat (run; rewrite ?dict_get_set_other by discriminate;
            try first [split_exception | split_scrutinee]);
      try reflexivity; settle_printable.
  - pose proof (json_loads_error_Exception message_body) as He. run.
    destruct (json_loads_error message_body); try discriminate He;
      reflexivity.
Qed.

(** [send_notification] answers whether it can notify of the order. *)
Lemma send_notification_outcome order s :
  outcome (Notification.send_notification order s) =
  Return (notifiable order).
Proof.
  unfold Notification.send_notification, notifiable.
  repeat (run; try first [split_exception | split_scrutinee]);
    try reflexivity; settle_printable.
Qed.

Lemma py_join_joinable sep items :
  joinable items = true <-> exists joined, py_join sep items = Return joined.
Proof.
  unfold py_join. destruct items as [ | | | | text | l | d]; simpl;
    try (split; [discriminate | intros [joined [=]]]);
    try (split; [eauto | reflexivity]).
  assert (Hall : forallb (fun x => match x with
                                   | JString _ => true
                                   | _ => false
                                   end) l = true <->
                 exists ss, all_str l = Some ss).
  { induction l as [ | x rest IH]; simpl.
    - split; eauto.
    - destruct x; simpl;
        try (split; [discriminate | intros [ss [=]]]).
      rewrite IH. destruct (all_str rest) as [ss | ].
      + split; eauto.
      + split; intros [ss [=]]. }
  rewrite Hall. destruct (all_str l) as [ss | ].
  - split; eauto.
  - split; [intros [ss [=]] | intros [joined [=]]].
Qed.

Lemma py_format_2f_formattable total :
  formattable total = true <-> exists text, py_format_2f total = Return text.
Proof.
  unfold py_format_2f.
  destruct total as [ | | z | | | | ]; simpl;
    try (split; [discriminate | intros [text [=]]]);
    try (split; [eauto | reflexivity]).
  destruct (int_fits_float z).
  - split; eauto.
  - split; [discriminate | intros [text [=]]].
Qed.

(** ** What stdout can encode of the joined items *)

(** A text that is cut before a comma can be encoded when both parts
    can. *)
Lemma encodable_comma s rest :
  encodable (s ++ String "," rest) =
  encodable s && encodable (String "," rest).
Proof.
  induction s as [ | c s IH]; [reflexivity | ].
  destruct s as [ | c' s'].
  - change (encodable (String c (String "," rest)) =
            encodable (String "," rest)).
    change (encodable (String c (String "," rest)))
      with (if is_surrogate c "," then false
            else encodable (String "," rest)).
    replace (is_surrogate c ",") with false; [reflexivity | ].
    unfold is_surrogate. simpl. rewrite andb_false_r. reflexivity.
  - cbn [append] in *.
    change (encodable (String c (String c' (s' ++ String "," rest))))
      with (if is_surrogate c c' then false
            else encodable (String c' (s' ++ String "," rest))).
    change (encodable (String c (String c' s')))
      with (if is_surrogate c c' then false
            else encodable (String c' s')).
    rewrite IH. destruct (is_surrogate c c'); reflexivity.
Qed.

Lemma encodable_separator rest :
  encodable (", " ++ rest) = encodable rest.
Proof. destruct rest; reflexivity. Qed.

Lemma encodable_concat pieces :
  encodable (String.concat ", " pieces) = forallb encodable pieces.
Proof.
  induction pieces as [ | x rest IH]; [reflexivity | ].
  destruct rest as [ | y rest].
  - simpl. rewrite andb_true_r. reflexivity.
  - change (String.concat ", " (x :: y :: rest))
      with (x ++ ", " ++ String.concat ", " (y :: rest))%string.
    change (x ++ ", " ++ String.concat ", " (y :: rest))%string
      with (x ++ String "," (" " ++ String.concat ", " (y :: rest)))%string.
    rewrite encodable_comma.
    change (String "," (" " ++ String.concat ", " (y :: rest)))%string
      with (", " ++ String.concat ", " (y :: rest))%string.
    rewrite encodable_separator, IH. reflexivity.
Qed.

(** The code points of a string, joined, hold a surrogate when the string
    does. *)
Lemma str_chars_head c rest :
  exists next more,
    str_chars (String c rest) = String c next :: more /\
    (continues rest = false -> next = EmptyString).
Proof.
  simpl. destruct (str_chars rest) as [ | next more].
  - exists EmptyString, []. auto.
  - destruct (continues rest) eqn:Hc.
    + exists next, more. split; [reflexivity | discriminate].
    + exists EmptyString, (next :: more). auto.
Qed.

Lemma str_chars_empty s : str_chars s = [] -> s = EmptyString.
Proof.
  destruct s as [ | c rest]; [reflexivity | ].
  destruct (str_chars_head c rest) as (next & more & -> & _). discriminate.
Qed.

Lemma is_surrogate_continues c c' :
  is_continuation c' = false -> is_surrogate c c' = false.
Proof.
  unfold is_surrogate, is_continuation. intro Hc.
  apply andb_false_iff in Hc.
  destruct Hc as [Hc | Hc].
  - apply Nat.leb_gt in Hc.
    replace (160 <=? nat_of_ascii c')%nat with false
      by (symmetry; apply Nat.leb_gt; lia).
    rewrite andb_false_r. reflexivity.
  - rewrite Hc. apply andb_false_r.
Qed.

Lemma encodable_str_chars s :
  encodable (String.concat ", " (str_chars s)) = encodable s.
Proof.
  induction s as [ | c rest IH]; [reflexivity | ].
  simpl str_chars.
  destruct (str_chars rest) as [ | next more] eqn:Hchars.
  - apply str_chars_empty in Hchars. subst rest. reflexivity.
  - destruct rest as [ | c' rest']; [discriminate Hchars | ].
    destruct (str_chars_head c' rest') as (next' & more' & Hhead & _).
    rewrite Hhead in Hchars. injection Hchars as <- <-.
    unfold continues. destruct (is_continuation c') eqn:Hc.
    + assert (Hjoin :
        forall a piece,
          String.concat ", " (String a piece :: more') =
          String a (String.concat ", " (piece :: more'))).
      { intros a piece. destruct more'; reflexivity. }
      rewrite (Hjoin c (String c' next')).
      rewrite (Hjoin c' next') in IH |- *.
      change (encodable
                (String c (String c' (String.concat ", " (next' :: more')))))
        with (if is_surrogate c c' then false
              else encodable
                     (String c' (String.concat ", " (next' :: more')))).
      change (encodable (String c (String c' rest')))
        with (if is_surrogate c c' then false
              else encodable (String c' rest')).
      rewrite IH. reflexivity.
    + change (String.concat ", "
                (String c EmptyString :: String c' next' :: more'))
        with (String c EmptyString
              ++ String ","
                   (" " ++ String.concat ", " (String c' next' :: more')))
             %string.
      rewrite encodable_comma.
      change (String ","
                (" " ++ String.concat ", " (String c' next' :: more')))
             %string
        with (", " ++ String.concat ", " (String c' next' :: more'))
             %string.
      rewrite encodable_separator, IH.
      change (encodable (String c EmptyString)) with true.
      cbn [andb].
      change (encodable (String c (String c' rest')))
        with (if is_surrogate c c' then false
              else encodable (String c' rest')).
      rewrite (@is_surrogate_continues c c' Hc). reflexivity.
Qed.

Lemma all_str_printable l ss :
  all_str l = Some ss -> forallb encodable ss = forallb printable l.
Proof.
  revert ss. induction l as [ | x rest IH]; intros ss.
  - intros [= <-]. reflexivity.
  - destruct x; try discriminate. simpl.
    destruct (all_str rest) as [ss' | ]; [ | discriminate].
    intros [= <-]. simpl. rewrite (IH ss' eq_refl). reflexivity.
Qed.

Lemma py_join_printable items joined :
  py_join ", " items = Return joined ->
  encodable joined = printable_items items.
Proof.
  unfold py_join, printable_items.
  destruct items as [ | | | | text | l | d]; try discriminate.
  - intros [= <-]. apply encodable_str_chars.
  - destruct (all_str l) as [ss | ] eqn:Hall; [ | discriminate].
    intros [= <-]. rewrite encodable_concat.
    apply all_str_printable, Hall.
  - intros [= <-]. apply encodable_concat.
Qed.

Lemma processable_fields order :
  processable order = true <->
  exists d order_id customer_id items total_amount status,
    order = JObject d /\
    dict_get d "order_id" = Some order_id /\
    dict_get d "customer_id" = Some customer_id /\
    dict_get d "items" = Some items /\
    dict_get d "total_amount" = Some total_amount /\
    dict_get d "status" = Some status /\
    joinable items = true /\
    formattable total_amount = true /\
    printable order_id = true /\
    printable customer_id = true /\
    printable_items items = true /\
    printable status = true.
Proof.
  unfold processable, py_getitem. split.
  - destruct order as [ | | | | | | d]; try discriminate.
    destruct (dict_get d "order_id") as [order_id | ] eqn:H1;
      [ | discriminate].
    destruct (dict_get d "customer_id") as [customer_id | ] eqn:H2;
      [ | discriminate].
    destruct (dict_get d "items") as [items | ] eqn:H3; [ | discriminate].
    destruct (dict_get d "total_amount") as [total_amount | ] eqn:H4;
      [ | discriminate].
    destruct (dict_get d "status") as [status | ] eqn:H5; [ | discriminate].
    destruct (py_join ", " items) as [joined | e] eqn:Hjoin;
      [ | discriminate].
    destruct (py_format_2f total_amount) as [text | e] eqn:Hformat;
      [ | discriminate].
    rewrite (py_join_printable _ Hjoin), !andb_true_iff.
    intros [[[Hp1 Hp2] Hp3] Hp4].
    exists d, order_id, customer_id, items, total_amount, status.
    repeat (split; [solve [auto] | ]). split; [ | split; [ | auto]].
    + apply (py_join_joinable ", "). eauto.
    + apply py_format_2f_formattable. eauto.
  - intros (d & order_id & customer_id & items & total_amount & status
            & -> & -> & -> & -> & -> & -> & Hjoin & Hformat
            & Hp1 & Hp2 & Hp3 & Hp4).
    apply (py_join_joinable ", ") in Hjoin. destruct Hjoin as [joined Hjoin].
    rewrite Hjoin, (py_join_printable _ Hjoin).
    apply py_format_2f_formattable in Hformat.
    destruct Hformat as [text ->].
    rewrite Hp1, Hp2, Hp3, Hp4. reflexivity.
Qed.

Lemma notifiable_fields order :
  notifiable order = true <->
  exists d order_id customer_id items total_amount,
    order = JObject d /\
    dict_get d "order_id" = Some order_id /\
    dict_get d "customer_id" = Some customer_id /\
    dict_get d "items" = Some items /\
    dict_get d "total_amount" = Some total_amount /\
    joinable items = true /\
    formattable total_amount = true /\
    printable order_id = true /\
    printable customer_id = true /\
    printable_items items = true.
Proof.
  unfold notifiable, py_getitem. split.
  - destruct order as [ | | | | | | d]; try discriminate.
    destruct (dict_get d "customer_id") as [customer_id | ] eqn:H1;
      [ | discriminate].
    destruct (dict_get d "order_id") as [order_id | ] eqn:H2;
      [ | discriminate].
    destruct (dict_get d "total_amount") as [total_amount | ] eqn:H3;
      [ | discriminate].
    destruct (dict_get d "items") as [items | ] eqn:H4; [ | discriminate].
    destruct (py_format_2f total_amount) as [text | e] eqn:Hformat;
      [ | discriminate].
    destruct (py_join ", " items) as [joined | e] eqn:Hjoin;
      [ | discriminate].
    rewrite (py_join_printable _ Hjoin), !andb_true_iff.
    intros [[Hp1 Hp2] Hp3].
    exists d, order_id, customer_id, items, total_amount.
    repeat (split; [solve [auto] | ]). split; [ | split; [ | auto]].
    + apply (py_join_joinable ", "). eauto.
    + apply py_format_2f_formattable. eauto.
  - intros (d & order_id & customer_id & items & total_amount
            & -> & -> & -> & -> & -> & Hjoin & Hformat & Hp1 & Hp2 & Hp3).
    apply (py_join_joinable ", ") in Hjoin. destruct Hjoin as [joined Hjoin].
    rewrite Hjoin, (py_join_printable _ Hjoin).
    apply py_format_2f_formattable in Hformat.
    destruct Hformat as [text ->].
    rewrite Hp1, Hp2, Hp3. reflexivity.
Qed.


(** X2.  Whatever its body, JSON or not, [process_order] calls nothing
    of SQS and writes lines only, counts the call once, as processed when
    it returns True and as failed when it returns False, and observes one
    duration. *)
Theorem process_order_accounts message_body s :
  exists ok,
    outcome (OrderProcessing.process_order message_body s) = Return ok /\
    lines_only (events (OrderProcessing.process_order message_body s)) /\
    message_count (final (OrderProcessing.process_order message_body s)) =
      message_count s /\
    registry (final (OrderProcessing.process_order message_body s)) =
      observe_duration
        ((if ok then inc_processed else inc_failed) (registry s)).
Proof.
  exact (process_order_spec message_body s).
Qed.



End Acceptance.

(** * One message, in full *)

Lemma handled_app t1 t2 : handled (t1 ++ t2) = (handled t1 + handled t2)%nat.
Proof. unfold handled. rewrite filter_app, length_app. reflexivity. Qed.

Lemma lines_only_handled t : lines_only t -> handled t = 0%nat.
Proof.
  intro Ht. unfold handled.
  induction t as [ | e t IH]; [reflexivity | ].
  apply andb_true_iff in Ht. destruct Ht as [He Ht].
  destruct e; try discriminate He. simpl. auto.
Qed.

Lemma received_none_numbers t : received t = 0%nat -> receipt_numbers t = [].
Proof.
  unfold received. induction t as [ | e t IH]; [reflexivity | ].
  simpl. destruct e as [[] | | ]; simpl; try exact IH; discriminate.
Qed.

Lemma receipt_numbers_app t1 t2 :
  receipt_numbers (t1 ++ t2) = receipt_numbers t1 ++ receipt_numbers t2.
Proof. unfold receipt_numbers. apply flat_map_app. Qed.

Section MessagesInFull.
Context `{External}.

Lemma order_processing_delete_result h s :
  OrderProcessing.delete_message h s = delete_result h s.
Proof.
  unfold OrderProcessing.delete_message, delete_result.
  execute; reflexivity.
Qed.

Lemma notification_delete_result h s :
  Notification.delete_message h s = delete_result h s.
Proof.
  unfold Notification.delete_message, delete_result.
  execute; reflexivity.
Qed.

Lemma commit_committed h arg handler delete s :
  (forall s0, delete h s0 = delete_result h s0) ->
  commit h arg handler delete s = committed h arg (handler s).
Proof.
  intro Hdelete. unfold commit, committed. run.
  destruct (handler s) as [[[[ | ] | e] s1] t1]; run;
    [ | rewrite app_nil_r; reflexivity | reflexivity].
  rewrite Hdelete.
  destruct (delete_result h s1) as [[[deleted | e] s2] t2]; run.
  - rewrite <- !app_assoc. reflexivity.
  - rewrite <- !app_assoc. reflexivity.
Qed.

(** The run of a message whose body decodes, in the order-processing
    service. *)
Lemma order_processing_message_run message s d :
  decode (Body message) = Return d ->
  exists s1,
    OrderProcessing.handle_message message s =
    match
      committed (ReceiptHandle message)
        (ArgBody (order_processing_arg message d))
        (OrderProcessing.process_order (order_processing_arg message d) s1)
    with
    | (r, s2, t) => (r, s2, Stdout (LReceived (S (message_count s))) :: t)
    end.
Proof.
  intro Hd. rewrite order_processing_handle_message. run. rewrite Hd. run.
  match goal with
  | |- context [commit _ _ _ _ ?s1] => exists s1
  end.
  rewrite commit_committed by (intro; apply order_processing_delete_result).
  destruct (committed _ _ _) as [[r s2] t]. reflexivity.
Qed.

Lemma notification_message_run message s d :
  decode (Body message) = Return d ->
  exists s1,
    Notification.handle_message message s =
    match
      committed (ReceiptHandle message) (ArgOrder (snd d))
        (Notification.send_notification (snd d) s1)
    with
    | (r, s2, t) => (r, s2, Stdout (LReceived (S (message_count s))) :: t)
    end.
Proof.
  intro Hd. rewrite notification_handle_message. run. rewrite Hd. run.
  match goal with
  | |- context [commit _ _ _ _ ?s1] => exists s1
  end.
  rewrite commit_committed by (intro; apply notification_delete_result).
  destruct (committed _ _ _) as [[r s2] t]. reflexivity.
Qed.

End MessagesInFull.

(** * The payload of a message *)


Section Payloads.
Context `{External}.

(** The run of a message whose body decodes, from the state in which the
    handler starts. *)
Lemma order_processing_message_run_from message s d :
  decode (Body message) = Return d ->
  OrderProcessing.handle_message message s =
  received_then s
    (committed (ReceiptHandle message)
       (ArgBody (order_processing_arg message d))
       (OrderProcessing.process_order (order_processing_arg message d)
          (arrived inc_received s))).
Proof.
  intro Hd. rewrite order_processing_handle_message. run. rewrite Hd. run.
  rewrite commit_committed by (intro; apply order_processing_delete_result).
  unfold received_then, arrived.
  destruct (committed _ _ _) as [[r s2] t]. reflexivity.
Qed.

Lemma notification_message_run_from message s d :
  decode (Body message) = Return d ->
  Notification.handle_message message s =
  received_then s
    (committed (ReceiptHandle message) (ArgOrder (snd d))
       (Notification.send_notification (snd d) (arrived (fun m => m) s))).
Proof.
  intro Hd. rewrite notification_handle_message. run. rewrite Hd. run.
  rewrite commit_committed by (intro; apply notification_delete_result).
  unfold received_then, arrived.
  destruct (committed _ _ _) as [[r s2] t]. reflexivity.
Qed.




(** C2.  For a body [{"Message": "<json-string>"}] the string under
    ["Message"] is parsed a second time and the run of the message is the
    receipt, then the run of the handler on the parsed inner value, then
    what [main] makes of its return.  In the notification service the
    handler is [send_notification], given the inner value, and its return
    is whether the inner value can be notified of.  In the
    order-processing service it is [process_order], given the
    re-serialization of the inner value, which parses back to the inner
    value, and its return is whether the inner value can be processed.
    The outer mapping is given to neither. *)
Theorem wrapped_payload_reaches_handler message d inner v s :
  json_loads (Body message) = Some (JObject d) ->
  dict_get d "Message" = Some (JString inner) ->
  json_loads inner = Some v ->
  (Notification.handle_message message s =
     received_then s
       (committed (ReceiptHandle message) (ArgOrder v)
          (Notification.send_notification v (arrived (fun m => m) s))) /\
   outcome (Notification.send_notification v (arrived (fun m => m) s)) =
     Return (notifiable v)) /\
  (OrderProcessing.handle_message message s =
     received_then s
       (committed (ReceiptHandle message) (ArgBody (json_dumps v))
          (OrderProcessing.process_order (json_dumps v)
             (arrived inc_received s))) /\
   json_loads (json_dumps v) = Some v /\
   outcome (OrderProcessing.process_order (json_dumps v)
              (arrived inc_received s)) =
     Return (processable v)).
Proof.
  intros Hbody Hfield Hinner.
  pose proof (decode_wrapped _ Hbody Hfield Hinner) as Hd.
  assert (Hround : json_loads (json_dumps v) = Some v)
    by (apply json_dumps_loads, (json_loads_well_formed _ Hinner)).
  split; [split | split; [ | split]].
  - exact (notification_message_run_from message s Hd).
  - apply send_notification_outcome.
  - exact (order_processing_message_run_from message s Hd).
  - exact Hround.
  - rewrite process_order_outcome, Hround. reflexivity.
Qed.

(** C6.  For a body that parses to a mapping without ["Message"] the run
    of the message is the receipt, then the run of the handler on that
    mapping, then what [main] makes of its return.  In the notification
    service the handler is [send_notification], given the mapping, and
    its return is whether the mapping can be notified of.  In the
    order-processing service it is [process_order], given the body as it
    came, and its return is whether the mapping can be processed. *)
Theorem raw_payload_reaches_handler message d s :
  json_loads (Body message) = Some (JObject d) ->
  dict_get d "Message" = None ->
  (Notification.handle_message message s =
     received_then s
       (committed (ReceiptHandle message) (ArgOrder (JObject d))
          (Notification.send_notification (JObject d)
             (arrived (fun m => m) s))) /\
   outcome (Notification.send_notification (JObject d)
              (arrived (fun m => m) s)) =
     Return (notifiable (JObject d))) /\
  (OrderProcessing.handle_message message s =
     received_then s
       (committed (ReceiptHandle message) (ArgBody (Body message))
          (OrderProcessing.process_order (Body message)
             (arrived inc_received s))) /\
   outcome (OrderProcessing.process_order (Body message)
              (arrived inc_received s)) =
     Return (processable (JObject d))).
Proof.
  intros Hbody Hfield.
  pose proof (decode_raw _ Hbody Hfield) as Hd.
  split; split.
  - exact (notification_message_run_from message s Hd).
  - apply send_notification_outcome.
  - exact (order_processing_message_run_from message s Hd).
  - rewrite process_order_outcome, Hbody. reflexivity.
Qed.


End Payloads.

(** * Deleting and going on *)

Arguments committed : simpl never.

Section GoingOn.
Context `{External}.

Lemma committed_refused_delete h arg arg' ok s1 t1 code :
  sqs_delete_message h = Raise (ClientError code) ->
  lines_only t1 ->
  In (Handled h arg' true)
     (events (committed h arg (Return ok, s1, t1))) ->
  committed h arg (Return ok, s1, t1) =
    (Return tt, s1,
     t1 ++ [Handled h arg true; SqsDelete h;
            Stdout (LErrorDeleting (ClientError code)); Stdout LDeleted]) /\
  arg' = arg.
Proof.
  intros Hdelete Ht1. unfold committed, delete_result. rewrite Hdelete.
  destruct ok; simpl.
  - intro Hin. split; [reflexivity | ].
    apply in_app_or in Hin. destruct Hin as [Hin | [Heq | Hin]].
    + elim (lines_only_no_handled _ _ _ Ht1 Hin).
    + injection Heq as <-. reflexivity.
    + simpl in Hin. intuition discriminate.
  - intro Hin. apply in_app_or in Hin. destruct Hin as [Hin | [Heq | []]].
    + elim (lines_only_no_handled _ _ _ Ht1 Hin).
    + discriminate Heq.
Qed.

(** X5.  A consumer does not look at what [delete_message] returns: when
    the handler succeeded and SQS refuses the delete with [ClientError],
    the consumer writes the error, then writes that the message was
    deleted, and goes on to the next message. *)
Theorem refused_delete_is_reported_deleted message s code arg :
  sqs_delete_message (ReceiptHandle message) = Raise (ClientError code) ->
  (In (Handled (ReceiptHandle message) arg true)
      (events (OrderProcessing.handle_message message s)) ->
   outcome (OrderProcessing.handle_message message s) = Return tt /\
   exists before,
     events (OrderProcessing.handle_message message s) =
       before ++
       [Handled (ReceiptHandle message) arg true;
        SqsDelete (ReceiptHandle message);
        Stdout (LErrorDeleting (ClientError code));
        Stdout LDeleted]) /\
  (In (Handled (ReceiptHandle message) arg true)
      (events (Notification.handle_message message s)) ->
   outcome (Notification.handle_message message s) = Return tt /\
   exists before,
     events (Notification.handle_message message s) =
       before ++
       [Handled (ReceiptHandle message) arg true;
        SqsDelete (ReceiptHandle message);
        Stdout (LErrorDeleting (ClientError code));
        Stdout LDeleted]).
Proof.
  intro Hdelete. split; intro Hin.
  - destruct (decode (Body message)) as [d | e] eqn:Hd.
    2: { generalize (order_processing_message_spec message s).
         unfold after. rewrite Hd. intros (_ & _ & Ht & _).
         elim (lines_only_no_handled _ _ _ Ht Hin). }
    destruct (order_processing_message_run message s Hd) as [s1 Hrun].
    revert Hin. rewrite Hrun. clear Hrun.
    generalize (process_order_spec (order_processing_arg message d) s1).
    unfold after.
    destruct (OrderProcessing.process_order _ s1) as [[r s2] t2].
    unfold outcome, events, final. simpl.
    intros (ok & -> & Ht2 & _) Hin.
    assert (Hin' : In (Handled (ReceiptHandle message) arg true)
                      (events (committed (ReceiptHandle message)
                                 (ArgBody (order_processing_arg message d))
                                 (Return ok, s2, t2)))).
    { unfold events in *.
      destruct (committed _ _ _) as [[r3 s3] t3]. simpl in *.
      destruct Hin as [Heq | Hin]; [discriminate Heq | exact Hin]. }
    destruct (committed_refused_delete _ _ _ _ _ Hdelete Ht2 Hin')
      as [-> ->].
    unfold outcome, events. simpl. split; [reflexivity | ].
    exists (Stdout (LReceived (S (message_count s))) :: t2). reflexivity.
  - destruct (decode (Body message)) as [d | e] eqn:Hd.
    2: { generalize (notification_message_spec message s).
         unfold after. rewrite Hd. intros (_ & _ & _ & Ht).
         elim (lines_only_no_handled _ _ _ Ht Hin). }
    destruct (notification_message_run message s Hd) as [s1 Hrun].
    revert Hin. rewrite Hrun. clear Hrun.
    generalize (send_notification_spec (snd d) s1).
    unfold after.
    destruct (Notification.send_notification _ s1) as [[r s2] t2].
    unfold outcome, events, final. simpl.
    intros (ok & -> & Ht2 & _) Hin.
    assert (Hin' : In (Handled (ReceiptHandle message) arg true)
                      (events (committed (ReceiptHandle message)
                                 (ArgOrder (snd d))
                                 (Return ok, s2, t2)))).
    { unfold events in *.
      destruct (committed _ _ _) as [[r3 s3] t3]. simpl in *.
      destruct Hin as [Heq | Hin]; [discriminate Heq | exact Hin]. }
    destruct (committed_refused_delete _ _ _ _ _ Hdelete Ht2 Hin')
      as [-> ->].
    unfold outcome, events. simpl. split; [reflexivity | ].
    exists (Stdout (LReceived (S (message_count s))) :: t2). reflexivity.
Qed.

Lemma committed_survives h arg ok s1 t1 :
  (forall e, sqs_delete_message h = Raise e -> is_ClientError e = true) ->
  lines_only t1 ->
  outcome (committed h arg (Return ok, s1, t1)) = Return tt /\
  handled (events (committed h arg (Return ok, s1, t1))) = 1%nat.
Proof.
  intros Hdelete Ht1. unfold committed, delete_result.
  destruct ok.
  - destruct (sqs_delete_message h) as [[] | e] eqn:Hsqs.
    + unfold outcome, events. simpl. split; [reflexivity | ].
      rewrite handled_app, (lines_only_handled Ht1). reflexivity.
    + rewrite (Hdelete e eq_refl).
      unfold outcome, events. simpl. split; [reflexivity | ].
      rewrite handled_app, (lines_only_handled Ht1). reflexivity.
  - unfold outcome, events. simpl. split; [reflexivity | ].
    rewrite handled_app, (lines_only_handled Ht1). reflexivity.
Qed.

Lemma order_processing_message_survives message s :
  survivable message ->
  outcome (OrderProcessing.handle_message message s) = Return tt /\
  handled (events (OrderProcessing.handle_message message s)) = 1%nat.
Proof.
  intros [[d Hd] Hdelete].
  destruct (order_processing_message_run message s Hd) as [s1 ->].
  generalize (process_order_spec (order_processing_arg message d) s1).
  unfold after.
  destruct (OrderProcessing.process_order _ s1) as [[r s2] t2].
  unfold outcome, events, final. simpl.
  intros (ok & -> & Ht2 & _).
  generalize (@committed_survives (ReceiptHandle message)
                (ArgBody (order_processing_arg message d))
                ok s2 t2 Hdelete Ht2).
  unfold outcome, events.
  destruct (committed _ _ _) as [[r3 s3] t3]. simpl.
  intros [-> Hone]. split; [reflexivity | exact Hone].
Qed.

Lemma notification_message_survives message s :
  survivable message ->
  outcome (Notification.handle_message message s) = Return tt /\
  handled (events (Notification.handle_message message s)) = 1%nat.
Proof.
  intros [[d Hd] Hdelete].
  destruct (notification_message_run message s Hd) as [s1 ->].
  generalize (send_notification_spec (snd d) s1).
  unfold after.
  destruct (Notification.send_notification _ s1) as [[r s2] t2].
  unfold outcome, events, final. simpl.
  intros (ok & -> & Ht2 & _).
  generalize (@committed_survives (ReceiptHandle message)
                (ArgOrder (snd d)) ok s2 t2 Hdelete Ht2).
  unfold outcome, events.
  destruct (committed _ _ _) as [[r3 s3] t3]. simpl.
  intros [-> Hone]. split; [reflexivity | exact Hone].
Qed.

End GoingOn.

(** * Whole runs of a consumer *)

Lemma in_events_bind {A B} (m : M A) (k : A -> M B) s e :
  In e (events (bind m k s)) ->
  In e (events (m s)) \/
  exists a, outcome (m s) = Return a /\ In e (events (k a (final (m s)))).
Proof.
  unfold bind, events, outcome, final.
  destruct (m s) as [[[a | e0] s1] t1]; simpl; [ | auto].
  destruct (k a s1) as [[r2 s2] t2] eqn:Hk; simpl.
  intro Hin. apply in_app_or in Hin. destruct Hin as [Hin | Hin]; [auto | ].
  right. exists a. rewrite Hk. auto.
Qed.

Lemma in_events_for_each {A} (f : A -> M unit) l s e :
  In e (events (for_each f l s)) ->
  exists x s1, In x l /\ In e (events (f x s1)).
Proof.
  revert s. induction l as [ | x rest IH]; intros s Hin; [destruct Hin | ].
  simpl in Hin. apply in_events_bind in Hin.
  destruct Hin as [Hin | (a & _ & Hin)].
  - exists x, s. split; [left; reflexivity | exact Hin].
  - destruct (IH _ Hin) as (y & s1 & Hy & Hin1).
    exists y, s1. split; [right; exact Hy | exact Hin1].
Qed.

(** A [for] loop whose turns all return, each with one receipt and one
    handler return, returns with as many of both as it has turns. *)
Lemma for_each_survives {A} (f : A -> M unit) l s :
  (forall x s0, In x l ->
     outcome (f x s0) = Return tt /\
     received (events (f x s0)) = 1%nat /\
     handled (events (f x s0)) = 1%nat) ->
  outcome (for_each f l s) = Return tt /\
  received (events (for_each f l s)) = length l /\
  handled (events (for_each f l s)) = length l.
Proof.
  revert s. induction l as [ | x rest IH]; intros s Hf.
  - repeat split.
  - simpl. unfold bind.
    destruct (Hf x s (or_introl eq_refl)) as (Hr & Hc & Hh).
    destruct (IH (final (f x s)) (fun y s0 Hy => Hf y s0 (or_intror Hy)))
      as (Hr' & Hc' & Hh').
    unfold outcome, events, final in *.
    destruct (f x s) as [[r s1] t1]; simpl in *. subst r.
    destruct (for_each f rest s1) as [[r2 s2] t2]; simpl in *.
    rewrite received_app, handled_app. repeat split; [assumption | lia | lia].
Qed.

Section Runs.
Context `{External}.

(** What a poll hands to the loop. *)
Lemma order_processing_receive_benign answer s :
  benign answer ->
  exists t,
    OrderProcessing.receive_messages answer s =
      (Return (delivered [answer]), s, t) /\
    lines_only t /\ received t = 0%nat.
Proof.
  unfold OrderProcessing.receive_messages, delivered, benign.
  destruct answer as [[[messages | ]] | e]; simpl.
  - intros _. rewrite app_nil_r. eexists. repeat split.
  - intros _. eexists. repeat split.
  - intro Hclient. destruct e; try discriminate Hclient.
    eexists. repeat split.
Qed.

Lemma notification_receive_benign answer s :
  benign answer ->
  exists t,
    Notification.receive_messages answer s =
      (Return (delivered [answer]), s, t) /\
    lines_only t /\ received t = 0%nat.
Proof.
  unfold Notification.receive_messages, delivered, benign.
  destruct answer as [[[messages | ]] | e]; simpl.
  - intros _. rewrite app_nil_r. eexists. repeat split.
  - intros _. eexists. repeat split.
  - intro Hclient. destruct e; try discriminate Hclient.
    eexists. repeat split.
Qed.

Lemma delivered_cons answer polls :
  delivered (answer :: polls) = delivered [answer] ++ delivered polls.
Proof. unfold delivered. simpl. rewrite app_nil_r. reflexivity. Qed.

Lemma order_processing_loop_survives polls s :
  Forall benign polls ->
  (forall message, In message (delivered polls) -> survivable message) ->
  outcome (OrderProcessing.poll_loop polls s) = Return tt /\
  received (events (OrderProcessing.poll_loop polls s)) =
    length (delivered polls) /\
  handled (events (OrderProcessing.poll_loop polls s)) =
    length (delivered polls).
Proof.
  revert s. induction polls as [ | answer rest IH]; intros s Hpolls Hall.
  - repeat split.
  - inversion Hpolls as [ | ? ? Hanswer Hrest]; subst.
    rewrite delivered_cons in *.
    destruct (@order_processing_receive_benign answer s Hanswer)
      as (t0 & Hreceive & Ht0 & Hc0).
    assert (Hbatch :
      forall s0,
        outcome (for_each OrderProcessing.handle_message
                   (delivered [answer]) s0) = Return tt /\
        received (events (for_each OrderProcessing.handle_message
                            (delivered [answer]) s0)) =
          length (delivered [answer]) /\
        handled (events (for_each OrderProcessing.handle_message
                           (delivered [answer]) s0)) =
          length (delivered [answer])).
    { intro s0. apply for_each_survives. intros message s1 Hin.
      assert (Hs : survivable message)
        by (apply Hall, in_or_app; left; exact Hin).
      destruct (@order_processing_message_survives _ message s1 Hs)
        as [Hr Hh].
      split; [exact Hr | split; [ | exact Hh]].
      apply order_processing_one_receipt. }
    assert (Hturn :
      forall s0, exists s1 t1,
        (match delivered [answer] with
         | [] => print LDot
         | _ :: _ =>
             for_each OrderProcessing.handle_message (delivered [answer])
         end) s0 = (Return tt, s1, t1) /\
        received t1 = length (delivered [answer]) /\
        handled t1 = length (delivered [answer])).
    { intro s0. destruct (delivered [answer]) as [ | message more] eqn:Hd.
      - exists s0, [Stdout LDot]. repeat split.
      - destruct (Hbatch s0) as (Hr & Hc & Hh).
        unfold outcome, events in *.
        destruct (for_each _ _ s0) as [[r s1] t1]. simpl in *. subst r.
        exists s1, t1. auto. }
    destruct (Hturn s) as (s1 & t1 & Hturn1 & Hc1 & Hh1).
    destruct (IH s1 Hrest
                (fun message Hin => Hall message
                   (in_or_app _ _ _ (or_intror Hin))))
      as (Hr2 & Hc2 & Hh2).
    clear Hbatch Hturn.
    assert (Hrun :
      exists s2 t2,
        OrderProcessing.poll_loop (answer :: rest) s =
          (Return tt, s2, t0 ++ t1 ++ t2) /\
        received t2 = length (delivered rest) /\
        handled t2 = length (delivered rest)).
    { unfold outcome, events in *.
      destruct (OrderProcessing.poll_loop rest s1) as [[r2 s2] t2] eqn:Hloop.
      cbn [fst snd] in *. subst r2. exists s2, t2.
      split; [ | auto].
      simpl OrderProcessing.poll_loop. unfold bind.
      rewrite Hreceive, Hturn1, Hloop. reflexivity. }
    destruct Hrun as (s2 & t2 & -> & Hc2' & Hh2').
    unfold outcome, events. cbn [fst snd].
    rewrite !received_app, !handled_app, !length_app,
      (lines_only_handled Ht0).
    repeat split; lia.
Qed.

Lemma notification_loop_survives polls s :
  Forall benign polls ->
  (forall message, In message (delivered polls) -> survivable message) ->
  outcome (Notification.poll_loop polls s) = Return tt /\
  received (events (Notification.poll_loop polls s)) =
    length (delivered polls) /\
  handled (events (Notification.poll_loop polls s)) =
    length (delivered polls).
Proof.
  revert s. induction polls as [ | answer rest IH]; intros s Hpolls Hall.
  - repeat split.
  - inversion Hpolls as [ | ? ? Hanswer Hrest]; subst.
    rewrite delivered_cons in *.
    destruct (@notification_receive_benign answer s Hanswer)
      as (t0 & Hreceive & Ht0 & Hc0).
    assert (Hbatch :
      forall s0,
        outcome (for_each Notification.handle_message
                   (delivered [answer]) s0) = Return tt /\
        received (events (for_each Notification.handle_message
                            (delivered [answer]) s0)) =
          length (delivered [answer]) /\
        handled (events (for_each Notification.handle_message
                           (delivered [answer]) s0)) =
          length (delivered [answer])).
    { intro s0. apply for_each_survives. intros message s1 Hin.
      assert (Hs : survivable message)
        by (apply Hall, in_or_app; left; exact Hin).
      destruct (@notification_message_survives _ message s1 Hs)
        as [Hr Hh].
      split; [exact Hr | split; [ | exact Hh]].
      apply notification_one_receipt. }
    assert (Hturn :
      forall s0, exists s1 t1,
        (match delivered [answer] with
         | [] => print LDot
         | _ :: _ =>
             for_each Notification.handle_message (delivered [answer])
         end) s0 = (Return tt, s1, t1) /\
        received t1 = length (delivered [answer]) /\
        handled t1 = length (delivered [answer])).
    { intro s0. destruct (delivered [answer]) as [ | message more] eqn:Hd.
      - exists s0, [Stdout LDot]. repeat split.
      - destruct (Hbatch s0) as (Hr & Hc & Hh).
        unfold outcome, events in *.
        destruct (for_each _ _ s0) as [[r s1] t1]. simpl in *. subst r.
        exists s1, t1. auto. }
    destruct (Hturn s) as (s1 & t1 & Hturn1 & Hc1 & Hh1).
    destruct (IH s1 Hrest
                (fun message Hin => Hall message
                   (in_or_app _ _ _ (or_intror Hin))))
      as (Hr2 & Hc2 & Hh2).
    clear Hbatch Hturn.
    assert (Hrun :
      exists s2 t2,
        Notification.poll_loop (answer :: rest) s =
          (Return tt, s2, t0 ++ t1 ++ t2) /\
        received t2 = length (delivered rest) /\
        handled t2 = length (delivered rest)).
    { unfold outcome, events in *.
      destruct (Notification.poll_loop rest s1) as [[r2 s2] t2] eqn:Hloop.
      cbn [fst snd] in *. subst r2. exists s2, t2.
      split; [ | auto].
      simpl Notification.poll_loop. unfold bind.
      rewrite Hreceive, Hturn1, Hloop. reflexivity. }
    destruct Hrun as (s2 & t2 & -> & Hc2' & Hh2').
    unfold outcome, events. cbn [fst snd].
    rewrite !received_app, !handled_app, !length_app,
      (lines_only_handled Ht0).
    repeat split; lia.
Qed.

(** X6.  Handler failures and refused deletes never end a consumer: when
    every poll returns or raises [ClientError], every delivered body can
    be decoded and SQS answers each delete or refuses it with
    [ClientError], [main] is still in its loop after the last poll and
    has received and handled every delivered message once. *)
Theorem consumer_survives_handler_failures polls s :
  Forall benign polls ->
  (forall message, In message (delivered polls) -> survivable message) ->
  (outcome (OrderProcessing.main polls s) = Return StillPolling /\
   received (events (OrderProcessing.main polls s)) =
     length (delivered polls) /\
   handled (events (OrderProcessing.main polls s)) =
     length (delivered polls)) /\
  (outcome (Notification.main polls s) = Return StillPolling /\
   received (events (Notification.main polls s)) =
     length (delivered polls) /\
   handled (events (Notification.main polls s)) =
     length (delivered polls)).
Proof.
  intros Hpolls Hall. split.
  - rewrite order_processing_main_cases.
    generalize (order_processing_loop_survives (reset s) Hpolls Hall).
    unfold outcome, events.
    destruct (OrderProcessing.poll_loop polls (reset s)) as [[r s'] t].
    simpl. intros (-> & Hc & Hh). simpl. auto.
  - rewrite notification_main_cases.
    generalize (notification_loop_survives (reset s) Hpolls Hall).
    unfold outcome, events.
    destruct (Notification.poll_loop polls (reset s)) as [[r s'] t].
    simpl. intros (-> & Hc & Hh). simpl. auto.
Qed.

End Runs.

(** * The numbers of the receipts *)

Section Numbering.
Context `{External}.

Lemma order_processing_first_event message s :
  exists rest,
    events (OrderProcessing.handle_message message s) =
      Stdout (LReceived (S (message_count s))) :: rest.
Proof.
  rewrite order_processing_handle_message. run.
  destruct (decode (Body message)) as [d | e]; run.
  - match goal with
    | |- context [commit ?h ?arg ?handler ?delete ?s1] =>
        destruct (commit h arg handler delete s1) as [[r s'] t]
    end.
    simpl. eexists. reflexivity.
  - eexists. reflexivity.
Qed.

Lemma notification_first_event message s :
  exists rest,
    events (Notification.handle_message message s) =
      Stdout (LReceived (S (message_count s))) :: rest.
Proof.
  rewrite notification_handle_message. run.
  destruct (decode (Body message)) as [d | e]; run.
  - match goal with
    | |- context [commit ?h ?arg ?handler ?delete ?s1] =>
        destruct (commit h arg handler delete s1) as [[r s'] t]
    end.
    simpl. eexists. reflexivity.
  - eexists. reflexivity.
Qed.

Lemma numbers_receipts_refl s : numbers_receipts s [] s.
Proof. unfold numbers_receipts, received. simpl. split; [reflexivity | lia]. Qed.

Lemma numbers_receipts_trans s t1 s1 t2 s2 :
  numbers_receipts s t1 s1 -> numbers_receipts s1 t2 s2 ->
  numbers_receipts s (t1 ++ t2) s2.
Proof.
  unfold numbers_receipts. intros [Hn1 Hc1] [Hn2 Hc2].
  rewrite receipt_numbers_app, received_app, Hn1, Hn2, Hc1, seq_app.
  split; [reflexivity | lia].
Qed.

Lemma numbers_receipts_line s l :
  is_receipt (Stdout l) = false -> numbers_receipts s [Stdout l] s.
Proof.
  intro Hl. unfold numbers_receipts.
  rewrite (@counts_receipts_line l Hl).
  split; [ | lia].
  destruct l; try reflexivity. discriminate Hl.
Qed.

Lemma numbers_receipts_message t s s' :
  (exists rest, t = Stdout (LReceived (S (message_count s))) :: rest) ->
  received t = 1%nat ->
  message_count s' = S (message_count s) ->
  numbers_receipts s t s'.
Proof.
  intros [rest ->] Hone Hcount. unfold numbers_receipts.
  rewrite Hone, Hcount. split; [ | lia].
  change (Stdout (LReceived (S (message_count s))) :: rest)
    with ([Stdout (LReceived (S (message_count s)))] ++ rest) in *.
  rewrite received_app in Hone. rewrite receipt_numbers_app.
  rewrite (@received_none_numbers rest); [reflexivity | ].
  unfold received in *. simpl in Hone. lia.
Qed.

Lemma order_processing_loop_numbers polls :
  keeps numbers_receipts (OrderProcessing.poll_loop polls).
Proof.
  apply order_processing_poll_loop_keeps.
  - exact numbers_receipts_refl.
  - exact numbers_receipts_trans.
  - exact numbers_receipts_line.
  - intros message s. apply numbers_receipts_message.
    + apply order_processing_first_event.
    + apply order_processing_one_receipt.
    + generalize (order_processing_message_spec message s). unfold after.
      intros [Hc _]. exact Hc.
Qed.

Lemma notification_loop_numbers polls :
  keeps numbers_receipts (Notification.poll_loop polls).
Proof.
  apply notification_poll_loop_keeps.
  - exact numbers_receipts_refl.
  - exact numbers_receipts_trans.
  - exact numbers_receipts_line.
  - intros message s. apply numbers_receipts_message.
    + apply notification_first_event.
    + apply notification_one_receipt.
    + generalize (notification_message_spec message s). unfold after.
      intros [Hc _]. exact Hc.
Qed.

(** X7.  However a run of a consumer goes and ends, the receipts that
    [main] writes are numbered 1, 2, 3, ... in order, with no number
    left out and none written twice, whatever the count was before. *)
Theorem receipts_are_numbered_from_one polls s :
  receipt_numbers (events (OrderProcessing.main polls s)) =
    seq 1 (received (events (OrderProcessing.main polls s))) /\
  receipt_numbers (events (Notification.main polls s)) =
    seq 1 (received (events (Notification.main polls s))).
Proof.
  split.
  - rewrite order_processing_main_cases.
    generalize (order_processing_loop_numbers polls (reset s)).
    unfold numbers_receipts, events, final.
    destruct (OrderProcessing.poll_loop polls (reset s))
      as [[[[] | e] s'] t]; simpl; intros [Hn _]; [exact Hn | ].
    destruct e; simpl; try exact Hn.
    rewrite receipt_numbers_app, received_app, Hn. simpl.
    rewrite app_nil_r. f_equal. unfold received. simpl. lia.
  - rewrite notification_main_cases.
    generalize (notification_loop_numbers polls (reset s)).
    unfold numbers_receipts, events, final.
    destruct (Notification.poll_loop polls (reset s))
      as [[[[] | e] s'] t]; simpl; intros [Hn _]; [exact Hn | ].
    destruct e; simpl; try exact Hn.
    rewrite receipt_numbers_app, received_app, Hn. simpl.
    rewrite app_nil_r. f_equal. unfold received. simpl. lia.
Qed.

End Numbering.

(** * Where the calls of a run come from *)

Section Origin.
Context `{External}.

Lemma receive_messages_origin answer s :
  lines_only (events (OrderProcessing.receive_messages answer s)) /\
  forall messages message,
    outcome (OrderProcessing.receive_messages answer s) = Return messages ->
    In message messages -> In message (delivered [answer]).
Proof.
  unfold OrderProcessing.receive_messages, delivered.
  destruct answer as [[[messages | ]] | e]; simpl.
  - split; [reflexivity | ].
    intros ? message [= <-] Hin. rewrite app_nil_r. exact Hin.
  - split; [reflexivity | ]. intros ? message [= <-] [].
  - run. destruct e; simpl; (split; [reflexivity | ]);
      intros ? message Heq Hin; try discriminate Heq;
      injection Heq as <-; destruct Hin.
Qed.

Lemma order_processing_loop_origin polls s e :
  In e (events (OrderProcessing.poll_loop polls s)) ->
  is_line e = true \/
  exists message s1,
    In message (delivered polls) /\
    In e (events (OrderProcessing.handle_message message s1)).
Proof.
  revert s. induction polls as [ | answer rest IH]; intros s Hin;
    [destruct Hin | ].
  rewrite delivered_cons. simpl OrderProcessing.poll_loop in Hin.
  destruct (receive_messages_origin answer s) as [Hlines Hfrom].
  apply in_events_bind in Hin.
  destruct Hin as [Hin | (messages & Hmessages & Hin)].
  - left. exact (lines_only_In _ Hlines Hin).
  - apply in_events_bind in Hin.
    destruct Hin as [Hin | (u & _ & Hin)].
    + destruct messages as [ | message more].
      * left. destruct Hin as [<- | []]. reflexivity.
      * apply in_events_for_each in Hin.
        destruct Hin as (x & s1 & Hx & Hin).
        right. exists x, s1. split; [ | exact Hin].
        apply in_or_app. left. exact (Hfrom _ x Hmessages Hx).
    + destruct (IH _ Hin) as [Hline | (x & s1 & Hx & Hin1)];
        [left; exact Hline | ].
      right. exists x, s1. split; [ | exact Hin1].
      apply in_or_app. right. exact Hx.
Qed.

Lemma notification_loop_origin polls s e :
  In e (events (Notification.poll_loop polls s)) ->
  is_line e = true \/
  exists message s1,
    In message (delivered polls) /\
    In e (events (Notification.handle_message message s1)).
Proof.
  revert s. induction polls as [ | answer rest IH]; intros s Hin;
    [destruct Hin | ].
  rewrite delivered_cons. simpl Notification.poll_loop in Hin.
  destruct (receive_messages_origin answer s) as [Hlines Hfrom].
  apply in_events_bind in Hin.
  destruct Hin as [Hin | (messages & Hmessages & Hin)].
  - left. exact (lines_only_In _ Hlines Hin).
  - apply in_events_bind in Hin.
    destruct Hin as [Hin | (u & _ & Hin)].
    + destruct messages as [ | message more].
      * left. destruct Hin as [<- | []]. reflexivity.
      * apply in_events_for_each in Hin.
        destruct Hin as (x & s1 & Hx & Hin).
        right. exists x, s1. split; [ | exact Hin].
        apply in_or_app. left. exact (Hfrom _ x Hmessages Hx).
    + destruct (IH _ Hin) as [Hline | (x & s1 & Hx & Hin1)];
        [left; exact Hline | ].
      right. exists x, s1. split; [ | exact Hin1].
      apply in_or_app. right. exact Hx.
Qed.

(** The calls in the trace of one message are for its own handle. *)
Lemma order_processing_message_origin message s e :
  In e (events (OrderProcessing.handle_message message s)) ->
  match e with
  | Handled h _ _ | SqsDelete h => h = ReceiptHandle message
  | Stdout _ => True
  end.
Proof.
  generalize (order_processing_message_spec message s). unfold after.
  intros [_ Hspec] Hin.
  destruct e as [l | h arg ok | h]; [exact I | | ].
  - destruct (decode (Body message)) as [d | e].
    + destruct Hspec as (ok' & Ht & _).
      apply (handled_trace_handled h arg ok Ht) in Hin. tauto.
    + destruct Hspec as (_ & Ht & _).
      elim (lines_only_no_handled _ _ _ Ht Hin).
  - destruct (decode (Body message)) as [d | e].
    + destruct Hspec as (ok' & Ht & _).
      apply (handled_trace_delete h Ht) in Hin. tauto.
    + destruct Hspec as (_ & Ht & _).
      elim (lines_only_no_delete _ Ht Hin).
Qed.

Lemma notification_message_origin message s e :
  In e (events (Notification.handle_message message s)) ->
  match e with
  | Handled h _ _ | SqsDelete h => h = ReceiptHandle message
  | Stdout _ => True
  end.
Proof.
  generalize (notification_message_spec message s). unfold after.
  intros (_ & _ & Hspec) Hin.
  destruct e as [l | h arg ok | h]; [exact I | | ].
  - destruct (decode (Body message)) as [d | e].
    + destruct Hspec as (ok' & Ht & _).
      apply (handled_trace_handled h arg ok Ht) in Hin. tauto.
    + destruct Hspec as (_ & Ht).
      elim (lines_only_no_handled _ _ _ Ht Hin).
  - destruct (decode (Body message)) as [d | e].
    + destruct Hspec as (ok' & Ht & _).
      apply (handled_trace_delete h Ht) in Hin. tauto.
    + destruct Hspec as (_ & Ht).
      elim (lines_only_no_delete _ Ht Hin).
Qed.

(** X8.  A consumer calls its handler and SQS's delete only for messages
    that a poll delivered: every handle that a run of [main] hands to
    either is the receipt handle of a delivered message. *)
Theorem only_delivered_messages_are_handled polls s h :
  ((In (SqsDelete h) (events (OrderProcessing.main polls s)) \/
    exists arg ok,
      In (Handled h arg ok) (events (OrderProcessing.main polls s))) ->
   exists message,
     In message (delivered polls) /\ ReceiptHandle message = h) /\
  ((In (SqsDelete h) (events (Notification.main polls s)) \/
    exists arg ok,
      In (Handled h arg ok) (events (Notification.main polls s))) ->
   exists message,
     In message (delivered polls) /\ ReceiptHandle message = h).
Proof.
  split.
  - assert (Hcall :
      forall e, In e (events (OrderProcessing.main polls s)) ->
                is_line e = true \/
                exists message s1,
                  In message (delivered polls) /\
                  In e (events (OrderProcessing.handle_message message s1))).
    { intros e. rewrite order_processing_main_cases.
      generalize (@order_processing_loop_origin polls (reset s) e).
      unfold events.
      destruct (OrderProcessing.poll_loop polls (reset s))
        as [[[[] | e0] s'] t]; simpl; [auto | ].
      destruct e0; simpl; auto.
      intros Horigin Hin. apply in_app_or in Hin.
      destruct Hin as [Hin | [<- | []]]; [auto | left; reflexivity]. }
    intros [Hin | (arg & ok & Hin)];
      destruct (Hcall _ Hin) as [Hline | (message & s1 & Hm & Hin1)];
      try discriminate Hline;
      apply order_processing_message_origin in Hin1;
      exists message; split; [exact Hm | symmetry; exact Hin1 | exact Hm
                              | symmetry; exact Hin1].
  - assert (Hcall :
      forall e, In e (events (Notification.main polls s)) ->
                is_line e = true \/
                exists message s1,
                  In message (delivered polls) /\
                  In e (events (Notification.handle_message message s1))).
    { intros e. rewrite notification_main_cases.
      generalize (@notification_loop_origin polls (reset s) e).
      unfold events.
      destruct (Notification.poll_loop polls (reset s))
        as [[[[] | e0] s'] t]; simpl; [auto | ].
      destruct e0; simpl; auto.
      intros Horigin Hin. apply in_app_or in Hin.
      destruct Hin as [Hin | [<- | []]]; [auto | left; reflexivity]. }
    intros [Hin | (arg & ok & Hin)];
      destruct (Hcall _ Hin) as [Hline | (message & s1 & Hm & Hin1)];
      try discriminate Hline;
      apply notification_message_origin in Hin1;
      exists message; split; [exact Hm | symmetry; exact Hin1 | exact Hm
                              | symmetry; exact Hin1].
Qed.

End Origin.

(** * The registry over a whole run *)

Lemma returned_app ok t1 t2 :
  returned ok (t1 ++ t2) = (returned ok t1 + returned ok t2)%nat.
Proof. unfold returned. rewrite filter_app, length_app. reflexivity. Qed.

Lemma lines_only_returned ok t : lines_only t -> returned ok t = 0%nat.
Proof.
  intro Ht. unfold returned.
  induction t as [ | e t IH]; [reflexivity | ].
  apply andb_true_iff in Ht. destruct Ht as [He Ht].
  destruct e; try discriminate He. simpl. auto.
Qed.

Lemma handled_trace_returned h arg ok t :
  handled_trace h arg ok t ->
  returned true t = (if ok then 1 else 0)%nat /\
  returned false t = (if ok then 0 else 1)%nat /\
  handled t = 1%nat.
Proof.
  intros (before & rest & -> & Hb & Hrest).
  rewrite !returned_app, handled_app, !(lines_only_returned _ Hb),
    (lines_only_handled Hb).
  destruct ok.
  - destruct Hrest as (rest' & -> & Hr).
    change (Handled h arg true :: SqsDelete h :: rest')
      with ([Handled h arg true; SqsDelete h] ++ rest').
    rewrite !returned_app, handled_app, !(lines_only_returned _ Hr),
      (lines_only_handled Hr).
    repeat split.
  - subst rest. repeat split.
Qed.

Section Ledger.
Context `{External}.

Lemma order_processing_loop_ledger polls :
  keeps ledger (OrderProcessing.poll_loop polls).
Proof.
  apply order_processing_poll_loop_keeps.
  - intro s. unfold ledger, received, returned, handled. simpl.
    repeat split; lia.
  - intros s t1 s1 t2 s2 (Hr1 & Hp1 & Hf1 & Hd1) (Hr2 & Hp2 & Hf2 & Hd2).
    unfold ledger.
    rewrite received_app, !returned_app, handled_app.
    repeat split; lia.
  - intros s l Hl. unfold ledger.
    rewrite (@counts_receipts_line l Hl).
    unfold returned, handled. simpl.
    repeat split; lia.
  - intros message s.
    generalize (order_processing_message_spec message s). unfold after.
    intros (_ & Hspec). unfold ledger.
    rewrite order_processing_one_receipt.
    destruct (decode (Body message)) as [d | e].
    + destruct Hspec as (ok & Ht & -> & _).
      destruct (handled_trace_returned Ht) as (-> & -> & ->).
      destruct ok; simpl; repeat split; lia.
    + destruct Hspec as (_ & Ht & ->).
      rewrite !(lines_only_returned _ Ht), (lines_only_handled Ht).
      simpl. repeat split; lia.
Qed.

(** X14.  The registry of the order-processing service is a ledger of
    the run: however [main] goes and ends, the counter of received
    messages has grown by the receipts written, the counter of processed
    messages by the handler returns that were True, the counter of failed
    messages by those that were False, and one duration was observed for
    every return. *)
Theorem order_processing_registry_is_a_ledger polls s :
  messages_received
    (registry (final (OrderProcessing.main polls s))) =
    (messages_received (registry s) +
     received (events (OrderProcessing.main polls s)))%nat /\
  messages_processed
    (registry (final (OrderProcessing.main polls s))) =
    (messages_processed (registry s) +
     returned true (events (OrderProcessing.main polls s)))%nat /\
  messages_failed
    (registry (final (OrderProcessing.main polls s))) =
    (messages_failed (registry s) +
     returned false (events (OrderProcessing.main polls s)))%nat /\
  process_duration
    (registry (final (OrderProcessing.main polls s))) =
    (process_duration (registry s) +
     handled (events (OrderProcessing.main polls s)))%nat.
Proof.
  rewrite order_processing_main_cases.
  generalize (order_processing_loop_ledger polls (reset s)).
  unfold ledger, events, final.
  destruct (OrderProcessing.poll_loop polls (reset s))
    as [[[[] | e] s'] t]; simpl; intro Hledger; [exact Hledger | ].
  destruct e; simpl; try exact Hledger.
  rewrite received_app, !returned_app, handled_app.
  unfold received, returned, handled in *. simpl. rewrite !Nat.add_0_r.
  exact Hledger.
Qed.

End Ledger.

(** * A delete that fails otherwise *)

Section OtherFailures.
Context `{External}.

Lemma committed_raises h arg s1 t1 e :
  sqs_delete_message h = Raise e ->
  is_ClientError e = false ->
  outcome (committed h arg (Return true, s1, t1)) = Raise e /\
  events (committed h arg (Return true, s1, t1)) =
    t1 ++ [Handled h arg true; SqsDelete h].
Proof.
  intros Hdelete Hclient. unfold committed, delete_result.
  rewrite Hdelete, Hclient. split; reflexivity.
Qed.

Lemma for_each_raises {A} (f : A -> M unit) x rest s e :
  outcome (f x s) = Raise e ->
  outcome (for_each f (x :: rest) s) = Raise e.
Proof.
  simpl. unfold bind, outcome.
  destruct (f x s) as [[r s1] t1]. simpl. intros ->. reflexivity.
Qed.

Lemma order_processing_first_message_raises message more polls s e :
  outcome (OrderProcessing.handle_message message (reset s)) = Raise e ->
  is_KeyboardInterrupt e = false ->
  outcome (OrderProcessing.main
             (Return {| Messages := Some (message :: more) |} :: polls) s) =
    Raise e.
Proof.
  intros Hraise Hinterrupt. rewrite order_processing_main_cases.
  cbn [OrderProcessing.poll_loop].
  unfold OrderProcessing.receive_messages. run. cbn [Messages].
  pose proof (@for_each_raises _ OrderProcessing.handle_message message more
                (reset s) e Hraise) as Hbatch.
  unfold outcome in Hbatch.
  destruct (for_each OrderProcessing.handle_message (message :: more)
              (reset s)) as [[r s1] t1].
  simpl in Hbatch. subst r. run.
  destruct e; try discriminate Hinterrupt; reflexivity.
Qed.

Lemma notification_first_message_raises message more polls s e :
  outcome (Notification.handle_message message (reset s)) = Raise e ->
  is_KeyboardInterrupt e = false ->
  outcome (Notification.main
             (Return {| Messages := Some (message :: more) |} :: polls) s) =
    Raise e.
Proof.
  intros Hraise Hinterrupt. rewrite notification_main_cases.
  cbn [Notification.poll_loop].
  unfold Notification.receive_messages. run. cbn [Messages].
  pose proof (@for_each_raises _ Notification.handle_message message more
                (reset s) e Hraise) as Hbatch.
  unfold outcome in Hbatch.
  destruct (for_each Notification.handle_message (message :: more)
              (reset s)) as [[r s1] t1].
  simpl in Hbatch. subst r. run.
  destruct e; try discriminate Hinterrupt; reflexivity.
Qed.

(** X15.  Only [ClientError] is handled around the delete call.  When a
    handler has returned True for a message and the delete raises
    anything else (and no interrupt), the exception leaves the handler
    loop and [main] of either consumer, whatever messages and polls were
    to follow. *)
Theorem other_delete_failure_leaves_main message more polls s d e :
  decode (Body message) = Return d ->
  sqs_delete_message (ReceiptHandle message) = Raise e ->
  is_ClientError e = false ->
  is_KeyboardInterrupt e = false ->
  ((exists order,
      json_loads (order_processing_arg message d) = Some order /\
      processable order = true) ->
   outcome (OrderProcessing.main
              (Return {| Messages := Some (message :: more) |} :: polls) s) =
     Raise e) /\
  (notifiable (snd d) = true ->
   outcome (Notification.main
              (Return {| Messages := Some (message :: more) |} :: polls) s) =
     Raise e).
Proof.
  intros Hd Hdelete Hclient Hinterrupt. split.
  - intros (order & Hloads & Hprocessable).
    apply order_processing_first_message_raises; [ | exact Hinterrupt].
    destruct (order_processing_message_run message (reset s) Hd)
      as [s1 ->].
    pose proof (process_order_outcome (order_processing_arg message d) s1)
      as Houtcome.
    rewrite Hloads, Hprocessable in Houtcome. unfold outcome in Houtcome.
    destruct (OrderProcessing.process_order _ s1) as [[r s2] t2].
    simpl in Houtcome. subst r.
    destruct (@committed_raises (ReceiptHandle message)
                (ArgBody (order_processing_arg message d)) s2 t2 e
                Hdelete Hclient) as [Hraise _].
    unfold outcome in *.
    destruct (committed _ _ _) as [[r3 s3] t3]. exact Hraise.
  - intro Hnotifiable.
    apply notification_first_message_raises; [ | exact Hinterrupt].
    destruct (notification_message_run message (reset s) Hd) as [s1 ->].
    pose proof (send_notification_outcome (snd d) s1) as Houtcome.
    rewrite Hnotifiable in Houtcome. unfold outcome in Houtcome.
    destruct (Notification.send_notification _ s1) as [[r s2] t2].
    simpl in Houtcome. subst r.
    destruct (@committed_raises (ReceiptHandle message)
                (ArgOrder (snd d)) s2 t2 e Hdelete Hclient) as [Hraise _].
    unfold outcome in *.
    destruct (committed _ _ _) as [[r3 s3] t3]. exact Hraise.
Qed.

End OtherFailures.

(** * The producer *)

Ltac produce :=
  cbv beta iota zeta delta
    [producer_outcome producer_final producer_events fst snd
     ProducerService.bind ProducerService.ret ProducerService.lift
     ProducerService.emit ProducerService.print ProducerService.get
     ProducerService.modify ProducerService.try_except_ClientError
     ProducerService.with_exit ProducerService.update_metrics
     ProducerService.set_order_counter ProducerService.now_isoformat
     ProducerService.create_order_message ProducerService.publish_message
     ProducerService.iteration];
  cbn [ProducerService.metrics ProducerService.order_counter
       ProducerService.clock app is_ClientError].

(** ** Order ids *)

Lemma digits_value_decimal n :
  digits_value (ProducerService.decimal n) = Some n.
Proof.
  unfold digits_value, ProducerService.decimal.
  rewrite NilEmpty.usu. simpl. f_equal. apply DecimalNat.Unsigned.of_to.
Qed.

Lemma digits_value_zeros k digits :
  digits_value (ProducerService.zeros k digits) = digits_value digits.
Proof.
  induction k as [ | k IH]; [reflexivity | ].
  rewrite <- IH. unfold digits_value. simpl.
  destruct (NilEmpty.uint_of_string (ProducerService.zeros k digits));
    reflexivity.
Qed.

Lemma order_id_of_injective n m :
  ProducerService.order_id_of n = ProducerService.order_id_of m -> n = m.
Proof.
  unfold ProducerService.order_id_of, ProducerService.format_03d.
  simpl. intros [= Heq].
  apply (f_equal digits_value) in Heq.
  rewrite !digits_value_zeros, !digits_value_decimal in Heq.
  injection Heq as ->. reflexivity.
Qed.

Lemma order_ids_NoDup start len :
  NoDup (map ProducerService.order_id_of (seq start len)).
Proof.
  apply Injective_map_NoDup.
  - intros n m. apply order_id_of_injective.
  - apply seq_NoDup.
Qed.

(** ** Templates *)

Lemma select_template_some order_counter :
  exists order_template,
    Producer.select_template order_counter = Some order_template /\
    In order_template Producer.order_templates.
Proof.
  unfold Producer.select_template.
  destruct (nth_error Producer.order_templates _) as [order_template | ]
    eqn:Hnth.
  - exists order_template. split; [reflexivity | ].
    exact (nth_error_In _ _ Hnth).
  - apply nth_error_None in Hnth.
    pose proof (Nat.mod_upper_bound (order_counter - 1)
                  (length Producer.order_templates)) as Hbound.
    simpl length in *. lia.
Qed.

(** X16.  [main] cycles through its templates: for every order counter
    that it reaches there is a template, so that the index is never out
    of range, and the template comes back every [len(order_templates)]
    orders. *)
Theorem templates_are_cycled order_counter :
  (1 <= order_counter)%nat ->
  (exists order_template,
     Producer.select_template order_counter = Some order_template) /\
  Producer.select_template
    (order_counter + length Producer.order_templates) =
    Producer.select_template order_counter.
Proof.
  intro Hone. split.
  - destruct (select_template_some order_counter)
      as (order_template & Hselect & _).
    exists order_template. exact Hselect.
  - unfold Producer.select_template. simpl length.
    replace (order_counter + 5 - 1)%nat
      with ((order_counter - 1) + 1 * 5)%nat by lia.
    rewrite Nat.Div0.mod_add. reflexivity.
Qed.

Lemma order_templates_attributes order_template :
  In order_template Producer.order_templates ->
  exists attributes,
    Producer.message_attributes order_template = Return attributes.
Proof.
  intro Hin. simpl in Hin.
  destruct Hin as [<- | [<- | [<- | [<- | [<- | []]]]]];
    eexists; reflexivity.
Qed.

Lemma order_templates_formattable order_template :
  In order_template Producer.order_templates ->
  formattable (Producer.total order_template) = true.
Proof.
  intro Hin. simpl in Hin.
  destruct Hin as [<- | [<- | [<- | [<- | [<- | []]]]]]; reflexivity.
Qed.

Lemma joinable_strings items : joinable (JArray (map JString items)) = true.
Proof.
  simpl. induction items as [ | item rest IH]; [reflexivity | exact IH].
Qed.

(** The templates are ASCII, and so are the order ids: stdout can encode
    every field of a published order. *)
Lemma ascii_only_encodable s : ascii_only s = true -> encodable s = true.
Proof.
  unfold ascii_only. induction s as [ | c rest IH]; [reflexivity | ].
  simpl list_ascii_of_string. cbn [forallb].
  intro Hs. apply andb_true_iff in Hs. destruct Hs as [Hc Hrest].
  destruct rest as [ | c' rest']; [reflexivity | ].
  change (encodable (String c (String c' rest')))
    with (if is_surrogate c c' then false
          else encodable (String c' rest')).
  replace (is_surrogate c c') with false; [exact (IH Hrest) | ].
  unfold is_surrogate. apply Nat.ltb_lt in Hc.
  replace (nat_of_ascii c =? 237)%nat with false; [reflexivity | ].
  symmetry. apply Nat.eqb_neq. lia.
Qed.

Lemma ascii_only_append a b :
  ascii_only (a ++ b) = ascii_only a && ascii_only b.
Proof.
  unfold ascii_only. induction a as [ | c a IH]; [reflexivity | ].
  simpl. rewrite IH. apply andb_assoc.
Qed.

Lemma ascii_only_decimal n : ascii_only (ProducerService.decimal n) = true.
Proof.
  unfold ProducerService.decimal.
  induction (Nat.to_uint n) as [ | u IH | u IH | u IH | u IH | u IH
                                 | u IH | u IH | u IH | u IH | u IH];
    [reflexivity | exact IH ..].
Qed.

Lemma ascii_only_zeros k s :
  ascii_only (ProducerService.zeros k s) = ascii_only s.
Proof. induction k as [ | k IH]; [reflexivity | exact IH]. Qed.

Lemma order_id_encodable n :
  encodable (ProducerService.order_id_of n) = true.
Proof.
  apply ascii_only_encodable.
  unfold ProducerService.order_id_of, ProducerService.format_03d.
  rewrite ascii_only_append, ascii_only_zeros, ascii_only_decimal.
  reflexivity.
Qed.

Lemma order_templates_printable order_template :
  In order_template Producer.order_templates ->
  encodable (Producer.customer_id order_template) = true /\
  forallb printable (map JString (Producer.items order_template)) = true.
Proof.
  intro Hin. simpl in Hin.
  destruct Hin as [<- | [<- | [<- | [<- | [<- | []]]]]];
    split; reflexivity.
Qed.

(** ** Publishing *)

Section Publishing.
Context `{External}.

(** X9.  [publish_message] calls the SNS client once and observes one
    duration however the call ends.  A response counts as published, also
    when it has no ['MessageId'] and the lookup raises [KeyError];
    [ClientError] is written down, counts as failed and gives [None]; any
    other exception of the client goes on to the caller and counts as
    neither. *)
Theorem publish_message_accounts answer topic_arn message_body
  message_attributes s :
  publishes
    (producer_events
       (ProducerService.publish_message answer topic_arn message_body
          message_attributes s)) = 1%nat /\
  ProducerService.publish_duration
    (ProducerService.metrics
       (producer_final
          (ProducerService.publish_message answer topic_arn message_body
             message_attributes s))) =
    S (ProducerService.publish_duration (ProducerService.metrics s)) /\
  match answer with
  | Return response =>
      producer_outcome
        (ProducerService.publish_message answer topic_arn message_body
           message_attributes s) =
        py_getitem (JObject response) "MessageId" /\
      ProducerService.metrics
        (producer_final
           (ProducerService.publish_message answer topic_arn message_body
              message_attributes s)) =
        ProducerService.observe_duration
          (ProducerService.inc_published (ProducerService.metrics s))
  | Raise e =>
      if is_ClientError e then
        producer_outcome
          (ProducerService.publish_message answer topic_arn message_body
             message_attributes s) = Return JNull /\
        ProducerService.metrics
          (producer_final
             (ProducerService.publish_message answer topic_arn message_body
                message_attributes s)) =
          ProducerService.observe_duration
            (ProducerService.inc_failed (ProducerService.metrics s)) /\
        In (ProducerService.Stdout (ProducerService.LErrorPublishing e))
           (producer_events
              (ProducerService.publish_message answer topic_arn
                 message_body message_attributes s))
      else
        producer_outcome
          (ProducerService.publish_message answer topic_arn message_body
             message_attributes s) = Raise e /\
        ProducerService.metrics
          (producer_final
             (ProducerService.publish_message answer topic_arn message_body
                message_attributes s)) =
          ProducerService.observe_duration (ProducerService.metrics s)
  end.
Proof.
  destruct answer as [response | e].
  - produce. unfold py_getitem.
    destruct (dict_get response "MessageId") as [message_id | ]; produce;
      repeat split.
  - produce. destruct (is_ClientError e); produce; repeat split.
    simpl. auto.
Qed.

(** ** One turn of [main] *)

Lemma iteration_cases answer s :
  exists order_template attributes,
    Producer.select_template (ProducerService.order_counter s) =
      Some order_template /\
    In order_template Producer.order_templates /\
    Producer.message_attributes order_template = Return attributes /\
    ProducerService.iteration answer s =
    match answer with
    | Return response =>
        match dict_get response "MessageId" with
        | Some message_id =>
            (Return tt, turned ProducerService.inc_published s,
             [ProducerService.SnsPublish ProducerService.SNS_TOPIC_ARN
                (json_dumps
                   (ProducerService.order_message
                      (ProducerService.order_id_of
                         (ProducerService.order_counter s))
                      (Producer.customer_id order_template)
                      (Producer.items order_template)
                      (Producer.total order_template)
                      (isoformat (ProducerService.clock s))))
                attributes;
              ProducerService.Stdout
                (if py_truth message_id
                 then ProducerService.LPublished
                        (ProducerService.order_id_of
                           (ProducerService.order_counter s)) message_id
                 else ProducerService.LFailedToPublish
                        (ProducerService.order_id_of
                           (ProducerService.order_counter s)));
              ProducerService.Sleep 2])
        | None =>
            (Raise (KeyError "MessageId"),
             stopped ProducerService.inc_published s,
             [ProducerService.SnsPublish ProducerService.SNS_TOPIC_ARN
                (json_dumps
                   (ProducerService.order_message
                      (ProducerService.order_id_of
                         (ProducerService.order_counter s))
                      (Producer.customer_id order_template)
                      (Producer.items order_template)
                      (Producer.total order_template)
                      (isoformat (ProducerService.clock s))))
                attributes])
        end
    | Raise e =>
        if is_ClientError e then
          (Return tt, turned ProducerService.inc_failed s,
           [ProducerService.SnsPublish ProducerService.SNS_TOPIC_ARN
              (json_dumps
                 (ProducerService.order_message
                    (ProducerService.order_id_of
                       (ProducerService.order_counter s))
                    (Producer.customer_id order_template)
                    (Producer.items order_template)
                    (Producer.total order_template)
                    (isoformat (ProducerService.clock s))))
              attributes;
            ProducerService.Stdout (ProducerService.LErrorPublishing e);
            ProducerService.Stdout
              (ProducerService.LFailedToPublish
                 (ProducerService.order_id_of
                    (ProducerService.order_counter s)));
            ProducerService.Sleep 2])
        else
          (Raise e, stopped (fun m => m) s,
           [ProducerService.SnsPublish ProducerService.SNS_TOPIC_ARN
              (json_dumps
                 (ProducerService.order_message
                    (ProducerService.order_id_of
                       (ProducerService.order_counter s))
                    (Producer.customer_id order_template)
                    (Producer.items order_template)
                    (Producer.total order_template)
                    (isoformat (ProducerService.clock s))))
              attributes])
    end.
Proof.
  destruct (select_template_some (ProducerService.order_counter s))
    as (order_template & Hselect & Hin).
  destruct (order_templates_attributes Hin) as [attributes Hattributes].
  exists order_template, attributes.
  split; [exact Hselect | split; [exact Hin | split; [exact Hattributes | ]]].
  produce. rewrite Hselect. produce. rewrite Hattributes. produce.
  destruct answer as [response | e]; produce.
  - unfold py_getitem.
    destruct (dict_get response "MessageId") as [message_id | ]; produce;
      [ | reflexivity].
    destruct (py_truth message_id); reflexivity.
  - destruct (is_ClientError e); reflexivity.
Qed.

End Publishing.

(** ** Runs of [main] *)

Lemma publishes_app t1 t2 :
  publishes (t1 ++ t2) = (publishes t1 + publishes t2)%nat.
Proof. unfold publishes. rewrite filter_app, length_app. reflexivity. Qed.

Lemma reported_app t1 t2 : reported (t1 ++ t2) = reported t1 ++ reported t2.
Proof. unfold reported. apply flat_map_app. Qed.

Section Producing.
Context `{External}.

Lemma producer_main_loop answers s :
  ProducerService.main answers s =
  ProducerService.loop answers
    {| ProducerService.metrics := ProducerService.metrics s;
       ProducerService.order_counter := 1;
       ProducerService.clock := ProducerService.clock s |}.
Proof.
  unfold ProducerService.main. produce.
  destruct (ProducerService.loop answers _) as [[r s'] t]. reflexivity.
Qed.

Lemma loop_cons answer rest s :
  ProducerService.loop (answer :: rest) s =
  match ProducerService.iteration answer s with
  | (Return _, s1, t1) =>
      match ProducerService.loop rest s1 with
      | (r, s2, t2) => (r, s2, t1 ++ t2)
      end
  | (Raise e, s1, t1) => (Raise e, s1, t1)
  end.
Proof. reflexivity. Qed.

Lemma loop_app before rest s :
  ProducerService.loop (before ++ rest) s =
  match ProducerService.loop before s with
  | (Return _, s1, t1) =>
      match ProducerService.loop rest s1 with
      | (r, s2, t2) => (r, s2, t1 ++ t2)
      end
  | (Raise e, s1, t1) => (Raise e, s1, t1)
  end.
Proof.
  revert s. induction before as [ | answer before IH]; intro s.
  - simpl. unfold ProducerService.ret.
    destruct (ProducerService.loop rest s) as [[r s2] t2]. reflexivity.
  - rewrite <- app_comm_cons, !loop_cons.
    destruct (ProducerService.iteration answer s) as [[[[] | e] s1] t1];
      [ | reflexivity].
    rewrite IH.
    destruct (ProducerService.loop before s1) as [[[[] | e] s2] t2];
      [ | reflexivity].
    destruct (ProducerService.loop rest s2) as [[r s3] t3].
    rewrite app_assoc. reflexivity.
Qed.

(** Turns that the SNS client answers. *)
Lemma loop_answered answers s :
  Forall (fun answer => answered answer = true) answers ->
  exists s' t,
    ProducerService.loop answers s = (Return tt, s', t) /\
    ProducerService.order_counter s' =
      (ProducerService.order_counter s + length answers)%nat /\
    (ProducerService.messages_published (ProducerService.metrics s') +
     ProducerService.messages_failed (ProducerService.metrics s'))%nat =
      (ProducerService.messages_published (ProducerService.metrics s) +
       ProducerService.messages_failed (ProducerService.metrics s) +
       length answers)%nat /\
    ProducerService.publish_duration (ProducerService.metrics s') =
      (ProducerService.publish_duration (ProducerService.metrics s) +
       length answers)%nat /\
    publishes t = length answers /\
    reported t =
      map ProducerService.order_id_of
        (seq (ProducerService.order_counter s) (length answers)).
Proof.
  revert s. induction answers as [ | answer rest IH]; intros s Hall.
  - exists s, []. simpl. repeat split; lia.
  - inversion Hall as [ | ? ? Hanswer Hrest]; subst.
    destruct (iteration_cases answer s)
      as (order_template & attributes & _ & _ & _ & Hturn).
    rewrite loop_cons, Hturn. clear Hturn.
    destruct answer as [response | e]; simpl in Hanswer.
    + destruct (dict_get response "MessageId") as [message_id | ];
        [ | discriminate Hanswer].
      destruct (IH (turned ProducerService.inc_published s) Hrest)
        as (s' & t & -> & Hcounter & Hcount & Hduration & Hpublishes
            & Hreported).
      eexists. eexists. split; [reflexivity | ].
      simpl in *. rewrite Hcounter, Hcount, Hduration.
      unfold publishes, reported in *. simpl.
      rewrite Hpublishes.
      destruct (py_truth message_id); simpl; rewrite Hreported;
        repeat split; lia.
    + rewrite Hanswer.
      destruct (IH (turned ProducerService.inc_failed s) Hrest)
        as (s' & t & -> & Hcounter & Hcount & Hduration & Hpublishes
            & Hreported).
      eexists. eexists. split; [reflexivity | ].
      simpl in *. rewrite Hcounter, Hcount, Hduration.
      unfold publishes, reported in *. simpl.
      rewrite Hpublishes, Hreported.
      repeat split; lia.
Qed.

(** X10.  While the SNS client answers, with a response that has a
    ['MessageId'] or with [ClientError], [main] goes through every turn:
    it calls the client once a turn, counts every turn as published or as
    failed, observes one duration a turn, and reports on the orders
    ORD-001, ORD-002, ... in order. *)
Theorem producer_goes_through_every_turn answers s :
  Forall (fun answer => answered answer = true) answers ->
  producer_outcome (ProducerService.main answers s) = Return tt /\
  publishes (producer_events (ProducerService.main answers s)) =
    length answers /\
  reported (producer_events (ProducerService.main answers s)) =
    map ProducerService.order_id_of (seq 1 (length answers)) /\
  (ProducerService.messages_published
     (ProducerService.metrics
        (producer_final (ProducerService.main answers s))) +
   ProducerService.messages_failed
     (ProducerService.metrics
        (producer_final (ProducerService.main answers s))))%nat =
    (ProducerService.messages_published (ProducerService.metrics s) +
     ProducerService.messages_failed (ProducerService.metrics s) +
     length answers)%nat /\
  ProducerService.publish_duration
    (ProducerService.metrics
       (producer_final (ProducerService.main answers s))) =
    (ProducerService.publish_duration (ProducerService.metrics s) +
     length answers)%nat.
Proof.
  intro Hall. rewrite producer_main_loop.
  destruct (loop_answered
              {| ProducerService.metrics := ProducerService.metrics s;
                 ProducerService.order_counter := 1;
                 ProducerService.clock := ProducerService.clock s |} Hall)
    as (s' & t & -> & _ & Hcount & Hduration & Hpublishes & Hreported).
  unfold producer_outcome, producer_events, producer_final. simpl in *.
  auto.
Qed.

(** Any turns: the reports are for the orders of a first part of them. *)
Lemma loop_reports answers s :
  exists turns,
    (turns <= length answers)%nat /\
    reported (producer_events (ProducerService.loop answers s)) =
      map ProducerService.order_id_of
        (seq (ProducerService.order_counter s) turns).
Proof.
  revert s. induction answers as [ | answer rest IH]; intro s.
  - exists 0%nat. split; [simpl; lia | reflexivity].
  - destruct (iteration_cases answer s)
      as (order_template & attributes & _ & _ & _ & Hturn).
    rewrite loop_cons, Hturn. clear Hturn.
    assert (Hstop : exists turns,
              (turns <= length (answer :: rest))%nat /\
              @nil string =
                map ProducerService.order_id_of
                  (seq (ProducerService.order_counter s) turns))
      by (exists 0%nat; split; [simpl; lia | reflexivity]).
    assert (Hgo :
      forall count before line,
        reported before = [] ->
        reported [ProducerService.Stdout line] =
          [ProducerService.order_id_of (ProducerService.order_counter s)] ->
        exists turns,
          (turns <= length (answer :: rest))%nat /\
          reported
            (producer_events
               (match ProducerService.loop rest (turned count s) with
                | (r, s2, t2) =>
                    (r, s2,
                     before ++
                     [ProducerService.Stdout line; ProducerService.Sleep 2]
                     ++ t2)
                end)) =
            map ProducerService.order_id_of
              (seq (ProducerService.order_counter s) turns)).
    { intros count before line Hbefore Hline.
      destruct (IH (turned count s)) as (turns & Hle & Hreported).
      unfold producer_events in *.
      destruct (ProducerService.loop rest (turned count s)) as [[r s2] t2].
      cbn [snd] in *.
      exists (S turns). split; [simpl; lia | ].
      change ([ProducerService.Stdout line; ProducerService.Sleep 2] ++ t2)
        with ([ProducerService.Stdout line] ++
              ProducerService.Sleep 2 :: t2).
      rewrite !reported_app, Hbefore, Hline.
      simpl. f_equal. exact Hreported. }
    destruct answer as [response | e].
    + destruct (dict_get response "MessageId") as [message_id | ];
        [ | exact Hstop].
      apply (Hgo ProducerService.inc_published
               [ProducerService.SnsPublish _ _ _]); [reflexivity | ].
      destruct (py_truth message_id); reflexivity.
    + destruct (is_ClientError e); [ | exact Hstop].
      apply (Hgo ProducerService.inc_failed
               [ProducerService.SnsPublish _ _ _;
                ProducerService.Stdout (ProducerService.LErrorPublishing e)]);
        reflexivity.
Qed.

(** X11.  The order ids of a run are all different: whatever the SNS
    client does, and whether a turn ends in a response, an error or an
    exception that stops [main], the orders that [main] reports on are
    ORD-001, ORD-002, ... up to the last turn it finished, and no two of
    them have the same id, also after ORD-999. *)
Theorem order_ids_are_distinct answers s :
  NoDup (reported (producer_events (ProducerService.main answers s))) /\
  exists turns,
    (turns <= length answers)%nat /\
    reported (producer_events (ProducerService.main answers s)) =
      map ProducerService.order_id_of (seq 1 turns).
Proof.
  rewrite producer_main_loop.
  destruct (loop_reports answers
              {| ProducerService.metrics := ProducerService.metrics s;
                 ProducerService.order_counter := 1;
                 ProducerService.clock := ProducerService.clock s |})
    as (turns & Hle & Hreported).
  simpl in Hreported. rewrite Hreported.
  split; [apply order_ids_NoDup | ].
  exists turns. split; [exact Hle | reflexivity].
Qed.

(** X12.  [main] has no handler of its own: the first call of the SNS
    client that raises something other than [ClientError], or whose
    response has no ['MessageId'], ends [main] with that exception, after
    the call and before any report on that order. *)
Theorem producer_stops_on_other_errors before answer rest s :
  Forall (fun answer => answered answer = true) before ->
  answered answer = false ->
  producer_outcome (ProducerService.main (before ++ answer :: rest) s) =
    Raise (unanswered answer) /\
  publishes
    (producer_events (ProducerService.main (before ++ answer :: rest) s)) =
    S (length before) /\
  reported
    (producer_events (ProducerService.main (before ++ answer :: rest) s)) =
    map ProducerService.order_id_of (seq 1 (length before)).
Proof.
  intros Hbefore Hanswer. rewrite producer_main_loop, loop_app.
  destruct (loop_answered
              {| ProducerService.metrics := ProducerService.metrics s;
                 ProducerService.order_counter := 1;
                 ProducerService.clock := ProducerService.clock s |} Hbefore)
    as (s1 & t1 & -> & _ & _ & _ & Hpublishes & Hreported).
  destruct (iteration_cases answer s1)
    as (order_template & attributes & _ & _ & _ & Hturn).
  rewrite loop_cons, Hturn. clear Hturn.
  simpl in Hreported.
  destruct answer as [response | e]; simpl in Hanswer.
  - destruct (dict_get response "MessageId") as [message_id | ];
      [discriminate Hanswer | ].
    unfold producer_outcome, producer_events. simpl fst. simpl snd.
    rewrite publishes_app, reported_app, Hpublishes, Hreported.
    split; [reflexivity | split; [ | apply app_nil_r]].
    unfold publishes. simpl. lia.
  - rewrite Hanswer.
    unfold producer_outcome, producer_events. simpl fst. simpl snd.
    rewrite publishes_app, reported_app, Hpublishes, Hreported.
    split; [reflexivity | split; [ | apply app_nil_r]].
    unfold publishes. simpl. lia.
Qed.

(** What [main] hands to the SNS client. *)
Lemma loop_publishes answers s topic_arn text attributes :
  In (ProducerService.SnsPublish topic_arn text attributes)
     (producer_events (ProducerService.loop answers s)) ->
  topic_arn = ProducerService.SNS_TOPIC_ARN /\
  exists order_counter order_template timestamp,
    In order_template Producer.order_templates /\
    Producer.message_attributes order_template = Return attributes /\
    text =
      json_dumps
        (ProducerService.order_message
           (ProducerService.order_id_of order_counter)
           (Producer.customer_id order_template)
           (Producer.items order_template)
           (Producer.total order_template)
           timestamp).
Proof.
  revert s. induction answers as [ | answer rest IH]; intros s Hin;
    [destruct Hin | ].
  destruct (iteration_cases answer s)
    as (order_template & attributes' & _ & Htemplate & Hattributes & Hturn).
  rewrite loop_cons, Hturn in Hin. clear Hturn.
  assert (Hhere :
    forall e,
      e = ProducerService.SnsPublish ProducerService.SNS_TOPIC_ARN
            (json_dumps
               (ProducerService.order_message
                  (ProducerService.order_id_of
                     (ProducerService.order_counter s))
                  (Producer.customer_id order_template)
                  (Producer.items order_template)
                  (Producer.total order_template)
                  (isoformat (ProducerService.clock s))))
            attributes' ->
      e = ProducerService.SnsPublish topic_arn text attributes ->
      topic_arn = ProducerService.SNS_TOPIC_ARN /\
      exists order_counter order_template timestamp,
        In order_template Producer.order_templates /\
        Producer.message_attributes order_template = Return attributes /\
        text =
          json_dumps
            (ProducerService.order_message
               (ProducerService.order_id_of order_counter)
               (Producer.customer_id order_template)
               (Producer.items order_template)
               (Producer.total order_template)
               timestamp)).
  { intros e -> [= <- <- <-]. split; [reflexivity | ].
    exists (ProducerService.order_counter s), order_template,
      (isoformat (ProducerService.clock s)). auto. }
  assert (Hlater :
    forall s1,
      In (ProducerService.SnsPublish topic_arn text attributes)
         (snd (ProducerService.loop rest s1)) ->
      topic_arn = ProducerService.SNS_TOPIC_ARN /\
      exists order_counter order_template timestamp,
        In order_template Producer.order_templates /\
        Producer.message_attributes order_template = Return attributes /\
        text =
          json_dumps
            (ProducerService.order_message
               (ProducerService.order_id_of order_counter)
               (Producer.customer_id order_template)
               (Producer.items order_template)
               (Producer.total order_template)
               timestamp))
    by (intros s1; apply IH).
  clear IH. unfold producer_events in Hin.
  destruct answer as [response | e].
  - destruct (dict_get response "MessageId") as [message_id | ].
    + destruct (ProducerService.loop rest _) as [[r s2] t2] eqn:Hloop.
      simpl in Hin.
      destruct Hin as [Heq | [Heq | [Heq | Hin]]].
      * exact (Hhere _ eq_refl Heq).
      * destruct (py_truth message_id); discriminate Heq.
      * discriminate Heq.
      * apply (Hlater (turned ProducerService.inc_published s)).
        rewrite Hloop. exact Hin.
    + simpl in Hin. destruct Hin as [Heq | []].
      exact (Hhere _ eq_refl Heq).
  - destruct (is_ClientError e).
    + destruct (ProducerService.loop rest _) as [[r s2] t2] eqn:Hloop.
      simpl in Hin.
      destruct Hin as [Heq | [Heq | [Heq | [Heq | Hin]]]];
        try discriminate Heq.
      * exact (Hhere _ eq_refl Heq).
      * apply (Hlater (turned ProducerService.inc_failed s)).
        rewrite Hloop. exact Hin.
    + simpl in Hin. destruct Hin as [Heq | []].
      exact (Hhere _ eq_refl Heq).
Qed.

(** X13.  What the producer publishes, both consumers take: every call of
    the SNS client in a run of [main] is to [SNS_TOPIC_ARN], with the
    attributes [order_type] and [priority], and with the text of an order
    on which [send_notification] returns True and on which
    [process_order] returns True when the text parses back to the
    order. *)
Theorem published_orders_are_accepted answers s topic_arn text attributes :
  In (ProducerService.SnsPublish topic_arn text attributes)
     (producer_events (ProducerService.main answers s)) ->
  topic_arn = ProducerService.SNS_TOPIC_ARN /\
  map fst attributes = ["order_type"; "priority"] /\
  exists order,
    text = json_dumps order /\
    (forall s1,
       outcome (Notification.send_notification order s1) = Return true) /\
    (forall s1,
       json_loads text = Some order ->
       outcome (OrderProcessing.process_order text s1) = Return true).
Proof.
  rewrite producer_main_loop. intro Hin.
  apply loop_publishes in Hin.
  destruct Hin as (-> & order_counter & order_template & timestamp
                   & Htemplate & Hattributes & ->).
  split; [reflexivity | ].
  split.
  { unfold Producer.message_attributes in Hattributes.
    destruct (py_lt_int _ _); [ | discriminate Hattributes].
    injection Hattributes as <-. reflexivity. }
  eexists. split; [reflexivity | ].
  pose proof (joinable_strings (Producer.items order_template)) as Hitems.
  pose proof (order_templates_formattable Htemplate) as Htotal.
  pose proof (order_id_encodable order_counter) as Hid.
  destruct (order_templates_printable Htemplate) as [Hcustomer Hprintable].
  split.
  - intro s1. rewrite send_notification_outcome. f_equal.
    apply notifiable_fields.
    do 5 eexists.
    split; [reflexivity | ].
    repeat (split; [reflexivity | ]).
    repeat (split; [assumption | ]). assumption.
  - intros s1 Hloads. rewrite process_order_outcome, Hloads. f_equal.
    apply processable_fields.
    do 6 eexists.
    split; [reflexivity | ].
    repeat (split; [reflexivity | ]).
    repeat (split; [assumption | ]). reflexivity.
Qed.

End Producing.

(** * The reference json library reads back what it writes *)

Module CodecFacts.
Import Codec.

(** A string literal is read back, and what follows it is left. *)
Lemma read_write_string s r :
  read_string (write_string s ++ r) = Some (s, r).
Proof.
  induction s as [ | c s IH].
  - reflexivity.
  - destruct c as [[] [] [] [] [] [] [] []]; simpl; rewrite IH; reflexivity.
Qed.



Lemma read_digits_uint d r acc count :
  no_digit_head r = true ->
  read_digits (NilEmpty.string_of_uint d ++ r) acc count =
    (horner d acc, count + Z.of_nat (Decimal.nb_digits d), r).
Proof.
  intro Hr. revert acc count.
  induction d; intros acc count; simpl NilEmpty.string_of_uint;
    try (cbn [append read_digits];
         match goal with
         | |- context [digit_of ?c] =>
             let v := eval vm_compute in (digit_of c) in
             change (digit_of c) with v
         end;
         cbv iota beta; rewrite IHd; cbn [horner Decimal.nb_digits];
         rewrite Nat2Z.inj_succ;
         apply f_equal2; [apply f_equal2; [f_equal; lia | lia] | reflexivity]).
  cbn [append horner Decimal.nb_digits]. rewrite Z.add_0_r.
  destruct r as [ | c r]; [reflexivity | ].
  simpl in Hr. simpl. destruct (digit_of c); [discriminate Hr | reflexivity].
Qed.

Lemma horner_positive d acc :
  horner d (Z.pos acc) = Z.pos (Pos.of_uint_acc d acc).
Proof.
  revert acc. induction d; intro acc; cbn [horner Pos.of_uint_acc];
    try reflexivity;
    rewrite <- IHd; f_equal; rewrite ?Pos2Z.inj_add, ?Pos2Z.inj_mul; lia.
Qed.

(** The digits of a positive number start with a digit that is not zero. *)
Lemma to_uint_head p :
  exists k l,
    1 <= k <= 9 /\
    NilEmpty.string_of_uint (Pos.to_uint p) =
      String (byte (48 + k)) (NilEmpty.string_of_uint l) /\
    horner l k = Z.pos p.
Proof.
  pose proof (DecimalPos.Unsigned.of_to p) as Hof.
  pose proof (DecimalPos.Unsigned.to_of (Pos.to_uint p)) as Hnorm.
  rewrite Hof in Hnorm. simpl in Hnorm.
  pose proof (DecimalPos.Unsigned.to_uint_nonzero p) as Hzero.
  assert (Hhead :
    forall k l acc,
      Pos.of_uint_acc l acc = p -> Z.pos acc = k -> horner l k = Z.pos p).
  { intros k l acc <- <-. apply horner_positive. }
  assert (Hdigit :
    forall k l acc,
      N.pos (Pos.of_uint_acc l acc) = N.pos p -> Z.pos acc = k ->
      1 <= k <= 9 ->
      forall text,
        text = String (byte (48 + k)) (NilEmpty.string_of_uint l) ->
        exists k l,
          1 <= k <= 9 /\
          text = String (byte (48 + k)) (NilEmpty.string_of_uint l) /\
          horner l k = Z.pos p).
  { intros k l acc [= Hacc] Hk Hrange text ->. exists k, l.
    split; [exact Hrange | split; [reflexivity | exact (Hhead k l acc Hacc Hk)]]. }
  destruct (Pos.to_uint p) as [ | l | l | l | l | l | l | l | l | l | l];
    [discriminate Hof | | | | | | | | | | ];
    try (apply (Hdigit _ l _ Hof eq_refl); [lia | reflexivity]).
  exfalso. unfold Decimal.unorm in Hnorm.
  destruct (Decimal.nzhead (Decimal.D0 l)) eqn:Hnz; try discriminate Hnorm.
  - injection Hnorm as Hl. subst l. apply Hzero. reflexivity.
  - elim (DecimalFacts.nzhead_nonzero _ _ Hnz).
Qed.

Lemma closes_cases r :
  closes r = true ->
  r = EmptyString \/
  exists r', r = String "," r' \/ r = String "]" r' \/ r = String "}" r'.
Proof.
  destruct r as [ | c r']; [auto | ].
  simpl. intro Hc. right. exists r'.
  apply orb_true_iff in Hc. destruct Hc as [Hc | Hc].
  - apply orb_true_iff in Hc. destruct Hc as [Hc | Hc];
      apply Ascii.eqb_eq in Hc; subst c; auto.
  - apply Ascii.eqb_eq in Hc; subst c; auto.
Qed.

Ltac closing Hr :=
  let r' := fresh "r" in
  destruct (closes_cases _ Hr) as [-> | [r' [-> | [-> | ->]]]].

Lemma closes_no_digit r : closes r = true -> no_digit_head r = true.
Proof. intro Hr. closing Hr; reflexivity. Qed.

Lemma digit_of_byte k :
  0 <= k <= 9 -> digit_of (byte (48 + k)) = Some k.
Proof.
  intro Hk.
  assert (Hcases : k = 0 \/ k = 1 \/ k = 2 \/ k = 3 \/ k = 4 \/ k = 5 \/
                   k = 6 \/ k = 7 \/ k = 8 \/ k = 9) by lia.
  repeat (destruct Hcases as [-> | Hcases]; [reflexivity | ]).
  subst k. reflexivity.
Qed.

Lemma string_of_Z_pos p :
  string_of_Z (Z.pos p) = NilEmpty.string_of_uint (Pos.to_uint p).
Proof.
  unfold string_of_Z. simpl.
  pose proof (DecimalPos.Unsigned.to_uint_nonnil p) as Hnil.
  destruct (Pos.to_uint p); [elim Hnil; reflexivity | reflexivity ..].
Qed.

Lemma string_of_Z_neg p :
  string_of_Z (Z.neg p) = String "-" (string_of_Z (Z.pos p)).
Proof. reflexivity. Qed.

(** The text of a natural number: its first character is a digit, as an
    integer part it reads as the number, and so it does as a run of
    digits, of which there is one at least. *)
Lemma natural_text n r :
  0 <= n ->
  no_digit_head r = true ->
  exists k text,
    0 <= k <= 9 /\
    (string_of_Z n ++ r)%string = String (byte (48 + k)) text /\
    read_integer_part (string_of_Z n ++ r) = Some (n, r) /\
    exists count,
      0 < count /\ read_digits (string_of_Z n ++ r) 0 0 = (n, count, r).
Proof.
  intros Hn Hr. destruct n as [ | p | p]; [ | | lia].
  - exists 0, r. split; [lia | split; [reflexivity | split]].
    + reflexivity.
    + exists 1. split; [lia | ].
      change (string_of_Z 0 ++ r)%string with (String "0" r).
      cbn [read_digits]. change (digit_of "0") with (Some 0). cbv iota beta.
      destruct r as [ | c r]; [reflexivity | ].
      simpl in Hr. simpl. destruct (digit_of c); [discriminate Hr | reflexivity].
  - rewrite string_of_Z_pos.
    destruct (to_uint_head p) as (k & l & Hk & -> & Hvalue).
    exists k, (NilEmpty.string_of_uint l ++ r)%string.
    split; [lia | split; [reflexivity | ]].
    assert (Hdigit : digit_of (byte (48 + k)) = Some k)
      by (apply digit_of_byte; lia).
    split.
    + unfold read_integer_part. cbn [append]. rewrite Hdigit.
      rewrite (@read_digits_uint l r k 1 Hr), Hvalue.
      destruct k; try lia; reflexivity.
    + exists (1 + Z.of_nat (Decimal.nb_digits l)). split; [lia | ].
      cbn [append read_digits]. rewrite Hdigit.
      rewrite (@read_digits_uint l r _ _ Hr).
      replace (10 * 0 + k) with k by lia. rewrite Hvalue. reflexivity.
Qed.

Ltac each_digit k Hk :=
  let Hcases := fresh "Hcases" in
  assert (Hcases : k = 0 \/ k = 1 \/ k = 2 \/ k = 3 \/ k = 4 \/ k = 5 \/
                   k = 6 \/ k = 7 \/ k = 8 \/ k = 9) by lia;
  clear Hk;
  repeat (destruct Hcases as [-> | Hcases]; [ | ]); [ .. | subst k].

Lemma closes_no_fraction r : closes r = true -> read_fraction r = None.
Proof. intro Hr. closing Hr; reflexivity. Qed.

Lemma closes_no_exponent r : closes r = true -> read_exponent r = None.
Proof. intro Hr. closing Hr; reflexivity. Qed.

Lemma read_magnitude_int negative n r :
  0 <= n ->
  closes r = true ->
  read_magnitude negative (string_of_Z n ++ r) =
    Some (JInt (if negative then - n else n), r).
Proof.
  intros Hn Hr.
  destruct (@natural_text n r Hn (@closes_no_digit r Hr))
    as (k & text & Hk & Htext & Hinteger & _).
  unfold read_magnitude.
  rewrite Hinteger, (@closes_no_fraction r Hr), (@closes_no_exponent r Hr).
  reflexivity.
Qed.

(** An exponent as [dumps] writes it. *)
Lemma read_exponent_text e r :
  closes r = true ->
  read_exponent (String "e" (string_of_Z e ++ r)) = Some (e, r).
Proof.
  intro Hr. pose proof (@closes_no_digit r Hr) as Hd.
  assert (Hnatural :
    forall n, 0 <= n ->
      read_exponent (String "e" (string_of_Z n ++ r)) = Some (n, r) /\
      exists count,
        0 < count /\ read_digits (string_of_Z n ++ r) 0 0 = (n, count, r)).
  { intros n Hn.
    destruct (@natural_text n r Hn Hd)
      as (k & text & Hk & Htext & _ & count & Hcount & Hdigits).
    split; [ | exists count; auto].
    unfold read_exponent. cbn [Ascii.eqb Bool.eqb orb andb].
    rewrite Htext in *.
    assert (Hsign :
      Ascii.eqb (byte (48 + k)) "-" = false /\
      Ascii.eqb (byte (48 + k)) "+" = false)
      by (each_digit k Hk; split; reflexivity).
    destruct Hsign as [-> ->]. rewrite Hdigits.
    destruct (Z.eqb_spec count 0); [lia | reflexivity]. }
  destruct e as [ | p | p].
  - apply Hnatural. lia.
  - apply Hnatural. lia.
  - rewrite string_of_Z_neg.
    destruct (Hnatural (Z.pos p)) as (_ & count & Hcount & Hdigits); [lia | ].
    unfold read_exponent. cbn [Ascii.eqb Bool.eqb orb andb append].
    rewrite Hdigits.
    destruct (Z.eqb_spec count 0); [lia | reflexivity].
Qed.

Lemma read_magnitude_float negative n e r :
  0 <= n ->
  closes r = true ->
  read_magnitude negative (string_of_Z n ++ String "e" (string_of_Z e ++ r)) =
    Some (JFloat (FFinite (if negative then - n else n) e), r).
Proof.
  intros Hn Hr.
  destruct (@natural_text n (String "e" (string_of_Z e ++ r)) Hn eq_refl)
    as (k & text & Hk & Htext & Hinteger & _).
  unfold read_magnitude. rewrite Hinteger.
  change (read_fraction (String "e" (string_of_Z e ++ r))) with
    (@None (Z * Z * string)).
  rewrite (@read_exponent_text e r Hr). reflexivity.
Qed.

Lemma append_assoc (a b c : string) : ((a ++ b) ++ c = a ++ (b ++ c))%string.
Proof. induction a as [ | x a IH]; [reflexivity | simpl; rewrite IH; reflexivity]. Qed.

(** The text of a number starts with a digit, or with a minus sign and a
    digit. *)
Lemma number_head z r :
  exists c text,
    (string_of_Z z ++ r)%string = String c text /\
    ((c = "-"%char /\
      exists k text', 0 <= k <= 9 /\ text = String (byte (48 + k)) text')
     \/ exists k, 0 <= k <= 9 /\ c = byte (48 + k)).
Proof.
  destruct z as [ | p | p].
  - exists "0"%char, r. split; [reflexivity | ].
    right. exists 0. split; [lia | reflexivity].
  - rewrite string_of_Z_pos.
    destruct (to_uint_head p) as (k & l & Hk & -> & _).
    eexists. eexists. split; [reflexivity | ].
    right. exists k. split; [lia | reflexivity].
  - rewrite string_of_Z_neg, string_of_Z_pos.
    destruct (to_uint_head p) as (k & l & Hk & -> & _).
    eexists. eexists. split; [reflexivity | ]. left.
    split; [reflexivity | ].
    exists k. eexists. split; [lia | reflexivity].
Qed.

(** An integer and a finite float as [dumps] writes them. *)
Lemma read_number_int z r :
  closes r = true ->
  read_number (string_of_Z z ++ r) = Some (JInt z, r).
Proof.
  intro Hr. destruct z as [ | p | p].
  - apply (@read_magnitude_int false 0 r); [lia | exact Hr].
  - destruct (@natural_text (Z.pos p) r) as (k & text & Hk & Htext & _);
      [lia | apply closes_no_digit; exact Hr | ].
    unfold read_number. rewrite Htext.
    assert (Hsign : Ascii.eqb (byte (48 + k)) "-" = false)
      by (each_digit k Hk; reflexivity).
    rewrite Hsign, <- Htext.
    apply (@read_magnitude_int false (Z.pos p) r); [lia | exact Hr].
  - rewrite string_of_Z_neg. unfold read_number.
    cbn [append Ascii.eqb Bool.eqb andb].
    apply (@read_magnitude_int true (Z.pos p) r); [lia | exact Hr].
Qed.

Lemma read_number_float m e r :
  closes r = true ->
  read_number (string_of_Z m ++ String "e" (string_of_Z e ++ r)) =
    Some (JFloat (FFinite m e), r).
Proof.
  intro Hr. destruct m as [ | p | p].
  - apply (@read_magnitude_float false 0 e r); [lia | exact Hr].
  - destruct (@natural_text (Z.pos p)
                (String "e" (string_of_Z e ++ r)))
      as (k & text & Hk & Htext & _); [lia | reflexivity | ].
    unfold read_number. rewrite Htext.
    assert (Hsign : Ascii.eqb (byte (48 + k)) "-" = false)
      by (each_digit k Hk; reflexivity).
    rewrite Hsign, <- Htext.
    apply (@read_magnitude_float false (Z.pos p) e r); [lia | exact Hr].
  - rewrite string_of_Z_neg. unfold read_number.
    cbn [append Ascii.eqb Bool.eqb andb].
    apply (@read_magnitude_float true (Z.pos p) e r); [lia | exact Hr].
Qed.



Lemma dumps_array l : dumps (JArray l) = String "[" (write_elements l).
Proof. reflexivity. Qed.

Lemma dumps_object d : dumps (JObject d) = String "{" (write_members d).
Proof. reflexivity. Qed.

Lemma dumps_head v r :
  exists c text, (dumps v ++ r)%string = String c text /\ opens c = true.
Proof.
  destruct v as [ | [] | z | [m e | [] | ] | s | l | d];
    try (eexists; eexists; split; reflexivity).
  - cbn [dumps]. destruct (number_head z r) as (c & text & -> & Hc).
    exists c, text. split; [reflexivity | ].
    destruct Hc as [[-> _] | (k & Hk & ->)]; [reflexivity | ].
    each_digit k Hk; reflexivity.
  - cbn [dumps]. rewrite append_assoc.
    destruct (number_head m (String "e" (string_of_Z e) ++ r))
      as (c & text & -> & Hc).
    exists c, text. split; [reflexivity | ].
    destruct Hc as [[-> _] | (k & Hk & ->)]; [reflexivity | ].
    each_digit k Hk; reflexivity.
Qed.

Lemma skip_whitespace_opens c text :
  opens c = true -> skip_whitespace (String c text) = String c text.
Proof.
  unfold opens. intro Hc. simpl.
  destruct (is_whitespace c); [discriminate Hc | reflexivity].
Qed.

Lemma skip_whitespace_dumps v r :
  skip_whitespace (dumps v ++ r) = (dumps v ++ r)%string.
Proof.
  destruct (dumps_head v r) as (c & text & -> & Hc).
  apply skip_whitespace_opens. exact Hc.
Qed.

Lemma reads_atom v :
  match v with
  | JNull | JBool _ | JFloat (FInf _) | JFloat FNan => True
  | _ => False
  end ->
  reads v.
Proof.
  intros Hv fuel r Hfuel _.
  destruct v as [ | [] | z | [m e | [] | ] | s | l | d]; try elim Hv;
    (destruct fuel as [ | fuel]; [simpl in Hfuel; lia | reflexivity]).
Qed.

Lemma reads_string s : reads (JString s).
Proof.
  intros fuel r Hfuel _. simpl in Hfuel.
  destruct fuel as [ | fuel]; [lia | ].
  simpl dumps. unfold quote. cbn [append read_value].
  change (Ascii.eqb quote_char quote_char) with true. cbv iota.
  rewrite read_write_string. reflexivity.
Qed.

(** A number is read by [read_number]: its text is no constant. *)
Lemma read_value_number fuel text r v :
  (exists c rest,
     text = String c rest /\
     ((c = "-"%char /\
       exists k rest', 0 <= k <= 9 /\ rest = String (byte (48 + k)) rest')
      \/ exists k, 0 <= k <= 9 /\ c = byte (48 + k))) ->
  read_number text = Some (v, r) ->
  read_value (S fuel) text = Some (v, r).
Proof.
  intros (c & rest & -> & Hc) Hnumber.
  destruct Hc as [(-> & k & rest' & Hk & ->) | (k & Hk & ->)].
  - each_digit k Hk; simpl read_value; exact Hnumber.
  - each_digit k Hk; simpl read_value; exact Hnumber.
Qed.

Lemma reads_int z : reads (JInt z).
Proof.
  intros fuel r Hfuel Hr. destruct fuel as [ | fuel]; [simpl in Hfuel; lia | ].
  cbn [dumps]. apply read_value_number.
  - destruct (number_head z r) as (c & text & Htext & Hc). eauto.
  - apply read_number_int. exact Hr.
Qed.

Lemma reads_float m e : reads (JFloat (FFinite m e)).
Proof.
  intros fuel r Hfuel Hr. destruct fuel as [ | fuel]; [simpl in Hfuel; lia | ].
  cbn [dumps]. rewrite append_assoc. cbn [append].
  apply read_value_number.
  - destruct (number_head m (String "e" (string_of_Z e ++ r)))
      as (c & text & Htext & Hc). eauto.
  - apply read_number_float. exact Hr.
Qed.

(** *** Lists *)

Lemma write_elements_cons x rest :
  write_elements (x :: rest) =
    (dumps x ++
     match rest with
     | [] => "]"
     | _ :: _ => String "," (String " " (write_elements rest))
     end)%string.
Proof. destruct rest; reflexivity. Qed.

Lemma write_elements_head x rest r :
  exists c text,
    (write_elements (x :: rest) ++ r)%string = String c text /\
    opens c = true.
Proof.
  rewrite write_elements_cons, append_assoc. apply dumps_head.
Qed.

Lemma read_write_elements l :
  Forall reads l ->
  forall before fuel r,
    l <> [] ->
    (size_elements l <= fuel)%nat ->
    closes r = true ->
    read_elements fuel (write_elements l ++ r) before =
      Some (JArray (before ++ l), r).
Proof.
  induction 1 as [ | x rest Hx Hrest IH]; intros before fuel r Hl Hfuel Hr;
    [elim Hl; reflexivity | ].
  assert (Hsize : size_elements (x :: rest) =
                    S (size x + size_elements rest)) by reflexivity.
  rewrite Hsize in Hfuel. clear Hsize.
  destruct fuel as [ | fuel]; [lia | ].
  rewrite write_elements_cons, append_assoc. cbn [read_elements].
  destruct rest as [ | y rest].
  - change (size_elements []) with 0%nat in Hfuel. cbn [append].
    rewrite (Hx fuel (String "]" r)); [ | lia | reflexivity].
    reflexivity.
  - cbn [append].
    rewrite (Hx fuel (String "," (String " " (write_elements (y :: rest) ++ r))));
      [ | lia | reflexivity].
    cbn [skip_whitespace is_whitespace nat_of_ascii].
    change (is_whitespace ",") with false. cbv iota.
    change (Ascii.eqb "," ",") with true. cbv iota.
    change (skip_whitespace
              (String " " (write_elements (y :: rest) ++ r)))
      with (skip_whitespace (write_elements (y :: rest) ++ r)).
    destruct (write_elements_head y rest r) as (c & text & Htext & Hc).
    rewrite Htext, (@skip_whitespace_opens c text Hc), <- Htext.
    rewrite (IH (before ++ [x]) fuel r); [ | discriminate | lia | exact Hr].
    rewrite <- app_assoc. reflexivity.
Qed.

Lemma reads_array l : Forall reads l -> reads (JArray l).
Proof.
  intros Hl fuel r Hfuel Hr.
  change (size (JArray l)) with (S (size_elements l)) in Hfuel.
  destruct fuel as [ | fuel]; [lia | ].
  rewrite dumps_array. cbn [append read_value].
  change (Ascii.eqb "[" quote_char) with false.
  change (Ascii.eqb "[" "[") with true. cbv iota.
  destruct l as [ | x rest].
  - reflexivity.
  - destruct (write_elements_head x rest r) as (c & text & Htext & Hc).
    rewrite Htext, (@skip_whitespace_opens c text Hc).
    assert (Hclose : Ascii.eqb c "]" = false).
    { unfold opens in Hc. destruct (Ascii.eqb c "]");
        [rewrite andb_false_r in Hc; discriminate Hc | reflexivity]. }
    rewrite Hclose, <- Htext.
    apply (read_write_elements Hl []); [discriminate | lia | exact Hr].
Qed.

(** *** Dicts *)

Lemma distinct_fresh before k after :
  distinct (before ++ k :: after) = true ->
  existsb (String.eqb k) before = false.
Proof.
  induction before as [ | y before IH]; [reflexivity | ].
  cbn [app distinct existsb]. intro Hd.
  apply andb_true_iff in Hd. destruct Hd as [Hy Hd].
  rewrite (IH Hd), orb_false_r.
  apply negb_true_iff in Hy. rewrite existsb_app in Hy.
  apply orb_false_iff in Hy. destruct Hy as [_ Hy].
  cbn [existsb] in Hy. apply orb_false_iff in Hy. destruct Hy as [Hy _].
  rewrite String.eqb_sym. exact Hy.
Qed.

Lemma dict_set_fresh d k x :
  existsb (String.eqb k) (map fst d) = false ->
  dict_set d k x = d ++ [(k, x)].
Proof.
  induction d as [ | [k' v] d IH]; [reflexivity | ].
  cbn [map fst existsb dict_set app]. intro Hk.
  apply orb_false_iff in Hk. destruct Hk as [-> Hk].
  rewrite (IH Hk). reflexivity.
Qed.

Lemma write_members_cons k x rest :
  write_members ((k, x) :: rest) =
    String quote_char
      (write_string k ++
       String ":" (String " "
         (dumps x ++
          match rest with
          | [] => "}"
          | _ :: _ => String "," (String " " (write_members rest))
          end)))%string.
Proof.
  destruct rest; reflexivity.
Qed.

Lemma write_members_head entry rest r :
  exists c text,
    (write_members (entry :: rest) ++ r)%string = String c text /\
    opens c = true.
Proof.
  destruct entry as [k x]. rewrite write_members_cons.
  eexists. eexists. split; reflexivity.
Qed.

Lemma read_write_members d :
  Forall (fun entry => reads (snd entry)) d ->
  forall before fuel r,
    d <> [] ->
    (size_members d <= fuel)%nat ->
    closes r = true ->
    distinct (map fst before ++ map fst d) = true ->
    read_members fuel (write_members d ++ r) before =
      Some (JObject (before ++ d), r).
Proof.
  induction 1 as [ | [k x] rest Hx Hrest IH];
    intros before fuel r Hd Hfuel Hr Hkeys; [elim Hd; reflexivity | ].
  assert (Hsize : size_members ((k, x) :: rest) =
                    S (size x + size_members rest)) by reflexivity.
  rewrite Hsize in Hfuel. clear Hsize.
  destruct fuel as [ | fuel]; [lia | ].
  cbn [map fst] in Hkeys. cbn [snd] in Hx.
  pose proof (@dict_set_fresh before k x
                (@distinct_fresh (map fst before) k (map fst rest) Hkeys))
    as Hset.
  rewrite write_members_cons. cbn [append read_members].
  change (Ascii.eqb quote_char quote_char) with true. cbv iota.
  rewrite append_assoc, read_write_string. cbn [append].
  cbn [skip_whitespace]. change (is_whitespace ":") with false. cbv iota.
  change (Ascii.eqb ":" ":") with true. cbv iota.
  change (skip_whitespace (String " " ?s)) with (skip_whitespace s).
  rewrite append_assoc, skip_whitespace_dumps.
  destruct rest as [ | [k' y] rest].
  - change (size_members []) with 0%nat in Hfuel. cbn [append].
    rewrite (Hx fuel (String "}" r)); [ | lia | reflexivity].
    cbn [skip_whitespace]. change (is_whitespace "}") with false. cbv iota.
    change (Ascii.eqb "}" ",") with false.
    change (Ascii.eqb "}" "}") with true. cbv iota.
    rewrite Hset. reflexivity.
  - cbn [append].
    rewrite (Hx fuel
               (String "," (String " "
                  (write_members ((k', y) :: rest) ++ r))));
      [ | lia | reflexivity].
    cbn [skip_whitespace]. change (is_whitespace ",") with false. cbv iota.
    change (Ascii.eqb "," ",") with true. cbv iota.
    change (skip_whitespace
              (String " " (write_members ((k', y) :: rest) ++ r)))
      with (skip_whitespace (write_members ((k', y) :: rest) ++ r)).
    destruct (write_members_head (k', y) rest r) as (c & text & Htext & Hc).
    rewrite Htext, (@skip_whitespace_opens c text Hc), <- Htext.
    rewrite Hset.
    rewrite (IH (before ++ [(k, x)]) fuel r);
      [ | discriminate | lia | exact Hr | ].
    + rewrite <- app_assoc. reflexivity.
    + rewrite map_app, <- app_assoc. exact Hkeys.
Qed.

Lemma reads_object d :
  distinct (map fst d) = true ->
  Forall (fun entry => reads (snd entry)) d ->
  reads (JObject d).
Proof.
  intros Hkeys Hd fuel r Hfuel Hr.
  change (size (JObject d)) with (S (size_members d)) in Hfuel.
  destruct fuel as [ | fuel]; [lia | ].
  rewrite dumps_object. cbn [append read_value].
  change (Ascii.eqb "{" quote_char) with false.
  change (Ascii.eqb "{" "[") with false.
  change (Ascii.eqb "{" "{") with true. cbv iota.
  destruct d as [ | entry rest].
  - reflexivity.
  - destruct (write_members_head entry rest r) as (c & text & Htext & Hc).
    rewrite Htext, (@skip_whitespace_opens c text Hc).
    assert (Hclose : Ascii.eqb c "}" = false).
    { unfold opens in Hc. destruct (Ascii.eqb c "}");
        [rewrite andb_false_r in Hc; discriminate Hc | reflexivity]. }
    rewrite Hclose, <- Htext.
    apply (read_write_members Hd []); [discriminate | lia | exact Hr | exact Hkeys].
Qed.

(** Every value that Python can hold is read back. *)
Lemma well_formed_reads v : well_formed v = true -> reads v.
Proof.
  induction v as [ | b | z | f | s | l IH | d IH] using json_induction;
    intro Hv.
  - apply reads_atom. exact I.
  - apply reads_atom. exact I.
  - apply reads_int.
  - destruct f as [m e | negative | ].
    + apply reads_float.
    + apply reads_atom. exact I.
    + apply reads_atom. exact I.
  - apply reads_string.
  - apply reads_array. cbn [well_formed] in Hv.
    rewrite forallb_forall in Hv. rewrite Forall_forall in *.
    intros x Hx. apply (IH x Hx). apply Hv. exact Hx.
  - cbn [well_formed] in Hv. apply andb_true_iff in Hv.
    destruct Hv as [Hkeys Hv].
    apply reads_object; [exact Hkeys | ].
    rewrite forallb_forall in Hv. rewrite Forall_forall in *.
    intros entry Hentry. apply (IH entry Hentry). apply Hv. exact Hentry.
Qed.

(** *** The fuel of [loads] is enough *)

Lemma length_append (a b : string) :
  String.length (a ++ b) = (String.length a + String.length b)%nat.
Proof. induction a as [ | c a IH]; [reflexivity | simpl; rewrite IH; reflexivity]. Qed.

Lemma size_length v : (size v <= String.length (dumps v))%nat.
Proof.
  induction v as [ | b | z | f | s | l IH | d IH] using json_induction.
  - simpl. lia.
  - destruct b; simpl; lia.
  - destruct (number_head z EmptyString) as (c & text & Htext & _).
    cbn [dumps size].
    assert (Hnil : forall a, (a ++ "")%string = a)
      by (induction a as [ | ? ? IHa]; [reflexivity | simpl; rewrite IHa; reflexivity]).
    rewrite Hnil in Htext. rewrite Htext. simpl. lia.
  - destruct f as [m e | [] | ]; try (simpl; lia).
    destruct (number_head m (String "e" (string_of_Z e)))
      as (c & text & Htext & _).
    cbn [dumps size]. rewrite Htext. simpl. lia.
  - simpl. lia.
  - rewrite dumps_array.
    change (size (JArray l)) with (S (size_elements l)).
    cbn [String.length]. apply le_n_S.
    induction IH as [ | x rest Hx Hrest IHrest];
      [change (size_elements []) with 0%nat; lia | ].
    rewrite write_elements_cons, length_append.
    change (size_elements (x :: rest)) with (S (size x + size_elements rest)).
    destruct rest as [ | y rest].
    + change (size_elements []) with 0%nat. simpl String.length. lia.
    + cbn [String.length]. lia.
  - rewrite dumps_object.
    change (size (JObject d)) with (S (size_members d)).
    cbn [String.length]. apply le_n_S.
    induction IH as [ | [k x] rest Hx Hrest IHrest];
      [change (size_members []) with 0%nat; lia | ].
    rewrite write_members_cons. cbn [String.length snd] in *.
    rewrite length_append. cbn [String.length]. rewrite length_append.
    change (size_members ((k, x) :: rest))
      with (S (size x + size_members rest)).
    destruct rest as [ | entry rest].
    + change (size_members []) with 0%nat. simpl String.length. lia.
    + cbn [String.length]. lia.
Qed.

(** [loads] reads back what [dumps] writes. *)
Theorem loads_dumps v : well_formed v = true -> loads (dumps v) = Some v.
Proof.
  intro Hv. unfold loads.
  assert (Hnil : forall a, (a ++ "")%string = a)
    by (induction a as [ | ? ? IHa]; [reflexivity | simpl; rewrite IHa; reflexivity]).
  rewrite <- (Hnil (dumps v)) at 2.
  rewrite skip_whitespace_dumps.
  rewrite (@well_formed_reads v Hv _ EmptyString);
    [reflexivity | | reflexivity].
  pose proof (size_length v). lia.
Qed.



Lemma dict_set_keys d k x a :
  existsb (String.eqb a) (map fst (dict_set d k x)) =
    existsb (String.eqb a) (map fst d) || String.eqb a k.
Proof.
  induction d as [ | [k' v] d IH]; cbn [dict_set map fst existsb].
  - rewrite orb_false_r. reflexivity.
  - destruct (String.eqb_spec k k') as [-> | Hk]; cbn [map fst existsb].
    + destruct (String.eqb a k'); [reflexivity | ].
      rewrite orb_false_r. reflexivity.
    + rewrite IH, orb_assoc. reflexivity.
Qed.

Lemma distinct_dict_set d k x :
  distinct (map fst d) = true -> distinct (map fst (dict_set d k x)) = true.
Proof.
  induction d as [ | [k' v] d IH]; [reflexivity | ].
  cbn [dict_set map fst distinct]. intro Hd.
  apply andb_true_iff in Hd. destruct Hd as [Hk' Hd].
  destruct (String.eqb_spec k k') as [-> | Hk]; cbn [map fst distinct].
  - rewrite Hk', Hd. reflexivity.
  - rewrite dict_set_keys, (IH Hd).
    apply negb_true_iff in Hk'. rewrite Hk'.
    destruct (String.eqb_spec k' k) as [-> | _]; [elim Hk; reflexivity | ].
    reflexivity.
Qed.

Lemma well_formed_dict_set d k x :
  well_formed (JObject d) = true ->
  well_formed x = true ->
  well_formed (JObject (dict_set d k x)) = true.
Proof.
  cbn [well_formed]. intros Hd Hx.
  apply andb_true_iff in Hd. destruct Hd as [Hkeys Hvalues].
  rewrite (@distinct_dict_set d k x Hkeys). cbn [andb].
  clear Hkeys.
  induction d as [ | [k' v] d IH]; cbn [dict_set forallb snd].
  - rewrite Hx. reflexivity.
  - cbn [forallb snd] in Hvalues.
    apply andb_true_iff in Hvalues. destruct Hvalues as [Hv Hvalues].
    destruct (String.eqb k k'); cbn [forallb snd].
    + rewrite Hx, Hvalues. reflexivity.
    + rewrite Hv, (IH Hvalues). reflexivity.
Qed.

Lemma well_formed_snoc before x :
  well_formed (JArray before) = true ->
  well_formed x = true ->
  well_formed (JArray (before ++ [x])) = true.
Proof.
  cbn [well_formed]. intros Hb Hx.
  rewrite forallb_app, Hb. cbn [forallb]. rewrite Hx. reflexivity.
Qed.

Ltac split_match_in H :=
  match type of H with
  | context [match ?x with _ => _ end] =>
      lazymatch x with
      | context [match _ with _ => _ end] => fail
      | _ => destruct x eqn:?
      end
  end.

Lemma read_constant_well_formed s v r :
  read_constant s = Some (v, r) -> well_formed v = true.
Proof.
  unfold read_constant. intro H.
  repeat (split_match_in H; try discriminate H);
    inversion H; subst; reflexivity.
Qed.

Lemma read_number_well_formed s v r :
  read_number s = Some (v, r) -> well_formed v = true.
Proof.
  unfold read_number, read_magnitude. intro H.
  repeat (split_match_in H; try discriminate H);
    inversion H; subst; reflexivity.
Qed.

Lemma read_well_formed fuel :
  (forall s v r,
     read_value fuel s = Some (v, r) -> well_formed v = true) /\
  (forall s before v r,
     well_formed (JArray before) = true ->
     read_elements fuel s before = Some (v, r) -> well_formed v = true) /\
  (forall s before v r,
     well_formed (JObject before) = true ->
     read_members fuel s before = Some (v, r) -> well_formed v = true).
Proof.
  induction fuel as [ | fuel (IHvalue & IHelements & IHmembers)].
  - repeat split; intros; discriminate.
  - split; [ | split].
    + intros s v r H. cbn [read_value] in H.
      repeat (split_match_in H; try discriminate H);
        match type of H with
        | Some _ = Some _ =>
            inversion H; subst; clear H;
            first
              [ reflexivity
              | match goal with
                | Hc : read_constant _ = Some _ |- _ =>
                    exact (@read_constant_well_formed _ _ _ Hc)
                end ]
        | read_elements _ _ _ = _ => exact (IHelements _ [] _ _ eq_refl H)
        | read_members _ _ _ = _ => exact (IHmembers _ [] _ _ eq_refl H)
        | read_number _ = _ => exact (@read_number_well_formed _ _ _ H)
        end.
    + intros s before v r Hbefore H. cbn [read_elements] in H.
      repeat (split_match_in H; try discriminate H);
        match goal with
        | Hv : read_value fuel _ = Some (?x, _) |- _ =>
            pose proof (@well_formed_snoc before x Hbefore (IHvalue _ _ _ Hv))
              as Hnext
        end;
        match type of H with
        | Some _ = Some _ => inversion H; subst; clear H; exact Hnext
        | read_elements _ _ _ = _ => exact (IHelements _ _ _ _ Hnext H)
        end.
    + intros s before v r Hbefore H. cbn [read_members] in H.
      repeat (split_match_in H; try discriminate H);
        match goal with
        | Hv : read_value fuel _ = Some (?x, _), Hk : read_string _ = Some (?k, _) |- _ =>
            pose proof (@well_formed_dict_set before k x Hbefore (IHvalue _ _ _ Hv))
              as Hnext
        end;
        match type of H with
        | Some _ = Some _ => inversion H; subst; clear H; exact Hnext
        | read_members _ _ _ = _ => exact (IHmembers _ _ _ _ Hnext H)
        end.
Qed.

(** What [loads] returns is a value that Python can hold. *)
Theorem loads_well_formed text v :
  loads text = Some v -> well_formed v = true.
Proof.
  unfold loads. intro H.
  repeat (split_match_in H; try discriminate H).
  inversion H; subst.
  match goal with
  | Hv : read_value ?fuel _ = Some _ |- _ =>
      exact (proj1 (read_well_formed fuel) _ _ _ Hv)
  end.
Qed.

End CodecFacts.

(** * Scenarios *)

(** The reference environment of the scenarios: the json library above, a
    queue that refuses to delete the handles that start with [gone], and
    instants rendered as their number. *)
Definition reference_environment : External := {|
  json_loads := Codec.loads;
  json_loads_error := fun text => JSONDecodeError;
  json_dumps := Codec.dumps;
  sqs_delete_message := fun receipt_handle =>
    if String.prefix "gone" receipt_handle
    then Raise (ClientError "ReceiptHandleIsInvalid")
    else Return tt;
  isoformat := fun t => Codec.string_of_Z (Z.of_nat t);
  json_loads_error_Exception := fun text => eq_refl;
  json_loads_well_formed := @CodecFacts.loads_well_formed;
  json_dumps_loads := @CodecFacts.loads_dumps
|}.

(** The same reader and writer, with a queue that cannot be reached when
    a delete is sent. *)
Definition unreachable_environment : External := {|
  json_loads := Codec.loads;
  json_loads_error := fun text => JSONDecodeError;
  json_dumps := Codec.dumps;
  sqs_delete_message := fun receipt_handle =>
    Raise (OtherException "EndpointConnectionError");
  isoformat := fun t => Codec.string_of_Z (Z.of_nat t);
  json_loads_error_Exception := fun text => eq_refl;
  json_loads_well_formed := @CodecFacts.loads_well_formed;
  json_dumps_loads := @CodecFacts.loads_dumps
|}.

#[local] Existing Instance reference_environment.

Ltac evaluate := vm_compute; reflexivity.

Lemma wrapped_payload_reaches_handler_witness :
  json_loads (Body wrapped_order) =
    Some (JObject (envelope_fields (Codec.dumps ord_001))) /\
  dict_get (envelope_fields (Codec.dumps ord_001)) "Message" =
    Some (JString (Codec.dumps ord_001)) /\
  json_loads (Codec.dumps ord_001) = Some ord_001 /\
  Notification.handle_message wrapped_order initial_state =
    received_then initial_state
      (committed "rh-1" (ArgOrder ord_001)
         (Notification.send_notification ord_001
            (arrived (fun m => m) initial_state))) /\
  OrderProcessing.handle_message wrapped_order initial_state =
    received_then initial_state
      (committed "rh-1" (ArgBody (Codec.dumps ord_001))
         (OrderProcessing.process_order (Codec.dumps ord_001)
            (arrived inc_received initial_state))) /\
  outcome (OrderProcessing.process_order (Codec.dumps ord_001)
             (arrived inc_received initial_state)) =
    Return (processable ord_001).
Proof.
  assert (Hbody : json_loads (Body wrapped_order) =
            Some (JObject (envelope_fields (Codec.dumps ord_001))))
    by evaluate.
  assert (Hfield : dict_get (envelope_fields (Codec.dumps ord_001)) "Message"
                   = Some (JString (Codec.dumps ord_001)))
    by evaluate.
  assert (Hinner : json_loads (Codec.dumps ord_001) = Some ord_001)
    by evaluate.
  destruct (@wrapped_payload_reaches_handler reference_environment
              wrapped_order _ _ _ initial_state Hbody Hfield Hinner)
    as ((Hn & _) & Ho & _ & Hp).
  split; [exact Hbody | split; [exact Hfield | split; [exact Hinner | ]]].
  split; [exact Hn | split; [exact Ho | exact Hp]].
Defined.

Lemma raw_payload_reaches_handler_witness :
  json_loads (Body raw_order) = Some ord_001 /\
  dict_get ord_001_fields "Message" = None /\
  Notification.handle_message raw_order initial_state =
    received_then initial_state
      (committed "rh-2" (ArgOrder ord_001)
         (Notification.send_notification ord_001
            (arrived (fun m => m) initial_state))) /\
  OrderProcessing.handle_message raw_order initial_state =
    received_then initial_state
      (committed "rh-2" (ArgBody (Body raw_order))
         (OrderProcessing.process_order (Body raw_order)
            (arrived inc_received initial_state))) /\
  outcome (OrderProcessing.process_order (Body raw_order)
             (arrived inc_received initial_state)) =
    Return (processable ord_001).
Proof.
  assert (Hbody : json_loads (Body raw_order) = Some (JObject ord_001_fields))
    by evaluate.
  assert (Hfield : dict_get ord_001_fields "Message" = None) by evaluate.
  destruct (@raw_payload_reaches_handler reference_environment
              raw_order _ initial_state Hbody Hfield)
    as ((Hn & _) & Ho & Hp).
  split; [exact Hbody | split; [exact Hfield | ]].
  split; [exact Hn | split; [exact Ho | exact Hp]].
Defined.


Lemma order_processing_counts_handled_messages_witness :
  In (Handled "rh-1" (ArgBody (Codec.dumps ord_001)) true)
     (events (OrderProcessing.handle_message wrapped_order initial_state)) /\
  registry (final (OrderProcessing.handle_message wrapped_order
                     initial_state)) =
    counted true (registry initial_state).
Proof.
  assert (Hin : In (Handled "rh-1" (ArgBody (Codec.dumps ord_001)) true)
                   (events (OrderProcessing.handle_message wrapped_order
                              initial_state))).
  { vm_compute. do 7 right. left. reflexivity. }
  split; [exact Hin | ].
  destruct (@order_processing_counts_handled_messages reference_environment
              wrapped_order initial_state) as (_ & Hcounts & _).
  apply (Hcounts _ _ _ Hin).
Defined.

(** C4 as stated fails for the notification consumer: it handles the
    order of the scenario with success and counts nothing. *)
Lemma notification_counts_nothing :
  In (Handled "rh-1" (ArgOrder ord_001) true)
     (events (Notification.handle_message wrapped_order initial_state)) /\
  ~ counts_one_message (registry initial_state)
      (registry (final (Notification.handle_message wrapped_order
                          initial_state))).
Proof.
  split.
  - vm_compute. do 6 right. left. reflexivity.
  - vm_compute. intros (Hreceived & _). discriminate Hreceived.
Qed.

Lemma process_order_redelivery_witness :
  outcome (OrderProcessing.process_order (Body raw_order) initial_state) =
    Return true /\
  outcome (OrderProcessing.process_order (Body raw_order)
             (final (OrderProcessing.process_order (Body raw_order)
                       initial_state))) =
    Return true.
Proof.
  assert (Hfirst :
    outcome (OrderProcessing.process_order (Body raw_order) initial_state) =
      Return true) by evaluate.
  split; [exact Hfirst | ].
  apply (@process_order_redelivery reference_environment _ _ _ Hfirst).
Defined.

(** C9 as stated fails: when the queue cannot be reached the SQS call
    raises an exception that is not a [ClientError]; [receive_messages]
    of either consumer raises it to [main], which ends with it, having
    written nothing. *)
Lemma receive_messages_raises :
  OrderProcessing.receive_messages
    (Raise (OtherException "EndpointConnectionError")) initial_state =
    (Raise (OtherException "EndpointConnectionError"), initial_state, []) /\
  Notification.receive_messages
    (Raise (OtherException "EndpointConnectionError")) initial_state =
    (Raise (OtherException "EndpointConnectionError"), initial_state, []) /\
  OrderProcessing.main
    [Raise (OtherException "EndpointConnectionError");
     Return {| Messages := Some [raw_order] |}]
    initial_state =
    (Raise (OtherException "EndpointConnectionError"), initial_state, []) /\
  Notification.main
    [Raise (OtherException "EndpointConnectionError");
     Return {| Messages := Some [raw_order] |}]
    initial_state =
    (Raise (OtherException "EndpointConnectionError"), initial_state, []).
Proof. repeat split. Qed.

Lemma priority_threshold_witness :
  (number_value (Producer.total template_499_99) =
     Some (float_value 499990000000000009094947017729282379150390625 (-42)) /\
   (float_value 499990000000000009094947017729282379150390625 (-42)
    < inject_Z 500)%Q /\
   Producer.priority template_499_99 = Return "normal") /\
  (number_value (Producer.total template_500_00) =
     Some (float_value 50000 (-2)) /\
   (inject_Z 500 <= float_value 50000 (-2))%Q /\
   Producer.priority template_500_00 = Return "high").
Proof.
  split.
  - assert (Hvalue : number_value (Producer.total template_499_99) =
              Some (float_value
                      499990000000000009094947017729282379150390625 (-42)))
      by reflexivity.
    assert (Hbelow :
      (float_value 499990000000000009094947017729282379150390625 (-42)
       < inject_Z 500)%Q) by (vm_compute; reflexivity).
    split; [exact Hvalue | split; [exact Hbelow | ]].
    apply (proj1 (priority_threshold template_499_99 Hvalue)). exact Hbelow.
  - assert (Hvalue : number_value (Producer.total template_500_00) =
              Some (float_value 50000 (-2))) by reflexivity.
    assert (Habove : (inject_Z 500 <= float_value 50000 (-2))%Q)
      by (vm_compute; discriminate).
    split; [exact Hvalue | split; [exact Habove | ]].
    apply (proj2 (priority_threshold template_500_00 Hvalue)). exact Habove.
Defined.

(** C3 fails on the code: a body that is not JSON ends [main] of either
    consumer with [JSONDecodeError].  Nothing is written about the failure,
    the order that came with it in the same batch is never handled, and
    the next poll never happens. *)
Theorem malformed_body_stops_the_loop :
  OrderProcessing.main
    [Return {| Messages := Some [malformed; wrapped_order] |};
     Return {| Messages := Some [raw_order] |}]
    initial_state =
    (Raise JSONDecodeError,
     {| registry := inc_received (registry initial_state);
        message_count := 1;
        clock := 0 |},
     [Stdout (LReceived 1)]) /\
  Notification.main
    [Return {| Messages := Some [malformed; wrapped_order] |};
     Return {| Messages := Some [raw_order] |}]
    initial_state =
    (Raise JSONDecodeError,
     {| registry := registry initial_state;
        message_count := 1;
        clock := 0 |},
     [Stdout (LReceived 1)]).
Proof. split; evaluate. Qed.

(** C5 fails on the code.  After one message whose handling failed and
    an interrupt, [main] of either consumer stops and writes a total of 1:
    the order-processing service as its messages processed, while its own
    counter of processed messages stands at 0 and the counter of failed
    messages at 1; the notification service as its notifications sent,
    while the one call of [send_notification] returned False.  Neither
    deleted anything. *)
Theorem summary_counts_failed_messages :
  OrderProcessing.main
    [Return {| Messages := Some [incomplete_order] |};
     Raise KeyboardInterrupt]
    initial_state =
    (Return Stopped,
     {| registry := {| messages_received := 1; messages_processed := 0;
                       messages_failed := 1; process_duration := 1 |};
        message_count := 1;
        clock := 0 |},
     [Stdout (LReceived 1);
      Stdout (LProcessingOrder (JString "ORD-001"));
      Stdout (LErrorProcessing (KeyError "customer_id"));
      Handled "rh-4" (ArgBody (Body incomplete_order)) false;
      Stdout (LTotalProcessed 1)]) /\
  Notification.main
    [Return {| Messages := Some [incomplete_order] |};
     Raise KeyboardInterrupt]
    initial_state =
    (Return Stopped,
     {| registry := registry initial_state;
        message_count := 1;
        clock := 0 |},
     [Stdout (LReceived 1);
      Stdout (LErrorSending (KeyError "customer_id"));
      Handled "rh-4"
        (ArgOrder (JObject [("order_id", JString "ORD-001")])) false;
      Stdout (LTotalSent 1)]).
Proof. split; evaluate. Qed.

(** ** The handlers and one message *)

Ltac member := vm_compute; repeat (first [left; reflexivity | right]).


(** An order with every field and a surrogate in its id is refused by
    both handlers at the first line that shows the id. *)
Lemma surrogate_order_is_refused :
  json_loads (json_dumps surrogate_order) = Some surrogate_order /\
  OrderProcessing.process_order (json_dumps surrogate_order) initial_state =
    (Return false,
     {| registry := {| messages_received := 0; messages_processed := 0;
                       messages_failed := 1; process_duration := 1 |};
        message_count := 0;
        clock := 0 |},
     [Stdout (LErrorProcessing UnicodeEncodeError)]) /\
  Notification.send_notification surrogate_order initial_state =
    (Return false, initial_state,
     [Stdout (LSendingTo (JString "CUST-001"));
      Stdout (LErrorSending UnicodeEncodeError)]).
Proof. repeat split; evaluate. Qed.

Lemma refused_delete_is_reported_deleted_witness :
  sqs_delete_message (ReceiptHandle gone_order) =
    Raise (ClientError "ReceiptHandleIsInvalid") /\
  In (Handled (ReceiptHandle gone_order) (ArgOrder ord_001) true)
     (events (Notification.handle_message gone_order initial_state)) /\
  outcome (Notification.handle_message gone_order initial_state) =
    Return tt /\
  exists before,
    events (Notification.handle_message gone_order initial_state) =
      before ++
      [Handled (ReceiptHandle gone_order) (ArgOrder ord_001) true;
       SqsDelete (ReceiptHandle gone_order);
       Stdout (LErrorDeleting (ClientError "ReceiptHandleIsInvalid"));
       Stdout LDeleted].
Proof.
  assert (Hdelete : sqs_delete_message (ReceiptHandle gone_order) =
                      Raise (ClientError "ReceiptHandleIsInvalid"))
    by evaluate.
  assert (Hin : In (Handled (ReceiptHandle gone_order) (ArgOrder ord_001)
                      true)
                   (events (Notification.handle_message gone_order
                              initial_state)))
    by member.
  split; [exact Hdelete | split; [exact Hin | ]].
  apply (proj2 (@refused_delete_is_reported_deleted reference_environment
                  gone_order initial_state "ReceiptHandleIsInvalid"
                  (ArgOrder ord_001) Hdelete) Hin).
Defined.

(** ** Whole runs *)

Lemma consumer_survives_handler_failures_witness :
  Forall benign three_polls /\
  (forall message, In message (delivered three_polls) ->
                   survivable message) /\
  outcome (OrderProcessing.main three_polls initial_state) =
    Return StillPolling /\
  received (events (OrderProcessing.main three_polls initial_state)) =
    3%nat /\
  handled (events (OrderProcessing.main three_polls initial_state)) =
    3%nat.
Proof.
  assert (Hpolls : Forall benign three_polls).
  { repeat constructor. }
  assert (Hall : forall message, In message (delivered three_polls) ->
                                 survivable message).
  { intros message Hin. simpl in Hin.
    destruct Hin as [<- | [<- | [<- | []]]];
      (split; [eexists; evaluate | ]);
      intros e Heq; vm_compute in Heq;
      first [discriminate Heq | injection Heq as <-; reflexivity]. }
  split; [exact Hpolls | split; [exact Hall | ]].
  apply (proj1 (@consumer_survives_handler_failures reference_environment
                  three_polls initial_state Hpolls Hall)).
Defined.

Lemma only_delivered_messages_are_handled_witness :
  In (SqsDelete "rh-2")
     (events (OrderProcessing.main three_polls initial_state)) /\
  exists message,
    In message (delivered three_polls) /\ ReceiptHandle message = "rh-2".
Proof.
  assert (Hin : In (SqsDelete "rh-2")
                   (events (OrderProcessing.main three_polls initial_state)))
    by member.
  split; [exact Hin | ].
  apply (proj1 (@only_delivered_messages_are_handled reference_environment
                  three_polls initial_state "rh-2")).
  left. exact Hin.
Defined.

(** ** The producer *)

Lemma producer_goes_through_every_turn_witness :
  Forall (fun answer => answered answer = true) three_answers /\
  producer_outcome
    (ProducerService.main three_answers ProducerService.initial_state) =
    Return tt /\
  publishes
    (producer_events
       (ProducerService.main three_answers ProducerService.initial_state)) =
    3%nat /\
  reported
    (producer_events
       (ProducerService.main three_answers ProducerService.initial_state)) =
    map ProducerService.order_id_of (seq 1 3).
Proof.
  assert (Hall : Forall (fun answer => answered answer = true)
                   three_answers).
  { repeat constructor. }
  split; [exact Hall | ].
  destruct (@producer_goes_through_every_turn reference_environment
              three_answers ProducerService.initial_state Hall)
    as (Hreturn & Hpublishes & Hreported & _).
  split; [exact Hreturn | split; [exact Hpublishes | exact Hreported]].
Defined.

Lemma producer_stops_on_other_errors_witness :
  Forall (fun answer => answered answer = true)
    [Return [("MessageId", JString "m-1")]] /\
  answered (Raise (OtherException "EndpointConnectionError")) = false /\
  producer_outcome
    (ProducerService.main
       ([Return [("MessageId", JString "m-1")]] ++
        Raise (OtherException "EndpointConnectionError") :: three_answers)
       ProducerService.initial_state) =
    Raise (OtherException "EndpointConnectionError") /\
  reported
    (producer_events
       (ProducerService.main
          ([Return [("MessageId", JString "m-1")]] ++
           Raise (OtherException "EndpointConnectionError") :: three_answers)
          ProducerService.initial_state)) =
    map ProducerService.order_id_of (seq 1 1).
Proof.
  assert (Hbefore : Forall (fun answer => answered answer = true)
                      [Return [("MessageId", JString "m-1")]]).
  { repeat constructor. }
  assert (Hanswer :
    answered (Raise (OtherException "EndpointConnectionError")) = false)
    by reflexivity.
  split; [exact Hbefore | split; [exact Hanswer | ]].
  destruct (@producer_stops_on_other_errors reference_environment
              [Return [("MessageId", JString "m-1")]]
              (Raise (OtherException "EndpointConnectionError"))
              three_answers ProducerService.initial_state Hbefore Hanswer)
    as (Hraise & _ & Hreported).
  split; [exact Hraise | exact Hreported].
Defined.

Lemma published_orders_are_accepted_witness :
  In (ProducerService.SnsPublish ProducerService.SNS_TOPIC_ARN
        (json_dumps first_order) first_attributes)
     (producer_events
        (ProducerService.main three_answers ProducerService.initial_state)) /\
  json_loads (json_dumps first_order) = Some first_order /\
  exists order,
    json_dumps first_order = json_dumps order /\
    (forall s1,
       outcome (Notification.send_notification order s1) = Return true) /\
    (forall s1,
       json_loads (json_dumps first_order) = Some order ->
       outcome (OrderProcessing.process_order (json_dumps first_order) s1) =
         Return true).
Proof.
  assert (Hin :
    In (ProducerService.SnsPublish ProducerService.SNS_TOPIC_ARN
          (json_dumps first_order) first_attributes)
       (producer_events
          (ProducerService.main three_answers
             ProducerService.initial_state)))
    by member.
  split; [exact Hin | split; [evaluate | ]].
  apply (@published_orders_are_accepted reference_environment
           three_answers ProducerService.initial_state
           ProducerService.SNS_TOPIC_ARN (json_dumps first_order)
           first_attributes Hin).
Defined.

Lemma other_delete_failure_leaves_main_witness :
  @decode unreachable_environment (Body raw_order) =
    Return (false, ord_001) /\
  @sqs_delete_message unreachable_environment (ReceiptHandle raw_order) =
    Raise (OtherException "EndpointConnectionError") /\
  notifiable ord_001 = true /\
  outcome (@Notification.main unreachable_environment
             [Return {| Messages := Some [raw_order] |}] initial_state) =
    Raise (OtherException "EndpointConnectionError").
Proof.
  assert (Hd : @decode unreachable_environment (Body raw_order) =
                 Return (false, ord_001)) by evaluate.
  assert (Hdelete :
    @sqs_delete_message unreachable_environment (ReceiptHandle raw_order) =
      Raise (OtherException "EndpointConnectionError")) by reflexivity.
  assert (Hnotifiable : notifiable ord_001 = true) by reflexivity.
  split; [exact Hd | split; [exact Hdelete | split; [exact Hnotifiable | ]]].
  apply (proj2 (@other_delete_failure_leaves_main unreachable_environment
                  raw_order [] [] initial_state (false, ord_001)
                  (OtherException "EndpointConnectionError")
                  Hd Hdelete eq_refl eq_refl)).
  exact Hnotifiable.
Defined.

Lemma templates_are_cycled_witness :
  (1 <= 6)%nat /\
  Producer.select_template (6 + length Producer.order_templates) =
    Producer.select_template 6.
Proof.
  assert (Hone : (1 <= 6)%nat) by lia.
  split; [exact Hone | ].
  apply (proj2 (@templates_are_cycled 6 Hone)).
Defined.
